(** * ubuntu-commander: the frame cache and the OCR perception pipeline

    A shallow embedding of [src/servers/vision.py] (frame cache, OCR result
    cache, match ranking) and of [get_screen] from [src/servers/server.py].

    - Python floats are IEEE 754 binary64 numbers: they are Rocq's primitive
      floats, so [time.time() - timestamp], [* 1000], [/ 100.0] and the
      comparisons are the machine operations.
    - [CachedFrame] objects live in a heap indexed by object identity; the
      cache slot [_frame_cache._frame] and the local variables of the callers
      hold addresses, so that [self._frame.ocr_data = ...] is seen through
      every alias.
    - [time.time()], [pyautogui.screenshot], the OCR engine and the template
      matcher are collaborators: an environment gives the value of their
      k-th call, the world counts the calls made.
    - Python exceptions are an error type threaded through a state monad. *)

From Stdlib Require Import ZArith List Bool Ascii String Floats Lia Sorted Permutation.
From stdpp Require Import base option gmap strings.
Import ListNotations.

Local Open Scope Z_scope.

(** ** Exceptions *)

Inductive Exc : Type :=
| ValueError
| TypeError
| OverflowError
| IndexError
| ImportError
| FileNotFoundError
| ImageNotFoundException
| TesseractError
| DanglingReference.

(** ** Python floats *)

Module PyFloat.

Definition zero : float := 0%float.
Definition hundred : float := 100%float.
Definition thousand : float := 1000%float.
Definition inf : float := infinity.

(** [x > y], [x >= y], [x < y] of Python on floats. *)
Definition gt (x y : float) : bool := PrimFloat.ltb y x.
Definition ge (x y : float) : bool := PrimFloat.leb y x.
Definition lt (x y : float) : bool := PrimFloat.ltb x y.

Definition is_nan (x : float) : bool := negb (PrimFloat.eqb x x).

(** [float(n)] for an int [n]: the nearest binary64 number, ties to even;
    [OverflowError] when it is out of range. *)
Definition of_int (n : Z) : Exc + float :=
  match binary_normalize prec emax n 0 false with
  | S754_infinity _ => inl OverflowError
  | sf => inr (SF2Prim sf)
  end.

(** The order of the comparisons, read on the specification of binary64
    numbers: a number that is not NaN is ranked by sign class, then
    exponent, then mantissa; [-0.0] and [0.0] have the same rank. *)
Definition sf_rank (x : spec_float) : Z * Z * Z :=
  match x with
  | S754_nan => (0, 0, 0)
  | S754_infinity true => (-2, 0, 0)
  | S754_infinity false => (2, 0, 0)
  | S754_zero _ => (0, 0, 0)
  | S754_finite true m e => (-1, - e, - Zpos m)
  | S754_finite false m e => (1, e, Zpos m)
  end.

Definition lex_lt (p q : Z * Z * Z) : Prop :=
  let '(a, b, c) := p in
  let '(a', b', c') := q in
  a < a' \/ (a = a' /\ (b < b' \/ (b = b' /\ c < c'))).

Definition sf_is_nan (x : spec_float) : bool :=
  match x with S754_nan => true | _ => false end.

Definition rank (x : float) : Z * Z * Z := sf_rank (Prim2SF x).

End PyFloat.

(** ** Python values met in the [conf] column of the OCR table *)

Inductive PyVal : Type :=
| PyInt (n : Z)
| PyFlt (f : float)
| PyStr (s : string)
| PyNone.

(** ** Strings: code points below 256 *)

Module PyStr.

Definition code (c : ascii) : N := N_of_ascii c.

(** [str.isspace] on one character. *)
Definition is_space (c : ascii) : bool :=
  let n := code c in
  (((9 <=? n) && (n <=? 13)) || ((28 <=? n) && (n <=? 32))
   || (n =? 133) || (n =? 160))%N.

(** [str.lower] on one character. *)
Definition lower_char (c : ascii) : ascii :=
  let n := code c in
  if (((65 <=? n) && (n <=? 90))
      || ((192 <=? n) && (n <=? 222) && negb (n =? 215)))%N
  then ascii_of_N (n + 32) else c.

Fixpoint lower (s : string) : string :=
  match s with
  | EmptyString => EmptyString
  | String c s' => String (lower_char c) (lower s')
  end.

Fixpoint lstrip (s : string) : string :=
  match s with
  | EmptyString => EmptyString
  | String c s' => if is_space c then lstrip s' else s
  end.

(** Drops the trailing white space. *)
Fixpoint rstrip (s : string) : string :=
  match s with
  | EmptyString => EmptyString
  | String c s' =>
      match rstrip s' with
      | EmptyString => if is_space c then EmptyString else String c EmptyString
      | r => String c r
      end
  end.

(** [s.strip()] *)
Definition strip (s : string) : string := rstrip (lstrip s).

(** Truth value of a string: [bool(s)]. *)
Definition truthy (s : string) : bool :=
  match s with EmptyString => false | _ => true end.

Fixpoint starts_with (p s : string) : bool :=
  match p, s with
  | EmptyString, _ => true
  | String a p', String b s' => if Ascii.eqb a b then starts_with p' s' else false
  | String _ _, EmptyString => false
  end.

(** [needle in hay] *)
Fixpoint contains (needle hay : string) : bool :=
  starts_with needle hay ||
  match hay with
  | EmptyString => false
  | String _ hay' => contains needle hay'
  end.

Fixpoint all_space (s : string) : bool :=
  match s with
  | EmptyString => true
  | String c s' => is_space c && all_space s'
  end.

End PyStr.

(** ** Geometry and matches *)

Record BoundingBox : Type := mkBoundingBox {
  bb_x : Z;
  bb_y : Z;
  bb_width : Z;
  bb_height : Z
}.

(** [BoundingBox.center]; Python's [//] rounds down, as [Z.div] does. *)
Definition center (b : BoundingBox) : Z * Z :=
  (bb_x b + bb_width b / 2, bb_y b + bb_height b / 2).

Record ElementMatch : Type := mkElementMatch {
  bbox : BoundingBox;
  confidence : float;
  text : option string
}.

(** The dict built by [_ocr_data_to_matches] for one token. *)
Record BBoxDict : Type := mkBBoxDict {
  d_x : Z;
  d_y : Z;
  d_width : Z;
  d_height : Z;
  d_center_x : Z;
  d_center_y : Z
}.

Record MatchDict : Type := mkMatchDict {
  md_text : string;
  md_confidence : float;
  md_bbox : BBoxDict
}.

(** ** The raw OCR table: pytesseract's [Output.DICT], one list per column *)

Record OCRTable : Type := mkOCRTable {
  col_text : list string;
  col_conf : list PyVal;
  col_left : list Z;
  col_top : list Z;
  col_width : list Z;
  col_height : list Z
}.

(** A location yielded by the template matcher. *)
Record Box : Type := mkBox {
  left : Z;
  top : Z;
  box_width : Z;
  box_height : Z
}.

(** ** Images and frames *)

Record Image : Type := mkImage {
  img_pixels : nat;
  img_size : Z * Z
}.

Record Region : Type := mkRegion {
  rg_x : Z;
  rg_y : Z;
  rg_width : Z;
  rg_height : Z
}.

Record CachedFrame : Type := mkCachedFrame {
  image : Image;
  timestamp : float;
  width : Z;
  height : Z;
  ocr_data : option OCRTable;
  grayscale : option Image
}.

Definition set_ocr_data (d : OCRTable) (f : CachedFrame) : CachedFrame :=
  {| image := image f; timestamp := timestamp f; width := width f;
     height := height f; ocr_data := Some d; grayscale := grayscale f |}.

(** ** The world and the collaborators *)

(** The mutable state of the process: the [CachedFrame] objects by identity,
    the slot [_frame_cache._frame], and how many times the clock and the
    screen have been read. *)
Record World : Type := mkWorld {
  heap : gmap nat CachedFrame;
  slot : option nat;
  time_calls : nat;
  shot_calls : nat
}.

(** The collaborators: the value of the k-th [time.time()], of the k-th
    [pyautogui.screenshot(region)], the OCR engine, the template matcher and
    what the operating system answers to [_resolve_tesseract_cmd]. *)
Record Env : Type := mkEnv {
  time_at : nat -> float;
  screenshot_at : nat -> option Region -> Image;
  pytesseract_installed : bool;
  environ_TESSERACT_CMD : option string;
  path_exists : string -> bool;
  which : string -> option string;
  image_to_data : Image -> string -> option Z -> Exc + OCRTable;
  float_of_str : string -> option float;
  locateAllOnScreen : string -> float -> bool -> list Box * bool;
  save_jpeg : Image -> Z -> list Z;
  save_png : Image -> list Z;
  mouse_position : Z * Z
}.

Definition empty_world : World :=
  {| heap := ∅; slot := None; time_calls := 0%nat; shot_calls := 0%nat |}.

(** ** A state and exception monad *)

Definition M (A : Type) : Type := World -> (Exc + A) * World.

Definition ret {A} (a : A) : M A := fun w => (inr a, w).

Definition raise {A} (e : Exc) : M A := fun w => (inl e, w).

Definition bind {A B} (m : M A) (k : A -> M B) : M B :=
  fun w =>
    match m w with
    | (inr a, w') => k a w'
    | (inl e, w') => (inl e, w')
    end.

Notation "x <- m ;; k" := (bind m (fun x => k))
  (at level 100, m at level 99, right associativity).
Notation "m ;;; k" := (bind m (fun _ => k))
  (at level 100, right associativity).

Definition lift {A} (r : Exc + A) : M A := fun w => (r, w).

Section Vision.

Variable E : Env.

(** *** Primitive effects *)

(** [time.time()] *)
Definition time_time : M float :=
  fun w => (inr (time_at E (time_calls w)),
            {| heap := heap w; slot := slot w;
               time_calls := S (time_calls w); shot_calls := shot_calls w |}).

(** [pyautogui.screenshot(region=region)] *)
Definition screenshot (region : option Region) : M Image :=
  fun w => (inr (screenshot_at E (shot_calls w) region),
            {| heap := heap w; slot := slot w;
               time_calls := time_calls w; shot_calls := S (shot_calls w) |}).

(** Construction of a new [CachedFrame] object. *)
Definition new_frame (f : CachedFrame) : M nat :=
  fun w => let a := fresh (dom (heap w)) in
           (inr a,
            {| heap := <[a := f]> (heap w); slot := slot w;
               time_calls := time_calls w; shot_calls := shot_calls w |}).

(** [self._frame = v] *)
Definition set_slot (v : option nat) : M unit :=
  fun w => (inr tt,
            {| heap := heap w; slot := v;
               time_calls := time_calls w; shot_calls := shot_calls w |}).

(** [self._frame], with the object it points to. *)
Definition current_frame : M (option (nat * CachedFrame)) :=
  fun w => (inr (match slot w with
                 | Some a => match heap w !! a with
                             | Some f => Some (a, f)
                             | None => None
                             end
                 | None => None
                 end), w).

(** [obj.ocr_data = d] *)
Definition store_ocr_data (a : nat) (d : OCRTable) : M unit :=
  fun w => (inr tt,
            {| heap := alter (set_ocr_data d) a (heap w); slot := slot w;
               time_calls := time_calls w; shot_calls := shot_calls w |}).

(** *** CachedFrame *)

(** [CachedFrame.age_ms] *)
Definition age_ms (f : CachedFrame) : M float :=
  now <- time_time ;;
  ret (PrimFloat.mul (PrimFloat.sub now (timestamp f)) PyFloat.thousand).

(** [CachedFrame.is_stale] *)
Definition is_stale (f : CachedFrame) (max_age_ms : float) : M bool :=
  age <- age_ms f ;;
  ret (PyFloat.gt age max_age_ms).

Definition default_max_age_ms : float := 500%float.

(** *** FrameCache *)

(** [FrameCache.capture]: the test of line 63 is evaluated left to right
    and stops at the first false operand. *)
Definition capture (region : option Region) (force : bool) : M nat :=
  reuse <- (if force then ret None
            else
              cur <- current_frame ;;
              match cur with
              | None => ret None
              | Some (a, f) =>
                  stale <- is_stale f default_max_age_ms ;;
                  if stale then ret None
                  else match region with
                       | None => ret (Some a)
                       | Some _ => ret None
                       end
              end) ;;
  match reuse with
  | Some a => ret a
  | None =>
      img <- screenshot region ;;
      let '(w, h) := match region with
                     | Some r => (rg_width r, rg_height r)
                     | None => img_size img
                     end in
      now <- time_time ;;
      a <- new_frame {| image := img; timestamp := now; width := w;
                        height := h; ocr_data := None; grayscale := None |} ;;
      match region with
      | None => set_slot (Some a)
      | Some _ => ret tt
      end ;;;
      ret a
  end.

(** [FrameCache.get_cached] *)
Definition get_cached (max_age_ms : float) : M (option nat) :=
  cur <- current_frame ;;
  match cur with
  | None => ret None
  | Some (a, f) =>
      stale <- is_stale f max_age_ms ;;
      if stale then ret None else ret (Some a)
  end.

(** [FrameCache.invalidate] *)
Definition invalidate : M unit := set_slot None.

(** [FrameCache.cache_ocr_data] *)
Definition cache_ocr_data (d : OCRTable) : M unit :=
  cur <- current_frame ;;
  match cur with
  | Some (a, _) => store_ocr_data a d
  | None => ret tt
  end.

(** [FrameCache.get_cached_ocr]; a table always has its six columns, so as
    a dict it is not empty and its truth value is true. *)
Definition get_cached_ocr : M (option OCRTable) :=
  cur <- current_frame ;;
  match cur with
  | None => ret None
  | Some (a, f) =>
      stale <- is_stale f default_max_age_ms ;;
      if stale then ret None
      else match ocr_data f with
           | Some d => ret (Some d)
           | None => ret None
           end
  end.


(** [frame.image], read through the reference [a]. [DanglingReference] is
    not a Python exception: it stands for a reference to an object that
    the heap does not hold, which Python rules out. *)
Definition frame_image (a : nat) : M Image :=
  fun w => match heap w !! a with
           | Some f => (inr (image f), w)
           | None => (inl DanglingReference, w)
           end.

(** *** Exceptions in expressions without effects *)

Definition ebind {A B} (r : Exc + A) (k : A -> Exc + B) : Exc + B :=
  match r with
  | inr a => k a
  | inl e => inl e
  end.

Local Notation "x <~ r ;; k" := (ebind r (fun x => k))
  (at level 100, r at level 99, right associativity).

(** [l[i]] for [i] in [range(len(...))]. *)
Definition index {A} (l : list A) (i : nat) : Exc + A :=
  match l !! i with
  | Some x => inr x
  | None => inl IndexError
  end.

(** [float(v)] *)
Definition py_float (v : PyVal) : Exc + float :=
  match v with
  | PyInt n => PyFloat.of_int n
  | PyFlt f => inr f
  | PyStr s => match float_of_str E s with
               | Some f => inr f
               | None => inl ValueError
               end
  | PyNone => inl TypeError
  end.

(** [try: conf = float(data["conf"][i]) / 100.0
     except <caught>: conf = 0.0] *)
Definition try_conf (caught : Exc -> bool) (data : OCRTable) (i : nat)
  : Exc + float :=
  match (c <~ index (col_conf data) i ;;
         f <~ py_float c ;;
         inr (PrimFloat.div f PyFloat.hundred)) with
  | inr conf => inr conf
  | inl e => if caught e then inr PyFloat.zero else inl e
  end.

Definition except_ValueError (e : Exc) : bool :=
  match e with ValueError => true | _ => false end.

Definition except_ValueError_TypeError (e : Exc) : bool :=
  match e with ValueError | TypeError => true | _ => false end.

(** [for i in range(n): ...] where the body appends at most one element
    to the result list; the first exception ends the loop. *)
Fixpoint for_range {A} (body : nat -> Exc + option A) (r : list nat)
  : Exc + list A :=
  match r with
  | [] => inr []
  | i :: r' =>
      o <~ body i ;;
      l <~ for_range body r' ;;
      inr (match o with Some x => x :: l | None => l end)
  end.

(** *** [sorted(l, key=key, reverse=True)]

    The builtin is not code of the repository. CPython reverses the
    list, sorts it stably in ascending order comparing keys with [<]
    only, and reverses the result; the stable sort is an insertion sort
    here. On keys without NaN the result does not depend on the sorting
    algorithm, and this is the one of CPython; with a NaN among the keys
    the order of CPython may differ from this one, so what is stated on
    the order of a sorted list is stated for keys without NaN. *)
Section PySorted.

Context {A : Type} (key : A -> float).

Fixpoint insert_sorted (x : A) (l : list A) : list A :=
  match l with
  | [] => [x]
  | y :: l' =>
      if PyFloat.lt (key x) (key y) then x :: y :: l'
      else y :: insert_sorted x l'
  end.

Definition sort_stable (l : list A) : list A :=
  fold_left (fun acc x => insert_sorted x acc) l [].

Definition sorted_reverse (l : list A) : list A :=
  rev (sort_stable (rev l)).

End PySorted.

(** *** Screenshots for the tools *)

Inductive Format : Type := Jpeg | Png.

Definition save (img : Image) (format : Format) (quality : Z) : list Z :=
  match format with
  | Jpeg => save_jpeg E img quality
  | Png => save_png E img
  end.

(** [capture_screenshot] *)
Definition capture_screenshot (quality : Z) (format : Format)
    (region : option Region) (use_cache : bool) : M (list Z * Format) :=
  shot <- (match use_cache, region with
           | true, None => a <- capture None false ;; frame_image a
           | _, Some r => screenshot (Some r)
           | false, None => a <- capture None true ;; frame_image a
           end) ;;
  ret (save shot format quality, format).

Record Metadata : Type := mkMetadata {
  image_bytes : list Z;
  meta_format : Format;
  meta_width : Z;
  meta_height : Z;
  meta_timestamp : float;
  mouse_x : Z;
  mouse_y : Z
}.

(** [capture_with_metadata] *)
Definition capture_with_metadata (quality : Z) (format : Format)
    (region : option Region) : M Metadata :=
  a <- capture region true ;;
  fun w =>
    match heap w !! a with
    | None => (inl DanglingReference, w)
    | Some frame =>
        (inr {| image_bytes := save (image frame) format quality;
                meta_format := format;
                meta_width := width frame;
                meta_height := height frame;
                meta_timestamp := timestamp frame;
                mouse_x := fst (mouse_position E);
                mouse_y := snd (mouse_position E) |}, w)
    end.

(** *** Tesseract *)

Definition is_abs (p : string) : bool := PyStr.starts_with "/" p.

(** The loop of [_resolve_tesseract_cmd] over the candidates. *)
Fixpoint first_candidate (cs : list string) : option string :=
  match cs with
  | [] => None
  | c :: cs' =>
      if is_abs c then
        if path_exists E c then Some c else first_candidate cs'
      else
        match which E c with
        | Some resolved =>
            if PyStr.truthy resolved then Some resolved
            else first_candidate cs'
        | None => first_candidate cs'
        end
  end.

Definition _resolve_tesseract_cmd : option string :=
  let fallback :=
    first_candidate
      ["tesseract"; "/usr/bin/tesseract"; "/usr/local/bin/tesseract"]%string in
  match environ_TESSERACT_CMD E with
  | Some env_cmd =>
      if PyStr.truthy env_cmd && path_exists E env_cmd then Some env_cmd
      else fallback
  | None => fallback
  end.

(** [_configure_tesseract]: the module handle it returns is the pair of
    [image_to_data] and of the command now configured. *)
Definition _configure_tesseract : M string :=
  if pytesseract_installed E then
    match _resolve_tesseract_cmd with
    | Some cmd => if PyStr.truthy cmd then ret cmd else raise FileNotFoundError
    | None => raise FileNotFoundError
    end
  else raise ImportError.

(** *** Template matching *)

(** [find_template_on_screen]: the matcher yields its locations one by
    one and may raise [ImageNotFoundException] while it is iterated. *)
Definition find_template_on_screen (template_path : string)
    (confidence : float) (grayscale : bool) : M (list ElementMatch) :=
  let '(locations, not_found) :=
    locateAllOnScreen E template_path confidence grayscale in
  let matches :=
    map (fun loc =>
           {| bbox := {| bb_x := left loc; bb_y := top loc;
                         bb_width := box_width loc;
                         bb_height := box_height loc |};
              confidence := confidence;
              text := None |}) locations in
  if not_found then ret [] else ret matches.

(** *** Text queries *)

(** The body of the loop of [find_text_on_screen] and of
    [find_text_in_ocr_cache]; they differ in the exceptions caught around
    the conversion of the confidence and in the offset. *)
Definition text_match_at (caught : Exc -> bool) (data : OCRTable)
    (search_lower : string) (offset_x offset_y : Z) (min_confidence : float)
    (i : nat) : Exc + option ElementMatch :=
  word <~ index (col_text data) i ;;
  if negb (PyStr.truthy word) then inr None
  else if PyStr.contains search_lower (PyStr.lower word) then
    conf <~ try_conf caught data i ;;
    if PyFloat.ge conf min_confidence then
      l <~ index (col_left data) i ;;
      t <~ index (col_top data) i ;;
      w <~ index (col_width data) i ;;
      h <~ index (col_height data) i ;;
      inr (Some {| bbox := {| bb_x := offset_x + l; bb_y := offset_y + t;
                              bb_width := w; bb_height := h |};
                   confidence := conf;
                   text := Some word |})
    else inr None
  else inr None.

Definition range (n : nat) : list nat := seq 0 n.

(** The list [matches] of [find_text_on_screen] before it is sorted. *)
Definition text_matches (caught : Exc -> bool) (data : OCRTable)
    (text : string) (offset_x offset_y : Z) (min_confidence : float)
  : Exc + list ElementMatch :=
  let search_lower := PyStr.lower text in
  let n_boxes := length (col_text data) in
  for_range (text_match_at caught data search_lower offset_x offset_y
                           min_confidence) (range n_boxes).

(** [find_text_on_screen] *)
Definition find_text_on_screen (text lang : string)
    (region : option Region) (min_confidence : float)
  : M (list ElementMatch) :=
  _configure_tesseract ;;;
  shot <- screenshot region ;;
  let '(offset_x, offset_y) :=
    match region with
    | Some r => (rg_x r, rg_y r)
    | None => (0, 0)
    end in
  data <- lift (image_to_data E shot lang None) ;;
  matches <- lift (text_matches except_ValueError data text
                                offset_x offset_y min_confidence) ;;
  ret (sorted_reverse confidence matches).

(** [find_best_text_match] *)
Definition find_best_text_match (text lang : string)
    (region : option Region) (min_confidence : float)
  : M (option ElementMatch) :=
  matches <- find_text_on_screen text lang region min_confidence ;;
  ret (head matches).

(** The body of the loop of [_ocr_data_to_matches]. *)
Definition match_dict_at (data : OCRTable) (min_confidence : float)
    (i : nat) : Exc + option MatchDict :=
  word <~ index (col_text data) i ;;
  if negb (PyStr.truthy word) || negb (PyStr.truthy (PyStr.strip word))
  then inr None
  else
    conf <~ try_conf except_ValueError_TypeError data i ;;
    if PyFloat.lt conf min_confidence then inr None
    else
      x <~ index (col_left data) i ;;
      y <~ index (col_top data) i ;;
      w <~ index (col_width data) i ;;
      h <~ index (col_height data) i ;;
      inr (Some {| md_text := word;
                   md_confidence := conf;
                   md_bbox := {| d_x := x; d_y := y; d_width := w;
                                 d_height := h;
                                 d_center_x := x + w / 2;
                                 d_center_y := y + h / 2 |} |}).

(** [_ocr_data_to_matches] *)
Definition _ocr_data_to_matches (data : OCRTable) (min_confidence : float)
  : Exc + list MatchDict :=
  let n_boxes := length (col_text data) in
  for_range (match_dict_at data min_confidence) (range n_boxes).

(** The default value of [min_confidence] in [_ocr_data_to_matches]. *)
Definition default_min_confidence : float := PyFloat.zero.

(** Lines 406 to 418 of [ocr_full_screen]: the capture of a new frame and
    the call of the OCR engine on its image. *)
Definition ocr_full_screen_run (lang : string) (psm : Z) : M (nat * OCRTable) :=
  _configure_tesseract ;;;
  frame <- capture None true ;;
  img <- frame_image frame ;;
  data <- lift (image_to_data E img lang (Some psm)) ;;
  ret (frame, data).

(** [ocr_full_screen] up to the call of the OCR engine: either the answer
    from the cached table, or the frame captured and the engine's table. *)
Definition ocr_full_screen_scan (lang : string) (use_cache : bool) (psm : Z)
  : M (list MatchDict + nat * OCRTable) :=
  cached <- (if use_cache then get_cached_ocr else ret None) ;;
  match cached with
  | Some d =>
      r <- lift (_ocr_data_to_matches d default_min_confidence) ;;
      ret (inl r)
  | None =>
      p <- ocr_full_screen_run lang psm ;;
      ret (inr p)
  end.

(** The end of [ocr_full_screen]: lines 420 to 423. *)
Definition ocr_full_screen_publish (data : OCRTable) : M (list MatchDict) :=
  cache_ocr_data data ;;;
  lift (_ocr_data_to_matches data default_min_confidence).

(** [ocr_full_screen] *)
Definition ocr_full_screen (lang : string) (use_cache : bool) (psm : Z)
  : M (list MatchDict) :=
  r <- ocr_full_screen_scan lang use_cache psm ;;
  match r with
  | inl res => ret res
  | inr (_, data) => ocr_full_screen_publish data
  end.

(** [find_text_in_ocr_cache] *)
Definition find_text_in_ocr_cache (text : string) (min_confidence : float)
  : M (list ElementMatch) :=
  cached <- get_cached_ocr ;;
  match cached with
  | None => ret []
  | Some d =>
      matches <- lift (text_matches except_ValueError_TypeError d text
                                    0 0 min_confidence) ;;
      ret (sorted_reverse confidence matches)
  end.

(** [invalidate_frame_cache] *)
Definition invalidate_frame_cache : M unit := invalidate.

(** [get_frame_cache_age_ms] *)
Definition get_frame_cache_age_ms : M (option float) :=
  frame <- get_cached PyFloat.inf ;;
  match frame with
  | Some a =>
      fun w => match heap w !! a with
               | Some f => (age <- age_ms f ;; ret (Some age)) w
               | None => (inl DanglingReference, w)
               end
  | None => ret None
  end.

End Vision.

(** ** The [get_screen] tool of [server.py] *)

Section Server.

Variable E : Env.

(** The [Image] object handed back to the transport. *)
Record ToolImage : Type := mkToolImage {
  data : list Z;
  format : Format
}.

(** Lines 118 to 129: the region dict, whose values are ints here, becomes
    a tuple; an empty dict is false and means full screen; a missing key
    raises [KeyError], turned into [ValueError]. *)
Definition region_tuple_of (region : option (gmap string Z))
  : Exc + option Region :=
  match region with
  | None => inr None
  | Some d =>
      if decide (d = ∅) then inr None
      else match d !! "x"%string, d !! "y"%string,
                 d !! "width"%string, d !! "height"%string with
           | Some x, Some y, Some w, Some h =>
               inr (Some {| rg_x := x; rg_y := y; rg_width := w; rg_height := h |})
           | _, _, _, _ => inl ValueError
           end
  end.

(** [get_screen] *)
Definition get_screen (region : option (gmap string Z)) (quality : Z)
  : M ToolImage :=
  region_tuple <- lift (region_tuple_of region) ;;
  match region_tuple with
  | Some r =>
      res <- capture_screenshot E quality Jpeg (Some r) false ;;
      ret {| data := fst res; format := snd res |}
  | None =>
      meta <- capture_with_metadata E quality Jpeg None ;;
      ret {| data := image_bytes meta; format := meta_format meta |}
  end.

(** [Observe] as the specification words it: the frame cache's [capture]
    with [force = (region != nil)], then the encoding. *)
Definition observe_spec (region : option Region) (quality : Z) : M ToolImage :=
  a <- capture E region (match region with Some _ => true | None => false end) ;;
  img <- frame_image a ;;
  ret {| data := save E img Jpeg quality; format := Jpeg |}.

(** ** Other threads *)

(** What another tool invocation can do to the frame cache between two
    critical sections of this one. *)
Inductive CacheOp : Type :=
| OpCapture (region : option Region) (force : bool)
| OpGetCached (max_age_ms : float)
| OpInvalidate
| OpCacheOcrData (d : OCRTable)
| OpGetCachedOcr.

Definition run_op (op : CacheOp) : M unit :=
  match op with
  | OpCapture region force => capture E region force ;;; ret tt
  | OpGetCached max_age_ms => get_cached E max_age_ms ;;; ret tt
  | OpInvalidate => invalidate
  | OpCacheOcrData d => cache_ocr_data d
  | OpGetCachedOcr => get_cached_ocr E ;;; ret tt
  end.

Fixpoint run_ops (ops : list CacheOp) : M unit :=
  match ops with
  | [] => ret tt
  | op :: ops' => run_op op ;;; run_ops ops'
  end.

(** [ocr_full_screen] with the operations [others] of other threads run
    after the OCR engine has answered and before [cache_ocr_data] takes the
    lock. *)
Definition ocr_full_screen_among (others : list CacheOp)
    (lang : string) (use_cache : bool) (psm : Z) : M (list MatchDict) :=
  r <- ocr_full_screen_scan E lang use_cache psm ;;
  match r with
  | inl res => ret res
  | inr (_, d) => run_ops others ;;; ocr_full_screen_publish E d
  end.

(** The operations that neither clear the slot nor force a capture. *)
Definition quiet (op : CacheOp) : bool :=
  match op with
  | OpCapture (Some _) _ => true
  | OpCapture None _ => false
  | OpInvalidate => false
  | _ => true
  end.

End Server.

(** ** Reading the world *)

(** The frame in the slot, with its identity. *)
Definition stored_frame (w : World) : option (nat * CachedFrame) :=
  match slot w with
  | Some a => match heap w !! a with
              | Some f => Some (a, f)
              | None => None
              end
  | None => None
  end.

(** The age in milliseconds that the next reading of the clock gives to a
    frame. *)
Definition frame_age (E : Env) (w : World) (f : CachedFrame) : float :=
  PrimFloat.mul (PrimFloat.sub (time_at E (time_calls w)) (timestamp f))
                PyFloat.thousand.

(** The world after one more reading of the clock. *)
Definition tick (w : World) : World :=
  {| heap := heap w; slot := slot w;
     time_calls := S (time_calls w); shot_calls := shot_calls w |}.

(** The frame that a capture builds from the next screenshot and the next
    reading of the clock, and the world it leaves: the new object is at a
    fresh address and goes to the slot when the capture is full screen. *)
Definition new_capture (E : Env) (region : option Region) (w : World)
  : CachedFrame :=
  let img := screenshot_at E (shot_calls w) region in
  {| image := img;
     timestamp := time_at E (time_calls w);
     width := match region with Some r => rg_width r | None => fst (img_size img) end;
     height := match region with Some r => rg_height r | None => snd (img_size img) end;
     ocr_data := None;
     grayscale := None |}.

Definition take_frame (E : Env) (region : option Region) (w : World)
  : nat * World :=
  let a := fresh (dom (heap w)) in
  (a, {| heap := <[a := new_capture E region w]> (heap w);
         slot := match region with None => Some a | Some _ => slot w end;
         time_calls := S (time_calls w);
         shot_calls := S (shot_calls w) |}).

(** Two states of one frame object: only [ocr_data] may differ. *)
Definition same_capture (f f' : CachedFrame) : Prop :=
  image f' = image f /\ timestamp f' = timestamp f /\
  width f' = width f /\ height f' = height f.

(** The slot refers to an object of the heap, as in Python. *)
Definition sound (w : World) : Prop :=
  match slot w with
  | Some a => is_Some (heap w !! a)
  | None => True
  end.

(** The world after one more screenshot taken straight from the screen. *)
Definition after_shot (w : World) : World :=
  {| heap := heap w; slot := slot w;
     time_calls := time_calls w; shot_calls := S (shot_calls w) |}.

(** What a loop [for i in r] has appended when it has ended without an
    exception: the elements of the iterations that appended one, in the
    order of [r]. *)
Definition appended {A} (body : nat -> Exc + option A) (r : list nat) : list A :=
  flat_map (fun i => match body i with
                     | inr (Some x) => [x]
                     | _ => []
                     end) r.

(** [float(c)] returns, or raises an exception that the handler catches. *)
Definition convertible (E : Env) (caught : Exc -> bool) (c : PyVal) : Prop :=
  match py_float E c with
  | inr _ => True
  | inl e => caught e = true
  end.

(** The columns of a table have the same length. *)
Definition well_formed (d : OCRTable) : Prop :=
  length (col_conf d) = length (col_text d) /\
  length (col_left d) = length (col_text d) /\
  length (col_top d) = length (col_text d) /\
  length (col_width d) = length (col_text d) /\
  length (col_height d) = length (col_text d).

(** ** A concrete desktop, for the examples *)

Module Demo.

Definition float_of_nat (k : nat) : float :=
  SF2Prim (binary_normalize prec emax (Z.of_nat k) 0 false).

(** Five tokens: two plain ones, a blank one, one with the engine's
    score -1 and one with a score that is not a number. *)
Definition table : OCRTable :=
  {| col_text := ["Submit"; "sub"; "  "; "subtle"; "Subway"]%string;
     col_conf := [PyInt 92; PyInt 20; PyInt 95; PyInt (-1); PyStr "n/a"];
     col_left := [10; 200; 0; 40; 300];
     col_top := [10; 200; 0; 60; 300];
     col_width := [50; 30; 5; 44; 60];
     col_height := [20; 15; 5; 12; 18] |}.

(** Tokens with equal scores. *)
Definition ties : OCRTable :=
  {| col_text := ["tab one"; "tab two"; "tab three"; "tab four"]%string;
     col_conf := [PyInt 50; PyInt 80; PyInt 50; PyInt 80];
     col_left := [1; 2; 3; 4];
     col_top := [1; 2; 3; 4];
     col_width := [10; 10; 10; 10];
     col_height := [10; 10; 10; 10] |}.

(** The clock advances by an eighth of a second at each reading; the k-th
    screenshot has the number [k] for pixels; the OCR engine reads [table]
    on every image and stamps the image's number in a last row, so that
    the tables of two screenshots differ. *)
Definition env : Env :=
  {| time_at := fun k => PrimFloat.mul 0.125%float (float_of_nat k);
     screenshot_at := fun k _ => {| img_pixels := k; img_size := (1920, 1080) |};
     pytesseract_installed := true;
     environ_TESSERACT_CMD := None;
     path_exists := fun p => String.eqb p "/usr/bin/tesseract";
     which := fun _ => None;
     image_to_data := fun img _ _ =>
       inr {| col_text := col_text table ++ ["frame"%string];
              col_conf := col_conf table ++ [PyInt 90];
              col_left := col_left table ++ [Z.of_nat (img_pixels img)];
              col_top := col_top table ++ [0];
              col_width := col_width table ++ [1];
              col_height := col_height table ++ [1] |};
     float_of_str := fun _ => None;
     locateAllOnScreen := fun _ _ _ =>
       ([{| left := 5; top := 6; box_width := 7; box_height := 8 |};
         {| left := 50; top := 60; box_width := 7; box_height := 8 |}], false);
     save_jpeg := fun img q => [Z.of_nat (img_pixels img); q];
     save_png := fun img => [Z.of_nat (img_pixels img)];
     mouse_position := (3, 4) |}.

(** The world after a first [capture()] on an empty cache: frame 0, taken
    at time 0. *)
Definition world1 : World := snd (capture env None false empty_world).

(** Three readings of the clock later, by three [get_cached()] of other
    tools: the next reading is 0.5 s, the frame is 500 ms old. *)
Definition world_at_threshold : World :=
  snd (run_ops env [OpGetCached default_max_age_ms;
                    OpGetCached default_max_age_ms;
                    OpGetCached default_max_age_ms] world1).

(** The frame of [world1]. *)
Definition frame0 : CachedFrame := new_capture env None empty_world.

Definition region1 : Region :=
  {| rg_x := 100; rg_y := 100; rg_width := 400; rg_height := 300 |}.

(** The region of [get_screen(region={"x": 100, "y": 100, "width": 400,
    "height": 300})]. *)
Definition region_dict : gmap string Z :=
  <["x"%string := 100]> (<["y"%string := 100]>
    (<["width"%string := 400]> (<["height"%string := 300]> ∅))).

(** A desktop on which the OCR engine reads [ties]. *)
Definition env_ties : Env :=
  {| time_at := time_at env;
     screenshot_at := screenshot_at env;
     pytesseract_installed := true;
     environ_TESSERACT_CMD := Some "/opt/tesseract"%string;
     path_exists := fun p => String.eqb p "/opt/tesseract";
     which := which env;
     image_to_data := fun _ _ _ => inr ties;
     float_of_str := float_of_str env;
     locateAllOnScreen := fun _ _ _ => ([], true);
     save_jpeg := save_jpeg env;
     save_png := save_png env;
     mouse_position := mouse_position env |}.

(** The world after [ocr_full_screen()] on an empty cache. *)
Definition world_ocr : World :=
  snd (ocr_full_screen env "eng" true 3 empty_world).

End Demo.

(** ** What it means to be ranked *)

Section Ranking.

Context {A : Type} (key : A -> float).

(** No element is less than one before it. *)
Definition ascending (l : list A) : Prop :=
  StronglySorted (fun a b => PrimFloat.ltb (key b) (key a) = false) l.

(** Every element is at most each one before it: descending order. *)
Definition descending (l : list A) : Prop :=
  StronglySorted (fun a b => PrimFloat.leb (key b) (key a) = true) l.

Definition no_nan (l : list A) : Prop :=
  Forall (fun a => PyFloat.is_nan (key a) = false) l.

(** The elements of [l] whose key equals [c], in the order of [l]. *)
Definition with_key (c : float) (l : list A) : list A :=
  List.filter (fun a => PrimFloat.eqb (key a) c) l.

(** [l'] keeps the elements of equal key in the order they have in [l]. *)
Definition stable (l l' : list A) : Prop :=
  forall c, with_key c l' = with_key c l.

End Ranking.

(** [res] ranks [matches]: the same elements, by descending confidence,
    those of equal confidence in the order of [matches]. *)
Definition ranked (matches res : list ElementMatch) : Prop :=
  Permutation matches res /\
  descending confidence res /\
  stable confidence matches res.

(** The matches of a text query in the order of emission of the engine:
    those the loop appends, row after row of the table. *)
Definition emitted (E : Env) (caught : Exc -> bool) (d : OCRTable)
    (query : string) (ox oy : Z) (min_confidence : float)
  : list ElementMatch :=
  appended (text_match_at E caught d (PyStr.lower query) ox oy min_confidence)
           (range (length (col_text d))).

(** ** The [analyze_screen] tool of [server.py] *)

(** [BoundingBox.to_dict] *)
Definition bbox_to_dict (b : BoundingBox) : BBoxDict :=
  {| d_x := bb_x b; d_y := bb_y b; d_width := bb_width b;
     d_height := bb_height b;
     d_center_x := fst (center b); d_center_y := snd (center b) |}.

(** [ElementMatch.to_dict] *)
Record ElementMatchDict : Type := mkElementMatchDict {
  emd_bbox : BBoxDict;
  emd_confidence : float;
  emd_text : option string
}.

Definition element_to_dict (m : ElementMatch) : ElementMatchDict :=
  {| emd_bbox := bbox_to_dict (bbox m);
     emd_confidence := confidence m;
     emd_text := text m |}.

Inductive ElementType : Type := TypeImage | TypeText.

(** One entry of ["elements"]; the key ["text"] is absent for images. *)
Record Element : Type := mkElement {
  el_type : ElementType;
  el_text : option string;
  el_x : Z;
  el_y : Z;
  el_bbox : BBoxDict;
  el_confidence : float
}.

(** The dict returned by [analyze_screen]; ["total_detected"] and
    ["from_cache"] are not set on every path. *)
Record Analysis : Type := mkAnalysis {
  an_screen : Z * Z;
  an_mouse : Z * Z;
  an_elements : list Element;
  an_cache_age_ms : option float;
  an_timestamp : float;
  an_total_detected : option nat;
  an_from_cache : option bool
}.

Section Analyze.

Variable E : Env.

(** [get_screen_size()], that is [pyautogui.size()]. *)
Variable screen_size : Z * Z.

(** The literal [0.8]. *)
Definition default_image_confidence : float := 0x1.999999999999ap-1%float.

(** [confidence or 0.8]: a float is false when it equals zero. *)
Definition confidence_or_default (confidence : float) : float :=
  if PrimFloat.eqb confidence PyFloat.zero then default_image_confidence
  else confidence.

Definition image_element (m : ElementMatch) : Element :=
  {| el_type := TypeImage; el_text := None;
     el_x := fst (center (bbox m)); el_y := snd (center (bbox m));
     el_bbox := bbox_to_dict (bbox m); el_confidence := confidence m |}.

Definition text_element (m : ElementMatch) : Element :=
  {| el_type := TypeText; el_text := text m;
     el_x := fst (center (bbox m)); el_y := snd (center (bbox m));
     el_bbox := bbox_to_dict (bbox m); el_confidence := confidence m |}.

Definition scan_element (elem : MatchDict) : Element :=
  {| el_type := TypeText; el_text := Some (md_text elem);
     el_x := d_center_x (md_bbox elem); el_y := d_center_y (md_bbox elem);
     el_bbox := md_bbox elem; el_confidence := md_confidence elem |}.

(** Truth value of an optional string argument. *)
Definition given (s : option string) : bool :=
  match s with
  | Some v => PyStr.truthy v
  | None => false
  end.

(** Lines 264 to 274: the top 50 by confidence, then the floor. With a NaN
    among the confidences the order that [sorted] gives in CPython is not
    the one of [sorted_reverse]; what is stated on the order of these
    elements assumes that there is none. *)
Definition top_elements (all_text : list MatchDict) (confidence : float)
  : list Element :=
  map scan_element
      (List.filter (fun elem => PyFloat.ge (md_confidence elem) confidence)
                   (firstn 50 (sorted_reverse md_confidence all_text))).

(** [analyze_screen] *)
Definition analyze_screen (find_text find_image : option string)
    (confidence : float) (use_cache : bool) : M Analysis :=
  cache_age <- get_frame_cache_age_ms E ;;
  now <- time_time E ;;
  let result elements total from_cache :=
    {| an_screen := screen_size; an_mouse := mouse_position E;
       an_elements := elements; an_cache_age_ms := cache_age;
       an_timestamp := now; an_total_detected := total;
       an_from_cache := from_cache |} in
  if given find_image then
    matches <- find_template_on_screen E (default "" find_image)
                 (confidence_or_default confidence) true ;;
    ret (result (map image_element matches) None None)
  else if given find_text then
    cached_matches <- (if use_cache
                       then find_text_in_ocr_cache E (default "" find_text)
                                                   confidence
                       else ret []) ;;
    match cached_matches with
    | _ :: _ =>
        ret (result (map text_element cached_matches) None (Some true))
    | [] =>
        matches <- find_text_on_screen E (default "" find_text) "eng" None
                     confidence ;;
        ret (result (map text_element matches) None (Some false))
    end
  else
    (if use_cache then ret tt else invalidate_frame_cache) ;;;
    all_text <- ocr_full_screen E "eng" use_cache 3 ;;
    ret (result (top_elements all_text confidence)
                (Some (length all_text))
                (Some (use_cache && bool_decide (is_Some cache_age)))).

(** [get_screen_info] *)
Record ScreenInfo : Type := mkScreenInfo {
  si_screen : Z * Z;
  si_mouse : Z * Z;
  si_cache_age_ms : option float
}.

Definition get_screen_info : M ScreenInfo :=
  cache_age <- get_frame_cache_age_ms E ;;
  ret {| si_screen := screen_size; si_mouse := mouse_position E;
         si_cache_age_ms := cache_age |}.

End Analyze.

(** The world when [analyze_screen] starts its dispatch: the age of the
    cache and the timestamp have been read. *)
Definition after_prelude (E : Env) (w : World) : World :=
  snd (time_time E (snd (get_frame_cache_age_ms E w))).

(** ** The input layer: [input.py] *)

(** A call of pyautogui with the arguments it is given; [Position] is
    [pyautogui.position()]. *)
Inductive GuiCall : Type :=
| MoveTo (x y : Z) (duration : float) (_pause : bool)
| MoveRel (x y : Z) (duration : float)
| Click (target : option (Z * Z)) (clicks : Z) (interval : float)
        (button : string)
| Drag (dx dy : Z) (duration : float) (button : string)
| Scroll (clicks : Z) (target : option (Z * Z))
| Typewrite (text : string) (interval : float)
| Press (key : string) (presses : Z) (interval : float)
| Hotkey (keys : list string)
| Position.

(** What a tool raises: a [ValueError] with its message, an exception of
    pyautogui named by its class, or an exception of the vision layer or
    of a conversion. *)
Inductive ToolExc : Type :=
| ToolValueError (message : string)
| GuiException (name : string)
| Raised (e : Exc).

(** The desktop as pyautogui shows it: whether a call raises, and where
    the pointer is, after the calls made so far. *)
Record Gui : Type := mkGui {
  gui_raises : list GuiCall -> GuiCall -> option string;
  position_at : list GuiCall -> Z * Z
}.

(** The state of the server: the frame cache and the clock, the calls of
    pyautogui made so far, [pyautogui.PAUSE] and the global
    [_DEFAULT_PAUSE] of [input.py]. *)
Record Desk : Type := mkDesk {
  cache : World;
  gui_calls : list GuiCall;
  PAUSE : float;
  _DEFAULT_PAUSE : float
}.

Definition T (A : Type) : Type := Desk -> (ToolExc + A) * Desk.

Definition tret {A} (a : A) : T A := fun d => (inr a, d).

Definition traise {A} (e : ToolExc) : T A := fun d => (inl e, d).

Definition tbind {A B} (m : T A) (k : A -> T B) : T B :=
  fun d =>
    match m d with
    | (inr a, d') => k a d'
    | (inl e, d') => (inl e, d')
    end.

Notation "x <-- m ;; k" := (tbind m (fun x => k))
  (at level 100, m at level 99, right associativity).
Notation "m ;;- k" := (tbind m (fun _ => k))
  (at level 100, right associativity).

(** A computation of the vision layer, run on the frame cache. *)
Definition in_cache {A} (m : M A) : T A :=
  fun d =>
    let '(r, w) := m (cache d) in
    (match r with
     | inr a => inr a
     | inl e => inl (Raised e)
     end,
     {| cache := w; gui_calls := gui_calls d; PAUSE := PAUSE d;
        _DEFAULT_PAUSE := _DEFAULT_PAUSE d |}).

Definition tlift {A} (r : Exc + A) : T A :=
  fun d => (match r with
            | inr a => inr a
            | inl e => inl (Raised e)
            end, d).

(** The literals of [input.py] and of the tools. *)
Definition lit_0_01 : float := 0x1.47ae147ae147bp-7%float.
Definition lit_0_02 : float := 0x1.47ae147ae147bp-6%float.
Definition lit_0_05 : float := 0x1.999999999999ap-5%float.
Definition lit_0_1 : float := 0x1.999999999999ap-4%float.
Definition lit_0_3 : float := 0x1.3333333333333p-2%float.
Definition lit_0_5 : float := 0.5%float.

(** [min(a, b)] and [max(a, b)] of Python: the first argument is kept
    unless the second is less, respectively greater. *)
Definition py_min (a b : float) : float := if PyFloat.lt b a then b else a.

Definition py_max (a b : float) : float := if PyFloat.gt b a then b else a.

(** [int(f)] for a float: truncation towards zero; [OverflowError] on an
    infinity, [ValueError] on NaN. *)
Definition py_int (f : float) : Exc + Z :=
  match Prim2SF f with
  | S754_zero _ => inr 0
  | S754_infinity _ => inl OverflowError
  | S754_nan => inl ValueError
  | S754_finite s m e =>
      let magnitude :=
        if 0 <=? e then Z.pos m * 2 ^ e else Z.pos m / 2 ^ (- e) in
      inr (if s then - magnitude else magnitude)
  end.

Section Input.

Variable E : Env.

Variable G : Gui.

(** A call of pyautogui: it is made, and may raise. *)
Definition gui (c : GuiCall) : T unit :=
  fun d =>
    let d' := {| cache := cache d; gui_calls := gui_calls d ++ [c];
                 PAUSE := PAUSE d; _DEFAULT_PAUSE := _DEFAULT_PAUSE d |} in
    match gui_raises G (gui_calls d) c with
    | Some name => (inl (GuiException name), d')
    | None => (inr tt, d')
    end.

(** [pyautogui.position()] *)
Definition position : T (Z * Z) :=
  gui Position ;;-
  fun d => (inr (position_at G (gui_calls d)), d).

(** [set_action_pause] *)
Definition set_action_pause (pause : float) : T unit :=
  fun d => (inr tt, {| cache := cache d; gui_calls := gui_calls d;
                       PAUSE := pause; _DEFAULT_PAUSE := pause |}).

(** [get_action_pause] *)
Definition get_action_pause : T float := fun d => (inr (PAUSE d), d).

(** [mouse_move] *)
Definition mouse_move (x y : Z) (duration : float) (relative : bool)
  : T (Z * Z) :=
  (if relative then gui (MoveRel x y duration)
   else gui (MoveTo x y duration true)) ;;-
  position.

(** [instant_move] *)
Definition instant_move (x y : Z) : T (Z * Z) :=
  gui (MoveTo x y PyFloat.zero false) ;;-
  position.

(** [mouse_click] *)
Definition mouse_click (x y : option Z) (button : string) (clicks : Z)
    (interval : float) : T (Z * Z) :=
  match x, y with
  | Some vx, Some vy =>
      gui (Click (Some (vx, vy)) clicks interval button) ;;-
      tret (vx, vy)
  | _, _ =>
      pos <-- position ;;
      gui (Click None clicks interval button) ;;-
      tret pos
  end.

(** [mouse_drag]; the dict returned holds the start and the end. *)
Definition mouse_drag (start_x start_y end_x end_y : Z) (duration : float)
    (button : string) : T ((Z * Z) * (Z * Z)) :=
  gui (MoveTo start_x start_y PyFloat.zero true) ;;-
  gui (Drag (end_x - start_x) (end_y - start_y) duration button) ;;-
  tret ((start_x, start_y), (end_x, end_y)).

(** [mouse_scroll] *)
Definition mouse_scroll (clicks : Z) (x y : option Z) : T (Z * Z) :=
  match x, y with
  | Some vx, Some vy => gui (Scroll clicks (Some (vx, vy)))
  | _, _ => gui (Scroll clicks None)
  end ;;-
  position.

(** [keyboard_type] *)
Definition keyboard_type (text : string) (interval : float) : T nat :=
  gui (Typewrite text interval) ;;-
  tret (String.length text).

(** [keyboard_press] *)
Definition keyboard_press (key : string) (presses : Z) (interval : float)
  : T string :=
  gui (Press key presses interval) ;;-
  tret key.

(** [keyboard_hotkey] *)
Definition keyboard_hotkey (keys : list string) : T (list string) :=
  gui (Hotkey keys) ;;-
  tret keys.

(** [get_mouse_position] *)
Definition get_mouse_position : T (Z * Z) := position.

(** [fast_click] *)
Definition fast_click (x y : Z) (button : string) (clicks : Z) : T (Z * Z) :=
  gui (MoveTo x y PyFloat.zero false) ;;-
  gui (Click None clicks lit_0_02 button) ;;-
  tret (x, y).

(** [move_and_click]; the dict returned holds the final position, the
    button and the number of clicks. *)
Definition move_and_click (x y : Z) (button : string) (clicks : Z)
    (move_duration click_interval : float) : T (Z * Z * string * Z) :=
  (if PyFloat.gt move_duration PyFloat.zero
   then gui (MoveTo x y move_duration true)
   else gui (MoveTo x y PyFloat.zero false)) ;;-
  gui (Click None clicks click_interval button) ;;-
  final_pos <-- position ;;
  tret (final_pos, button, clicks).

(** ** The tools [use_mouse], [use_keyboard] and [set_speed] *)

(** The dict that [use_mouse] builds; a key not set yet is [None]. *)
Record MouseResult : Type := mkMouseResult {
  mr_action : string;
  mr_success : bool;
  mr_timestamp : float;
  mr_x : option Z;
  mr_y : option Z;
  mr_button : option string;
  mr_clicks : option Z;
  mr_start : option (Z * Z);
  mr_end : option (Z * Z);
  mr_amount : option Z;
  mr_mouse : option (Z * Z)
}.

(** [duration or 0.3] *)
Definition duration_or_default (duration : float) : float :=
  if PrimFloat.eqb duration PyFloat.zero then lit_0_3 else duration.

(** [use_mouse] *)
Definition use_mouse (action : string) (x y : option Z) (button : string)
    (clicks : Z) (end_x end_y amount : option Z) (duration : float)
  : T MouseResult :=
  now <-- in_cache (time_time E) ;;
  let result vx vy vbutton vclicks vstart vend vamount :=
    {| mr_action := action; mr_success := true; mr_timestamp := now;
       mr_x := vx; mr_y := vy; mr_button := vbutton; mr_clicks := vclicks;
       mr_start := vstart; mr_end := vend; mr_amount := vamount;
       mr_mouse := None |} in
  r <-- (if String.eqb action "click" then
           match x, y with
           | Some vx, Some vy =>
               (if PyFloat.gt duration PyFloat.zero then
                  mouse_move vx vy duration false ;;-
                  mouse_click None None button clicks lit_0_1 ;;-
                  tret tt
                else
                  fast_click vx vy button clicks ;;-
                  tret tt) ;;-
               tret (result (Some vx) (Some vy) (Some button) (Some clicks)
                            None None None)
           | _, _ =>
               pos <-- mouse_click None None button clicks lit_0_1 ;;
               tret (result (Some (fst pos)) (Some (snd pos)) (Some button)
                            (Some clicks) None None None)
           end
         else if String.eqb action "move" then
           match x, y with
           | Some vx, Some vy =>
               (if PyFloat.gt duration PyFloat.zero
                then mouse_move vx vy duration false
                else instant_move vx vy) ;;-
               tret (result (Some vx) (Some vy) None None None None None)
           | _, _ =>
               traise (ToolValueError "move action requires x and y coordinates")
           end
         else if String.eqb action "drag" then
           match x, y with
           | Some vx, Some vy =>
               match end_x, end_y with
               | Some ex, Some ey =>
                   mouse_drag vx vy ex ey (duration_or_default duration)
                              button ;;-
                   tret (result None None (Some button) None
                                (Some (vx, vy)) (Some (ex, ey)) None)
               | _, _ =>
                   traise (ToolValueError
                     "drag action requires end_x and end_y (end position)")
               end
           | _, _ =>
               traise (ToolValueError
                 "drag action requires x and y (start position)")
           end
         else if String.eqb action "scroll" then
           match amount with
           | Some n =>
               pos <-- mouse_scroll n x y ;;
               tret (result (Some (fst pos)) (Some (snd pos)) None None
                            None None (Some n))
           | None =>
               traise (ToolValueError "scroll action requires amount parameter")
           end
         else traise (ToolValueError ("Unknown action: " ++ action))) ;;
  final <-- get_mouse_position ;;
  tret {| mr_action := mr_action r; mr_success := mr_success r;
          mr_timestamp := mr_timestamp r; mr_x := mr_x r; mr_y := mr_y r;
          mr_button := mr_button r; mr_clicks := mr_clicks r;
          mr_start := mr_start r; mr_end := mr_end r;
          mr_amount := mr_amount r; mr_mouse := Some final |}.

(** The dict that [use_keyboard] returns. *)
Record KeyboardResult : Type := mkKeyboardResult {
  kr_action : string;
  kr_success : bool;
  kr_timestamp : float;
  kr_text : option string;
  kr_characters : option nat;
  kr_key : option string;
  kr_presses : option Z;
  kr_keys : option (list string);
  kr_combo : option string
}.

(** Truth value of an optional list argument. *)
Definition given_list {A} (l : option (list A)) : bool :=
  match l with
  | Some (_ :: _) => true
  | _ => false
  end.

(** [use_keyboard] *)
Definition use_keyboard (action : string) (text key : option string)
    (keys : option (list string)) (presses : Z) (interval : float)
  : T KeyboardResult :=
  now <-- in_cache (time_time E) ;;
  let result vtext vchars vkey vpresses vkeys vcombo :=
    {| kr_action := action; kr_success := true; kr_timestamp := now;
       kr_text := vtext; kr_characters := vchars; kr_key := vkey;
       kr_presses := vpresses; kr_keys := vkeys; kr_combo := vcombo |} in
  if String.eqb action "type" then
    if negb (given text)
    then traise (ToolValueError "type action requires text parameter")
    else
      chars <-- keyboard_type (default "" text) interval ;;
      tret (result text (Some chars) None None None None)
  else if String.eqb action "press" then
    if negb (given key)
    then traise (ToolValueError "press action requires key parameter")
    else
      keyboard_press (default "" key) presses interval ;;-
      tret (result None None key (Some presses) None None)
  else if String.eqb action "hotkey" then
    if negb (given_list keys)
    then traise (ToolValueError "hotkey action requires keys parameter")
    else
      keyboard_hotkey (default [] keys) ;;-
      tret (result None None None None keys
                   (Some (String.concat "+" (default [] keys))))
  else traise (ToolValueError ("Unknown action: " ++ action)).

(** The dict that [set_speed] returns. *)
Record SpeedResult : Type := mkSpeedResult {
  old_pause_ms : Z;
  new_pause_ms : Z
}.

(** [max(0.01, min(0.5, pause_ms / 1000.0))] *)
Definition clamp_pause (v : float) : float :=
  py_max lit_0_01 (py_min lit_0_5 v).

(** [set_speed] *)
Definition set_speed (pause_ms : Z) : T SpeedResult :=
  old <-- get_action_pause ;;
  ms <-- tlift (PyFloat.of_int pause_ms) ;;
  let new := clamp_pause (PrimFloat.div ms PyFloat.thousand) in
  set_action_pause new ;;-
  o <-- tlift (py_int (PrimFloat.mul old PyFloat.thousand)) ;;
  n <-- tlift (py_int (PrimFloat.mul new PyFloat.thousand)) ;;
  tret {| old_pause_ms := o; new_pause_ms := n |}.

End Input.

(** The calls a tool has added to those of [d]. *)
Definition new_calls (d d' : Desk) : list GuiCall :=
  skipn (length (gui_calls d)) (gui_calls d').

(** A desktop on which no call of pyautogui raises. *)
Definition calm (G : Gui) : Prop := forall h c, gui_raises G h c = None.

(** The frame cache is as it was, but for readings of the clock. *)
Definition same_cache (w w' : World) : Prop :=
  heap w' = heap w /\ slot w' = slot w /\ shot_calls w' = shot_calls w.

(** What [set_speed] reports as ["new_pause_ms"] for [pause_ms]. *)
Definition reported_pause_ms (pause_ms : Z) : Exc + Z :=
  match PyFloat.of_int pause_ms with
  | inr ms =>
      py_int (PrimFloat.mul (clamp_pause (PrimFloat.div ms PyFloat.thousand))
                            PyFloat.thousand)
  | inl e => inl e
  end.

(** The values of [pause_ms] that the tool documents: 10 to 500. *)
Definition documented_pauses : list Z :=
  map (fun k => 10 + Z.of_nat k) (seq 0 491).

Module DemoInput.

(** A desktop on which no call raises; the pointer is where the last move
    with coordinates has put it, at the origin before any. *)
Fixpoint pointer (h : list GuiCall) (p : Z * Z) : Z * Z :=
  match h with
  | [] => p
  | MoveTo x y _ _ :: h' => pointer h' (x, y)
  | MoveRel dx dy _ :: h' => pointer h' (fst p + dx, snd p + dy)
  | Drag dx dy _ _ :: h' => pointer h' (fst p + dx, snd p + dy)
  | Click (Some q) _ _ _ :: h' => pointer h' q
  | Scroll _ (Some q) :: h' => pointer h' q
  | _ :: h' => pointer h' p
  end.

Definition gui : Gui :=
  {| gui_raises := fun _ _ => None;
     position_at := fun h => pointer h (0, 0) |}.

(** A desktop on which the fail-safe of pyautogui trips at every call. *)
Definition gui_failsafe : Gui :=
  {| gui_raises := fun _ _ => Some "FailSafeException"%string;
     position_at := fun _ => (0, 0) |}.

(** The server as it starts: nothing cached, no call made, the pause at
    its initial 0.05 s. *)
Definition desk : Desk :=
  {| cache := empty_world; gui_calls := [];
     PAUSE := lit_0_05; _DEFAULT_PAUSE := lit_0_05 |}.

(** The server after a full scan has filled the cache. *)
Definition desk_ocr : Desk :=
  {| cache := Demo.world_ocr; gui_calls := [];
     PAUSE := lit_0_05; _DEFAULT_PAUSE := lit_0_05 |}.

End DemoInput.

(** ** The table behind an answer *)

(** The offset that [find_text_on_screen] adds to the boxes. *)
Definition region_offset (region : option Region) : Z * Z :=
  match region with
  | Some r => (rg_x r, rg_y r)
  | None => (0, 0)
  end.

(** The OCR payload that [get_cached_ocr] serves on [w]: that of the
    stored frame, when a frame is stored and is not stale at the next
    reading of the clock. *)
Definition served_payload (E : Env) (w : World) : option OCRTable :=
  match stored_frame w with
  | Some (_, f) =>
      if PyFloat.gt (frame_age E w f) default_max_age_ms then None
      else ocr_data f
  | None => None
  end.

(** The table that [ocr_full_screen] converts on [w]: the payload served
    from the cache when [use_cache] is set and there is one, the table the
    engine gives for the next full-screen screenshot otherwise. *)
Definition scanned_table (E : Env) (lang : string) (use_cache : bool)
    (psm : Z) (w : World) : option OCRTable :=
  match (if use_cache then served_payload E w else None) with
  | Some d => Some d
  | None =>
      match image_to_data E (screenshot_at E (shot_calls w) None) lang
                          (Some psm) with
      | inr d => Some d
      | inl _ => None
      end
  end.

(** The world on which the full scan of [analyze_screen] calls
    [ocr_full_screen]: after the prelude, and after the cache has been
    emptied when [use_cache] is not set. *)
Definition scan_start (E : Env) (use_cache : bool) (w : World) : World :=
  if use_cache then after_prelude E w
  else snd (invalidate_frame_cache (after_prelude E w)).

(** ** How the world may change *)

(** From [w] to [w']: no frame object is lost or altered but for its OCR
    payload, and the counters of the clock and of the screen do not go
    down. *)
Definition evolves (w w' : World) : Prop :=
  (forall a f, heap w !! a = Some f ->
               exists f', heap w' !! a = Some f' /\ same_capture f f') /\
  (shot_calls w <= shot_calls w')%nat /\
  (time_calls w <= time_calls w')%nat.

(** * Properties *)

(** ** The order of binary64 numbers *)

Module FloatOrder.

Import PyFloat.

Lemma SFcompare_rank x y :
  sf_is_nan x = false -> sf_is_nan y = false ->
  match SFcompare x y with
  | Some Lt => lex_lt (sf_rank x) (sf_rank y)
  | Some Eq => sf_rank x = sf_rank y
  | Some Gt => lex_lt (sf_rank y) (sf_rank x)
  | None => False
  end.
Proof.
  destruct x as [sx|sx| |sx mx ex], y as [sy|sy| |sy my ey]; simpl;
    try discriminate; intros _ _;
    try destruct sx; try destruct sy; simpl; try lia; auto;
    destruct (Z.compare_spec ex ey); simpl; try lia;
    change (Pos.compare_cont Eq mx my) with (Pos.compare mx my);
    destruct (Pos.compare_spec mx my); simpl; subst; auto; lia.
Qed.

Lemma SFcompare_nan x y :
  sf_is_nan x = true \/ sf_is_nan y = true -> SFcompare x y = None.
Proof.
  destruct x, y; simpl; intros [H|H]; try discriminate; reflexivity.
Qed.

Lemma is_nan_spec x : is_nan x = sf_is_nan (Prim2SF x).
Proof.
  unfold is_nan. rewrite FloatAxioms.eqb_spec. unfold SFeqb.
  destruct (sf_is_nan (Prim2SF x)) eqn:N.
  - rewrite SFcompare_nan by auto. reflexivity.
  - pose proof (SFcompare_rank _ _ N N) as H.
    destruct (SFcompare (Prim2SF x) (Prim2SF x)) as [[]|]; try reflexivity;
      try contradiction;
      unfold lex_lt in H; destruct (sf_rank (Prim2SF x)) as [[a b] c]; lia.
Qed.

(** The three ways two numbers compare. *)
Inductive compared (x y : float) : Prop :=
| compared_lt :
    PrimFloat.ltb x y = true -> PrimFloat.leb x y = true ->
    PrimFloat.eqb x y = false -> PrimFloat.ltb y x = false ->
    PrimFloat.leb y x = false -> PrimFloat.eqb y x = false ->
    lex_lt (rank x) (rank y) -> compared x y
| compared_eq :
    PrimFloat.ltb x y = false -> PrimFloat.leb x y = true ->
    PrimFloat.eqb x y = true -> PrimFloat.ltb y x = false ->
    PrimFloat.leb y x = true -> PrimFloat.eqb y x = true ->
    rank x = rank y -> compared x y
| compared_gt :
    PrimFloat.ltb x y = false -> PrimFloat.leb x y = false ->
    PrimFloat.eqb x y = false -> PrimFloat.ltb y x = true ->
    PrimFloat.leb y x = true -> PrimFloat.eqb y x = false ->
    lex_lt (rank y) (rank x) -> compared x y.

Lemma compare_cases x y :
  is_nan x = false -> is_nan y = false -> compared x y.
Proof.
  rewrite !is_nan_spec. intros Nx Ny.
  pose proof (SFcompare_rank _ _ Nx Ny) as H1.
  pose proof (SFcompare_rank _ _ Ny Nx) as H2.
  assert (L : forall a b, PrimFloat.ltb a b = SFltb (Prim2SF a) (Prim2SF b))
    by apply FloatAxioms.ltb_spec.
  assert (Le : forall a b, PrimFloat.leb a b = SFleb (Prim2SF a) (Prim2SF b))
    by apply FloatAxioms.leb_spec.
  assert (Eq' : forall a b, PrimFloat.eqb a b = SFeqb (Prim2SF a) (Prim2SF b))
    by apply FloatAxioms.eqb_spec.
  unfold SFltb, SFleb, SFeqb in *.
  destruct (SFcompare (Prim2SF x) (Prim2SF y)) as [[]|] eqn:C1;
    destruct (SFcompare (Prim2SF y) (Prim2SF x)) as [[]|] eqn:C2;
    try contradiction;
    try (exfalso; unfold lex_lt in *;
         destruct (sf_rank (Prim2SF x)) as [[a b] c];
         destruct (sf_rank (Prim2SF y)) as [[a' b'] c'];
         try (injection H1 as -> -> ->); try (injection H2 as -> -> ->); lia).
  - apply compared_eq; rewrite ?L, ?Le, ?Eq', ?C1, ?C2; auto.
  - apply compared_lt; rewrite ?L, ?Le, ?Eq', ?C1, ?C2; auto.
  - apply compared_gt; rewrite ?L, ?Le, ?Eq', ?C1, ?C2; auto.
Qed.

Lemma nan_compare x y :
  is_nan x = true \/ is_nan y = true ->
  PrimFloat.ltb x y = false /\ PrimFloat.leb x y = false /\
  PrimFloat.eqb x y = false.
Proof.
  rewrite !is_nan_spec. intros H.
  rewrite FloatAxioms.ltb_spec, FloatAxioms.leb_spec, FloatAxioms.eqb_spec. unfold SFltb, SFleb, SFeqb.
  rewrite SFcompare_nan by exact H. auto.
Qed.

Lemma leb_not_nan x y :
  PrimFloat.leb x y = true -> is_nan x = false /\ is_nan y = false.
Proof.
  intros H. destruct (is_nan x) eqn:Nx; destruct (is_nan y) eqn:Ny; auto;
    destruct (nan_compare x y) as (_ & L & _); auto; congruence.
Qed.

Lemma ltb_not_nan x y :
  PrimFloat.ltb x y = true -> is_nan x = false /\ is_nan y = false.
Proof.
  intros H. destruct (is_nan x) eqn:Nx; destruct (is_nan y) eqn:Ny; auto;
    destruct (nan_compare x y) as (L & _ & _); auto; congruence.
Qed.

Lemma eqb_not_nan x y :
  PrimFloat.eqb x y = true -> is_nan x = false /\ is_nan y = false.
Proof.
  intros H. destruct (is_nan x) eqn:Nx; destruct (is_nan y) eqn:Ny; auto;
    destruct (nan_compare x y) as (_ & _ & L); auto; congruence.
Qed.

Ltac clash :=
  match goal with
  | H : ?b = true, H' : ?b = false |- _ => rewrite H in H'; discriminate H'
  | |- _ => assumption
  end.

Ltac ranks :=
  unfold lex_lt in *;
  repeat match goal with
         | |- context [rank ?x] =>
             let a := fresh "a" in let b := fresh "b" in let c := fresh "c" in
             destruct (rank x) as [[a b] c]
         | H : context [rank ?x] |- _ =>
             let a := fresh "a" in let b := fresh "b" in let c := fresh "c" in
             destruct (rank x) as [[a b] c]
         end;
  repeat match goal with
         | H : (_, _, _) = (_, _, _) |- _ => injection H as -> -> ->
         end;
  try lia.

(** [x < x] is false, also for NaN. *)
Lemma ltb_irrefl x : PrimFloat.ltb x x = false.
Proof.
  destruct (is_nan x) eqn:N.
  - apply nan_compare; auto.
  - destruct (compare_cases x x N N) as [? ? ? ? ? ? R|? ? ? ? ? ? R|? ? ? ? ? ? R];
      auto; exfalso; ranks.
Qed.

Lemma ltb_asym x y : PrimFloat.ltb x y = true -> PrimFloat.ltb y x = false.
Proof.
  intros H. destruct (ltb_not_nan _ _ H) as [Nx Ny].
  destruct (compare_cases x y Nx Ny); clash.
Qed.

(** Not less is transitive away from NaN. *)
Lemma not_ltb_trans x y z :
  is_nan x = false -> is_nan y = false -> is_nan z = false ->
  PrimFloat.ltb x y = false -> PrimFloat.ltb y z = false ->
  PrimFloat.ltb x z = false.
Proof.
  intros Nx Ny Nz H1 H2.
  destruct (compare_cases x y Nx Ny) as [? ? ? ? ? ? R1|? ? ? ? ? ? R1|? ? ? ? ? ? R1];
    destruct (compare_cases y z Ny Nz) as [? ? ? ? ? ? R2|? ? ? ? ? ? R2|? ? ? ? ? ? R2];
    destruct (compare_cases x z Nx Nz) as [? ? ? ? ? ? R3|? ? ? ? ? ? R3|? ? ? ? ? ? R3];
    try solve [clash]; exfalso; ranks.
Qed.

Lemma eqb_ltb_false x y c :
  PrimFloat.eqb x c = true -> PrimFloat.eqb y c = true ->
  PrimFloat.ltb x y = false.
Proof.
  intros H1 H2.
  destruct (eqb_not_nan _ _ H1) as [Nx Nc], (eqb_not_nan _ _ H2) as [Ny _].
  destruct (compare_cases x c Nx Nc) as [? ? ? ? ? ? R1|? ? ? ? ? ? R1|? ? ? ? ? ? R1];
    destruct (compare_cases y c Ny Nc) as [? ? ? ? ? ? R2|? ? ? ? ? ? R2|? ? ? ? ? ? R2];
    destruct (compare_cases x y Nx Ny) as [? ? ? ? ? ? R3|? ? ? ? ? ? R3|? ? ? ? ? ? R3];
    try solve [clash]; exfalso; ranks.
Qed.

(** Away from NaN, [y <= x] is the negation of [x < y]. *)
Lemma leb_negb_ltb x y :
  is_nan x = false -> is_nan y = false ->
  PrimFloat.leb y x = negb (PrimFloat.ltb x y).
Proof.
  intros Nx Ny. destruct (compare_cases x y Nx Ny) as [H1 H2 H3 H4 H5 H6 _|H1 H2 H3 H4 H5 H6 _|H1 H2 H3 H4 H5 H6 _];
    rewrite H1, H5; reflexivity.
Qed.

Lemma eqb_leb x y : PrimFloat.eqb x y = true -> PrimFloat.leb y x = true.
Proof.
  intros H. destruct (eqb_not_nan _ _ H) as [Nx Ny].
  destruct (compare_cases x y Nx Ny); clash.
Qed.

Lemma eqb_not_ltb x y : PrimFloat.eqb x y = true -> PrimFloat.ltb y x = false.
Proof.
  intros H. destruct (eqb_not_nan _ _ H) as [Nx Ny].
  destruct (compare_cases x y Nx Ny); clash.
Qed.

(** [x <= y <= z] rules out [z < x]. *)
Lemma leb_leb_not_ltb x y z :
  PrimFloat.leb x y = true -> PrimFloat.leb y z = true ->
  PrimFloat.ltb z x = false.
Proof.
  intros H1 H2.
  destruct (leb_not_nan _ _ H1) as [Nx Ny], (leb_not_nan _ _ H2) as [_ Nz].
  apply (not_ltb_trans z y x); auto.
  - rewrite (leb_negb_ltb z y Nz Ny) in H2.
    destruct (PrimFloat.ltb z y); [discriminate|reflexivity].
  - rewrite (leb_negb_ltb y x Ny Nx) in H1.
    destruct (PrimFloat.ltb y x); [discriminate|reflexivity].
Qed.

End FloatOrder.

(** ** [sorted(..., reverse=True)] *)

Module SortedReverse.

Section Keys.

Context {A : Type} (key : A -> float).

Lemma filter_none (f : A -> bool) l :
  (forall b, In b l -> f b = false) -> List.filter f l = [].
Proof.
  induction l as [|y l IH]; simpl; intros H; [reflexivity|].
  rewrite (H y) by auto. apply IH. intros b Hb. apply H. auto.
Qed.

Lemma insert_sorted_perm x l : Permutation (x :: l) (insert_sorted key x l).
Proof.
  induction l as [|y l IH]; simpl.
  - apply Permutation_refl.
  - destruct (PyFloat.lt (key x) (key y)).
    + apply Permutation_refl.
    + eapply perm_trans; [apply perm_swap|]. apply perm_skip. exact IH.
Qed.

Lemma insert_sorted_ascending x l :
  no_nan key (x :: l) -> ascending key l -> ascending key (insert_sorted key x l).
Proof.
  unfold no_nan, ascending. intros N. induction 1 as [|y l S IH F]; simpl.
  - constructor; constructor.
  - inversion N as [|? ? Nx Nl]; subst. inversion Nl as [|? ? Ny Nl']; subst.
    unfold PyFloat.lt. destruct (PrimFloat.ltb (key x) (key y)) eqn:L.
    + constructor; [constructor; assumption|].
      constructor; [apply FloatOrder.ltb_asym; exact L|].
      rewrite List.Forall_forall in F, Nl' |- *. intros b Hb.
      apply (FloatOrder.not_ltb_trans (key b) (key y) (key x)); auto.
      apply FloatOrder.ltb_asym; exact L.
    + constructor.
      * apply IH. constructor; assumption.
      * rewrite List.Forall_forall in F |- *. intros b Hb.
        apply (Permutation_in _ (Permutation_sym (insert_sorted_perm x l))) in Hb.
        destruct Hb as [<-|Hb]; auto.
Qed.

Lemma insert_sorted_with_key c x l :
  no_nan key (x :: l) -> ascending key l ->
  with_key key c (insert_sorted key x l) = with_key key c l ++ with_key key c [x].
Proof.
  unfold no_nan, ascending, with_key. intros N.
  induction 1 as [|y l S IH F]; simpl.
  - reflexivity.
  - inversion N as [|? ? Nx Nl]; subst. inversion Nl as [|? ? Ny Nl']; subst.
    unfold PyFloat.lt. destruct (PrimFloat.ltb (key x) (key y)) eqn:L; simpl.
    + destruct (PrimFloat.eqb (key x) c) eqn:Ex; [|rewrite app_nil_r; reflexivity].
      assert (Hnone : List.filter (fun a => PrimFloat.eqb (key a) c) (y :: l) = []).
      { apply filter_none. intros b Hb.
        destruct (PrimFloat.eqb (key b) c) eqn:Eb; [exfalso|reflexivity].
        assert (Lxb : PrimFloat.ltb (key x) (key b) = true).
        { destruct Hb as [<-|Hb]; [exact L|].
          rewrite List.Forall_forall in F, Nl'.
          destruct (PrimFloat.ltb (key x) (key b)) eqn:Lxb; [reflexivity|].
          rewrite (FloatOrder.not_ltb_trans (key x) (key b) (key y)) in L;
            auto; discriminate. }
        rewrite (FloatOrder.eqb_ltb_false _ _ _ Ex Eb) in Lxb. discriminate. }
      simpl in Hnone. rewrite Hnone. reflexivity.
    + rewrite IH by (constructor; assumption). simpl.
      destruct (PrimFloat.eqb (key y) c); reflexivity.
Qed.

Lemma fold_insert_perm l acc :
  Permutation (rev l ++ acc)
              (fold_left (fun acc x => insert_sorted key x acc) l acc).
Proof.
  revert acc. induction l as [|x l IH]; intros acc; simpl.
  - apply Permutation_refl.
  - eapply perm_trans; [|apply IH].
    rewrite <- app_assoc. simpl. apply Permutation_app_head.
    apply insert_sorted_perm.
Qed.

Lemma fold_insert_sorted l acc :
  no_nan key l -> no_nan key acc -> ascending key acc ->
  ascending key (fold_left (fun acc x => insert_sorted key x acc) l acc) /\
  forall c,
    with_key key c (fold_left (fun acc x => insert_sorted key x acc) l acc)
    = with_key key c acc ++ with_key key c l.
Proof.
  revert acc. induction l as [|x l IH]; intros acc Nl Na Sa; simpl.
  - split; [exact Sa|]. intros c. unfold with_key. simpl.
    rewrite app_nil_r. reflexivity.
  - inversion Nl as [|? ? Nx Nl']; subst.
    assert (Nxa : no_nan key (x :: acc)) by (constructor; assumption).
    destruct (IH (insert_sorted key x acc)) as [S' K'].
    + exact Nl'.
    + unfold no_nan in *. rewrite List.Forall_forall in Nxa |- *. intros b Hb.
      apply Nxa.
      apply (Permutation_in _ (Permutation_sym (insert_sorted_perm x acc))).
      exact Hb.
    + apply insert_sorted_ascending; assumption.
    + split; [exact S'|]. intros c. rewrite K'.
      rewrite insert_sorted_with_key by assumption.
      rewrite <- app_assoc. f_equal. unfold with_key. simpl.
      destruct (PrimFloat.eqb (key x) c); reflexivity.
Qed.

Lemma with_key_rev c l : with_key key c (rev l) = rev (with_key key c l).
Proof.
  unfold with_key. induction l as [|x l IH]; simpl; [reflexivity|].
  rewrite List.filter_app, IH. simpl.
  destruct (PrimFloat.eqb (key x) c); simpl;
    [reflexivity | rewrite app_nil_r; reflexivity].
Qed.

Lemma sorted_reverse_perm l : Permutation l (sorted_reverse key l).
Proof.
  unfold sorted_reverse, sort_stable.
  eapply perm_trans; [|apply Permutation_rev].
  eapply perm_trans; [|apply fold_insert_perm].
  rewrite app_nil_r, rev_involutive. apply Permutation_refl.
Qed.

Lemma ascending_rev l :
  no_nan key l -> ascending key l -> descending key (rev l).
Proof.
  unfold no_nan, ascending, descending. intros N.
  induction 1 as [|x l S IH F]; simpl.
  - constructor.
  - inversion N as [|? ? Nx Nl]; subst.
    specialize (IH Nl).
    assert (G : forall l1 l2,
               StronglySorted (fun a b => PrimFloat.leb (key b) (key a) = true) l1 ->
               Forall (fun a => PrimFloat.leb (key x) (key a) = true) l1 ->
               l2 = [x] ->
               StronglySorted (fun a b => PrimFloat.leb (key b) (key a) = true) (l1 ++ l2)).
    { intros l1 l2 S1 F1 ->. induction S1 as [|a l1 S1 IH1 Fa]; simpl.
      - constructor; constructor.
      - inversion F1; subst. constructor; [apply IH1; assumption|].
        apply Forall_app. split; [assumption|]. constructor; [assumption|constructor]. }
    apply G; [exact IH| |reflexivity].
    rewrite List.Forall_forall in F, Nl |- *. intros b Hb.
    apply in_rev in Hb.
    rewrite (FloatOrder.leb_negb_ltb (key b) (key x)); auto.
    rewrite F by exact Hb. reflexivity.
Qed.

(** On keys without NaN, the result of [sorted(l, key=key, reverse=True)]
    is a permutation of [l] in descending order of key that keeps the
    elements of equal key in the order of [l]. *)
Lemma sorted_reverse_correct l :
  no_nan key l ->
  Permutation l (sorted_reverse key l) /\
  descending key (sorted_reverse key l) /\
  stable key l (sorted_reverse key l).
Proof.
  intros N. split; [apply sorted_reverse_perm|].
  assert (Nr : no_nan key (rev l)).
  { unfold no_nan in *. rewrite List.Forall_forall in N |- *. intros b Hb.
    apply N. apply in_rev. exact Hb. }
  destruct (fold_insert_sorted (rev l) [] Nr) as [S K].
  { constructor. } { constructor. }
  unfold sorted_reverse, sort_stable. split.
  - apply ascending_rev; [|exact S].
    unfold no_nan in *. rewrite List.Forall_forall in Nr |- *. intros b Hb.
    apply Nr.
    pose proof (fold_insert_perm (rev l) []) as P.
    rewrite app_nil_r in P.
    apply (Permutation_in _ (Permutation_sym P)) in Hb.
    rewrite rev_involutive in Hb. apply in_rev. rewrite rev_involutive. exact Hb.
  - intros c. rewrite with_key_rev, K. simpl.
    rewrite with_key_rev, rev_involutive. reflexivity.
Qed.

End Keys.

End SortedReverse.

(** ** The frame cache *)

Module FrameCacheFacts.

Section Facts.

Variable E : Env.

Lemma current_frame_eq w : current_frame w = (inr (stored_frame w), w).
Proof. reflexivity. Qed.

Lemma is_stale_eq f max_age w :
  is_stale E f max_age w = (inr (PyFloat.gt (frame_age E w f) max_age), tick w).
Proof. reflexivity. Qed.

Lemma get_cached_eq max_age w :
  get_cached E max_age w =
  match stored_frame w with
  | None => (inr None, w)
  | Some (a, f) =>
      (inr (if PyFloat.gt (frame_age E w f) max_age then None else Some a),
       tick w)
  end.
Proof.
  unfold get_cached, bind. rewrite current_frame_eq.
  destruct (stored_frame w) as [[a f]|]; [|reflexivity].
  rewrite is_stale_eq. destruct (PyFloat.gt _ _); reflexivity.
Qed.

Lemma get_cached_ocr_eq w :
  get_cached_ocr E w =
  match stored_frame w with
  | None => (inr None, w)
  | Some (a, f) =>
      (inr (if PyFloat.gt (frame_age E w f) default_max_age_ms then None
            else ocr_data f),
       tick w)
  end.
Proof.
  unfold get_cached_ocr, bind. rewrite current_frame_eq.
  destruct (stored_frame w) as [[a f]|]; [|reflexivity].
  rewrite is_stale_eq. destruct (PyFloat.gt _ _); [reflexivity|].
  destruct (ocr_data f); reflexivity.
Qed.

(** The capture proper: lines 66 to 85. *)
Lemma capture_forced region w :
  capture E region true w =
  (inr (fst (take_frame E region w)), snd (take_frame E region w)).
Proof.
  unfold capture, bind, take_frame, new_capture. simpl.
  destruct region as [r|]; simpl; [reflexivity|].
  destruct (img_size _); reflexivity.
Qed.

Lemma capture_eq region w :
  capture E region false w =
  match stored_frame w with
  | None => (inr (fst (take_frame E region w)), snd (take_frame E region w))
  | Some (a, f) =>
      if PyFloat.gt (frame_age E w f) default_max_age_ms
      then (inr (fst (take_frame E region (tick w))),
            snd (take_frame E region (tick w)))
      else match region with
           | None => (inr a, tick w)
           | Some _ => (inr (fst (take_frame E region (tick w))),
                        snd (take_frame E region (tick w)))
           end
  end.
Proof.
  unfold capture at 1. unfold bind at 1. unfold bind at 1.
  rewrite current_frame_eq.
  destruct (stored_frame w) as [[a f]|].
  - unfold bind at 1. rewrite is_stale_eq.
    destruct (PyFloat.gt _ _).
    + rewrite <- capture_forced. reflexivity.
    + destruct region as [r|]; [|reflexivity].
      rewrite <- capture_forced. reflexivity.
  - rewrite <- capture_forced. reflexivity.
Qed.

Lemma take_frame_fresh region w : fst (take_frame E region w) ∉ dom (heap w).
Proof. unfold take_frame. simpl. apply is_fresh. Qed.

Lemma take_frame_lookup region w b f :
  heap w !! b = Some f -> heap (snd (take_frame E region w)) !! b = Some f.
Proof.
  intros H. unfold take_frame. simpl.
  rewrite lookup_insert_ne; [exact H|].
  intros <-. pose proof (is_fresh (dom (heap w))) as F.
  apply F. apply elem_of_dom. eauto.
Qed.

Lemma take_frame_new region w :
  heap (snd (take_frame E region w)) !! fst (take_frame E region w)
  = Some (new_capture E region w).
Proof. unfold take_frame. simpl. apply lookup_insert_eq. Qed.

Lemma stored_tick w : stored_frame (tick w) = stored_frame w.
Proof. reflexivity. Qed.

Lemma stored_take_frame w :
  stored_frame (snd (take_frame E None w))
  = Some (fst (take_frame E None w), new_capture E None w).
Proof.
  unfold stored_frame, take_frame. simpl. rewrite lookup_insert_eq. reflexivity.
Qed.

Lemma stored_take_region r w :
  sound w ->
  stored_frame (snd (take_frame E (Some r) w)) = stored_frame w.
Proof.
  unfold sound, stored_frame, take_frame. simpl.
  destruct (slot w) as [a|]; [|reflexivity]. intros [f Hf].
  rewrite lookup_insert_ne; [reflexivity|].
  intros <-. apply (is_fresh (dom (heap w))). apply elem_of_dom. eauto.
Qed.

Lemma stored_sound w p : stored_frame w = Some p -> sound w.
Proof.
  unfold stored_frame, sound. destruct (slot w) as [a|]; [|discriminate].
  destruct (heap w !! a); [eauto|discriminate].
Qed.

(** A full-screen capture that is not forced leaves its frame in the slot. *)
Lemma capture_stores w :
  exists a f w1,
    capture E None false w = (inr a, w1) /\ stored_frame w1 = Some (a, f).
Proof.
  rewrite capture_eq.
  destruct (stored_frame w) as [[a f]|] eqn:S.
  - destruct (PyFloat.gt _ _).
    + eexists _, _, _. split; [reflexivity|]. apply stored_take_frame.
    + exists a, f, (tick w). split; [reflexivity|]. exact S.
  - eexists _, _, _. split; [reflexivity|]. apply stored_take_frame.
Qed.

(** One quiet operation of another thread keeps the stored frame. *)
Lemma run_op_quiet op w a f :
  quiet op = true -> stored_frame w = Some (a, f) ->
  exists f' w',
    run_op E op w = (inr tt, w') /\ stored_frame w' = Some (a, f') /\
    same_capture f f'.
Proof.
  intros Q S. pose proof (stored_sound _ _ S) as Snd.
  assert (Refl : same_capture f f) by (repeat split).
  destruct op as [[r|] force|max_age| |d|]; try discriminate; simpl.
  - unfold bind. destruct force.
    + rewrite capture_forced. eexists f, _. split; [reflexivity|].
      rewrite stored_take_region by exact Snd. auto.
    + rewrite capture_eq, S.
      destruct (PyFloat.gt _ _); eexists f, _; (split; [reflexivity|]);
        rewrite stored_take_region by exact Snd; auto.
  - unfold bind. rewrite get_cached_eq, S. eexists f, _. split; [reflexivity|].
    rewrite stored_tick. auto.
  - unfold cache_ocr_data, bind. rewrite current_frame_eq, S.
    eexists (set_ocr_data d f), _. split; [reflexivity|]. split.
    + unfold stored_frame in *. simpl. destruct (slot w) as [b|]; [|discriminate].
      destruct (heap w !! b) as [g|] eqn:Hb; [|discriminate].
      injection S as <- <-. rewrite lookup_alter_eq, Hb. reflexivity.
    + repeat split.
  - unfold bind. rewrite get_cached_ocr_eq, S. eexists f, _.
    split; [reflexivity|]. rewrite stored_tick. auto.
Qed.

Lemma run_ops_quiet ops : forall w a f,
  forallb quiet ops = true -> stored_frame w = Some (a, f) ->
  exists f' w',
    run_ops E ops w = (inr tt, w') /\ stored_frame w' = Some (a, f') /\
    same_capture f f'.
Proof.
  induction ops as [|op ops IH]; intros w a f Q S; simpl.
  - exists f, w. repeat split; auto.
  - simpl in Q. apply andb_prop in Q as [Q1 Q2].
    destruct (run_op_quiet op w a f Q1 S) as (f1 & w1 & R1 & S1 & C1).
    destruct (IH w1 a f1 Q2 S1) as (f2 & w2 & R2 & S2 & C2).
    exists f2, w2. unfold bind. rewrite R1. split; [exact R2|].
    split; [exact S2|].
    destruct C1 as (? & ? & ? & ?), C2 as (? & ? & ? & ?).
    repeat split; congruence.
Qed.

(** A region capture always takes a frame; it has read the clock before
    when it was not forced and a frame was stored. *)
Lemma capture_region_eq r force w :
  exists w0,
    (w0 = w \/ w0 = tick w) /\
    capture E (Some r) force w =
    (inr (fst (take_frame E (Some r) w0)), snd (take_frame E (Some r) w0)).
Proof.
  destruct force.
  - exists w. split; [auto|]. apply capture_forced.
  - rewrite capture_eq. destruct (stored_frame w) as [[a f]|].
    + exists (tick w). split; [auto|]. destruct (PyFloat.gt _ _); reflexivity.
    + exists w. split; [auto|]. reflexivity.
Qed.

Lemma sound_tick w : sound w -> sound (tick w).
Proof. exact (fun H => H). Qed.

Lemma sound_take_frame region w :
  sound w -> sound (snd (take_frame E region w)).
Proof.
  unfold sound, take_frame. simpl. destruct region as [r|].
  - destruct (slot w) as [a|]; [|auto]. intros [f Hf].
    rewrite lookup_insert_ne; [eauto|].
    intros <-. apply (is_fresh (dom (heap w))). apply elem_of_dom. eauto.
  - intros _. rewrite lookup_insert_eq. eauto.
Qed.

End Facts.

End FrameCacheFacts.

(** ** Staleness *)

(** C1, as the code has it. While a frame is stored, [get_cached],
    [get_cached_ocr] and the reuse branch of [capture(region=None,
    force=False)] hand the stored frame back exactly when its age is not
    greater than the threshold (500 ms by default): a frame older than the
    threshold is never returned and [capture] replaces it by a new one,
    while a frame whose age is equal to the threshold is still fresh and is
    returned. *)
Theorem fresh_frame_requests (E : Env) (w : World) (a : nat) (f : CachedFrame) :
  stored_frame w = Some (a, f) ->
  (forall max_age_ms,
      fst (get_cached E max_age_ms w) =
      inr (if PyFloat.gt (frame_age E w f) max_age_ms then None else Some a)) /\
  fst (get_cached_ocr E w) =
    inr (if PyFloat.gt (frame_age E w f) default_max_age_ms then None
         else ocr_data f) /\
  (PyFloat.gt (frame_age E w f) default_max_age_ms = false ->
   capture E None false w = (inr a, tick w)) /\
  (PyFloat.gt (frame_age E w f) default_max_age_ms = true ->
   capture E None false w =
     (inr (fst (take_frame E None (tick w))), snd (take_frame E None (tick w))) /\
   fst (take_frame E None (tick w)) <> a) /\
  (forall max_age_ms,
      PrimFloat.eqb (frame_age E w f) max_age_ms = true ->
      PyFloat.gt (frame_age E w f) max_age_ms = false).
Proof.
  intros S. repeat split.
  - intros max_age_ms. rewrite FrameCacheFacts.get_cached_eq, S. reflexivity.
  - rewrite FrameCacheFacts.get_cached_ocr_eq, S. reflexivity.
  - intros G. rewrite FrameCacheFacts.capture_eq, S, G. reflexivity.
  - rewrite FrameCacheFacts.capture_eq, S, H. reflexivity.
  - intros Heq.
    apply (FrameCacheFacts.take_frame_fresh E None (tick w)).
    rewrite Heq. apply elem_of_dom. unfold stored_frame in S. simpl.
    destruct (slot w) as [b|]; [|discriminate].
    destruct (heap w !! b) eqn:Hb; [|discriminate].
    injection S as <- <-. eauto.
  - intros max_age_ms Heq. apply FloatOrder.eqb_not_ltb. exact Heq.
Qed.

Lemma fresh_frame_requests_witness :
  stored_frame Demo.world_at_threshold = Some (0%nat, Demo.frame0) /\
  fst (get_cached Demo.env default_max_age_ms Demo.world_at_threshold)
  = inr (Some 0%nat).
Proof.
  assert (S : stored_frame Demo.world_at_threshold = Some (0%nat, Demo.frame0))
    by (vm_compute; reflexivity).
  split; [exact S|].
  destruct (fresh_frame_requests Demo.env _ _ _ S) as (G & _).
  rewrite G. vm_compute. reflexivity.
Defined.

(** C1 as stated fails on the boundary: in [Demo.world_at_threshold] the
    stored frame is exactly 500 ms old at the next reading of the clock, and
    it is returned by [get_cached] and reused by [capture], not treated as
    stale. *)
Lemma stale_at_threshold_counterexample :
  stored_frame Demo.world_at_threshold = Some (0%nat, Demo.frame0) /\
  frame_age Demo.env Demo.world_at_threshold Demo.frame0 = default_max_age_ms /\
  fst (get_cached Demo.env default_max_age_ms Demo.world_at_threshold)
  = inr (Some 0%nat) /\
  capture Demo.env None false Demo.world_at_threshold
  = (inr 0%nat, tick Demo.world_at_threshold).
Proof. vm_compute. repeat split; reflexivity. Qed.

(** ** Reuse *)

(** C3. After [capture(region=None, force=False)], whatever other tools do
    in between short of clearing the slot or capturing the full screen, a
    second [capture(region=None, force=False)] made while the stored frame
    is not stale returns the same frame object, with the image and the
    timestamp of the first call, takes no screenshot and leaves the slot and
    the heap as they are: only the clock has been read. *)
Theorem capture_twice_same_frame (E : Env) (w : World) (ops : list CacheOp) :
  forallb quiet ops = true ->
  exists a f1 f2 w1 w2,
    capture E None false w = (inr a, w1) /\
    stored_frame w1 = Some (a, f1) /\
    run_ops E ops w1 = (inr tt, w2) /\
    stored_frame w2 = Some (a, f2) /\
    same_capture f1 f2 /\
    (PyFloat.gt (frame_age E w2 f2) default_max_age_ms = false ->
     capture E None false w2 = (inr a, tick w2)).
Proof.
  intros Q.
  destruct (FrameCacheFacts.capture_stores E w) as (a & f1 & w1 & C & S1).
  destruct (FrameCacheFacts.run_ops_quiet E ops w1 a f1 Q S1) as (f2 & w2 & R & S2 & Same).
  exists a, f1, f2, w1, w2. repeat split; try assumption; try apply Same.
  intros Fresh. rewrite FrameCacheFacts.capture_eq, S2, Fresh. reflexivity.
Qed.

Lemma capture_twice_same_frame_witness :
  forallb quiet [OpGetCachedOcr; OpCapture (Some Demo.region1) true] = true /\
  capture Demo.env None false
    (snd (run_ops Demo.env [OpGetCachedOcr; OpCapture (Some Demo.region1) true]
                  Demo.world1))
  = (inr 0%nat,
     tick (snd (run_ops Demo.env
                  [OpGetCachedOcr; OpCapture (Some Demo.region1) true]
                  Demo.world1))).
Proof.
  split; [reflexivity|].
  destruct (capture_twice_same_frame Demo.env empty_world
              [OpGetCachedOcr; OpCapture (Some Demo.region1) true] eq_refl)
    as (a & f1 & f2 & w1 & w2 & C & S1 & R & S2 & Same & Again).
  assert (Hw1 : w1 = Demo.world1)
    by (unfold Demo.world1; rewrite C; reflexivity).
  assert (Ha : a = 0%nat)
    by (assert (X : fst (capture Demo.env None false empty_world) = inr a)
          by (rewrite C; reflexivity);
        vm_compute in X; injection X as <-; reflexivity).
  subst w1 a. rewrite R. simpl. apply Again.
  assert (X : stored_frame
                (snd (run_ops Demo.env
                        [OpGetCachedOcr; OpCapture (Some Demo.region1) true]
                        Demo.world1)) = Some (0%nat, f2))
    by (rewrite R; exact S2).
  vm_compute in X. injection X as <-.
  assert (Y : snd (run_ops Demo.env
                     [OpGetCachedOcr; OpCapture (Some Demo.region1) true]
                     Demo.world1) = w2) by (rewrite R; reflexivity).
  rewrite <- Y. vm_compute. reflexivity.
Defined.

(** ** Region captures *)

(** C8. A capture with a region set always takes a new screenshot of that
    region and returns it as a new frame object that is not put in the
    slot: the slot, the stored frame and its OCR payload, and every other
    object are as before. A second region capture takes the next screenshot
    and returns yet another object. *)
Theorem region_capture_not_stored (E : Env) (r : Region) (force : bool)
    (w : World) :
  sound w ->
  exists a w0 w',
    capture E (Some r) force w = (inr a, w') /\
    (w0 = w \/ w0 = tick w) /\
    (a ∉ dom (heap w)) /\
    heap w' = <[a := new_capture E (Some r) w0]> (heap w) /\
    image (new_capture E (Some r) w0) = screenshot_at E (shot_calls w) (Some r) /\
    slot w' = slot w /\
    stored_frame w' = stored_frame w /\
    shot_calls w' = S (shot_calls w) /\
    forall r2 force2,
    exists a2 f2 w'',
      capture E (Some r2) force2 w' = (inr a2, w'') /\
      a2 <> a /\
      heap w'' !! a2 = Some f2 /\
      image f2 = screenshot_at E (S (shot_calls w)) (Some r2) /\
      stored_frame w'' = stored_frame w /\
      shot_calls w'' = S (S (shot_calls w)).
Proof.
  intros Snd.
  destruct (FrameCacheFacts.capture_region_eq E r force w) as (w0 & Hw0 & C).
  assert (S0 : sound w0 /\ heap w0 = heap w /\ slot w0 = slot w /\
               shot_calls w0 = shot_calls w /\ stored_frame w0 = stored_frame w).
  { destruct Hw0 as [E0|E0]; rewrite E0; repeat split; auto. }
  destruct S0 as (Snd0 & Hh & Hs & Hc & Hst).
  eexists _, w0, _. split; [exact C|]. split; [exact Hw0|].
  split; [rewrite <- Hh; apply FrameCacheFacts.take_frame_fresh|].
  split; [simpl; rewrite Hh; reflexivity|].
  split; [simpl; rewrite Hc; reflexivity|].
  split; [exact Hs|].
  split; [rewrite FrameCacheFacts.stored_take_region by exact Snd0; exact Hst|].
  split; [simpl; rewrite Hc; reflexivity|].
  intros r2 force2.
  set (w' := snd (take_frame E (Some r) w0)).
  destruct (FrameCacheFacts.capture_region_eq E r2 force2 w') as (w1 & Hw1 & C2).
  assert (Snd' : sound w') by (apply FrameCacheFacts.sound_take_frame; exact Snd0).
  assert (S1 : sound w1 /\ heap w1 = heap w' /\
               shot_calls w1 = shot_calls w' /\ stored_frame w1 = stored_frame w').
  { destruct Hw1 as [E1|E1]; rewrite E1; repeat split; auto. }
  destruct S1 as (Snd1 & Hh1 & Hc1 & Hst1).
  eexists _, _, _. split; [exact C2|].
  split.
  { intros Heq.
    apply (FrameCacheFacts.take_frame_fresh E (Some r2) w1).
    rewrite Heq, Hh1. unfold w'. simpl. rewrite dom_insert_L.
    apply elem_of_union. left. apply elem_of_singleton. reflexivity. }
  split; [apply FrameCacheFacts.take_frame_new|].
  split; [simpl; rewrite Hc1; unfold w'; simpl; rewrite Hc; reflexivity|].
  split.
  { rewrite FrameCacheFacts.stored_take_region by exact Snd1.
    rewrite Hst1. unfold w'.
    rewrite FrameCacheFacts.stored_take_region by exact Snd0. exact Hst. }
  simpl. rewrite Hc1. unfold w'. simpl. rewrite Hc. reflexivity.
Qed.

Lemma region_capture_not_stored_witness :
  sound Demo.world1 /\
  exists a w',
    capture Demo.env (Some Demo.region1) false Demo.world1 = (inr a, w') /\
    stored_frame w' = Some (0%nat, Demo.frame0) /\
    shot_calls w' = 2%nat.
Proof.
  assert (S : sound Demo.world1) by (vm_compute; eauto).
  split; [exact S|].
  destruct (region_capture_not_stored Demo.env Demo.region1 false Demo.world1 S)
    as (a & w0 & w' & C & _ & _ & _ & _ & _ & St & Sh & _).
  exists a, w'. split; [exact C|]. split; [rewrite St|rewrite Sh]; reflexivity.
Defined.

(** ** Template matching *)

(** C9. Every match returned by [find_template_on_screen] carries the
    threshold passed as [confidence], not a score of the matcher, and no
    text; so all the matches of one call have the same confidence. The
    call does not touch the world. *)
Theorem template_matches_carry_threshold (E : Env) (template_path : string)
    (threshold : float) (grayscale : bool) (w : World) :
  exists matches,
    find_template_on_screen E template_path threshold grayscale w
    = (inr matches, w) /\
    Forall (fun m => confidence m = threshold /\ text m = None) matches /\
    (matches = [] \/
     map bbox matches =
     map (fun loc => {| bb_x := left loc; bb_y := top loc;
                        bb_width := box_width loc; bb_height := box_height loc |})
         (fst (locateAllOnScreen E template_path threshold grayscale))).
Proof.
  unfold find_template_on_screen.
  destruct (locateAllOnScreen E template_path threshold grayscale)
    as [locations not_found].
  destruct not_found.
  - exists []. split; [reflexivity|]. split; [constructor|]. left. reflexivity.
  - eexists. split; [reflexivity|]. split.
    + apply List.Forall_forall. intros m Hm. apply in_map_iff in Hm.
      destruct Hm as (loc & <- & _). split; reflexivity.
    + right. simpl. rewrite map_map. reflexivity.
Qed.

(** ** Fresh text queries *)

Lemma configure_pure (E : Env) :
  exists r, forall w, _configure_tesseract E w = (r, w).
Proof.
  unfold _configure_tesseract.
  destruct (pytesseract_installed E); [|eexists; reflexivity].
  destruct (_resolve_tesseract_cmd E) as [cmd|]; [|eexists; reflexivity].
  destruct (PyStr.truthy cmd); eexists; reflexivity.
Qed.

(** C10. [find_text_on_screen] leaves the frame cache as it is: the heap of
    frame objects (hence timestamps and OCR payloads) and the slot are the
    same after the call, and the clock is not read. When tesseract is
    configured, the only effect is one screenshot taken straight from the
    screen; otherwise the call raises before any effect. *)
Theorem find_text_on_screen_keeps_cache (E : Env) (query lang : string)
    (region : option Region) (min_confidence : float) (w : World) :
  heap (snd (find_text_on_screen E query lang region min_confidence w)) = heap w /\
  slot (snd (find_text_on_screen E query lang region min_confidence w)) = slot w /\
  stored_frame (snd (find_text_on_screen E query lang region min_confidence w))
  = stored_frame w /\
  snd (find_text_on_screen E query lang region min_confidence w) =
  match fst (_configure_tesseract E w) with
  | inr _ => after_shot w
  | inl _ => w
  end.
Proof.
  assert (H : snd (find_text_on_screen E query lang region min_confidence w) =
              match fst (_configure_tesseract E w) with
              | inr _ => after_shot w
              | inl _ => w
              end).
  { unfold find_text_on_screen, bind.
    destruct (configure_pure E) as [r Hr]. rewrite Hr. simpl.
    destruct r as [e|cmd]; [reflexivity|].
    unfold screenshot, lift.
    destruct region as [r|]; simpl;
      destruct (image_to_data E _ lang None) as [e|d]; try reflexivity;
      destruct (text_matches E except_ValueError d query _ _ min_confidence);
      reflexivity. }
  rewrite H. destruct (fst (_configure_tesseract E w)); repeat split; reflexivity.
Qed.

(** ** Observation *)

(** C4 as stated fails: in [Demo.world1] a frame that is 125 ms old is
    stored and [capture(force=False)] would hand it back, as [Observe] does
    in the specification's words; [get_screen()] takes a new screenshot and
    replaces the stored frame by it. *)
Lemma get_screen_reuses_nothing_counterexample :
  stored_frame Demo.world1 = Some (0%nat, Demo.frame0) /\
  capture Demo.env None false Demo.world1 = (inr 0%nat, tick Demo.world1) /\
  snd (observe_spec Demo.env None 50 Demo.world1) = tick Demo.world1 /\
  shot_calls Demo.world1 = 1%nat /\
  shot_calls (snd (get_screen Demo.env None 50 Demo.world1)) = 2%nat /\
  slot (snd (get_screen Demo.env None 50 Demo.world1)) = Some 1%nat /\
  fst (get_screen Demo.env None 50 Demo.world1)
  <> fst (observe_spec Demo.env None 50 Demo.world1).
Proof.
  vm_compute. repeat split; try reflexivity. intros H. discriminate H.
Qed.

(** C4, as the code has it. [get_screen] never reuses a cached frame. With
    the region unset it goes through [capture_with_metadata], which calls
    the frame cache's [capture] with [force=True]: a new screenshot is taken
    and stored as the new frame. With a region set it goes through
    [capture_screenshot], which takes the screenshot of the region straight
    from the screen and leaves the frame cache alone. Both answers are the
    JPEG encoding of the screenshot just taken. *)
Theorem get_screen_always_fresh (E : Env) (region : option (gmap string Z))
    (quality : Z) (w : World) (region_tuple : option Region) :
  region_tuple_of region = inr region_tuple ->
  get_screen E region quality w =
  (inr {| data := save_jpeg E (screenshot_at E (shot_calls w) region_tuple) quality;
          format := Jpeg |},
   match region_tuple with
   | None => snd (capture E None true w)
   | Some _ => after_shot w
   end) /\
  (region_tuple = None ->
   snd (capture E None true w) = snd (take_frame E None w) /\
   stored_frame (snd (get_screen E region quality w))
   = Some (fst (take_frame E None w), new_capture E None w)).
Proof.
  intros R.
  assert (G : get_screen E region quality w =
    (inr {| data := save_jpeg E (screenshot_at E (shot_calls w) region_tuple) quality;
            format := Jpeg |},
     match region_tuple with
     | None => snd (capture E None true w)
     | Some _ => after_shot w
     end)).
  { unfold get_screen, bind, lift. rewrite R.
    destruct region_tuple as [r|].
    - reflexivity.
    - unfold capture_with_metadata, bind.
      rewrite FrameCacheFacts.capture_forced. simpl.
      rewrite lookup_insert_eq. reflexivity. }
  split; [exact G|]. intros ->. rewrite G. simpl.
  rewrite FrameCacheFacts.capture_forced. simpl.
  split; [reflexivity|]. apply FrameCacheFacts.stored_take_frame.
Qed.

Lemma get_screen_always_fresh_witness :
  region_tuple_of (Some Demo.region_dict) = inr (Some Demo.region1) /\
  get_screen Demo.env (Some Demo.region_dict) 50 Demo.world1
  = (inr {| data := [1; 50]; format := Jpeg |}, after_shot Demo.world1).
Proof.
  assert (R : region_tuple_of (Some Demo.region_dict) = inr (Some Demo.region1))
    by (vm_compute; reflexivity).
  split; [exact R|].
  destruct (get_screen_always_fresh Demo.env _ 50 Demo.world1 _ R) as [G _].
  rewrite G. reflexivity.
Defined.

(** ** Attaching the OCR payload *)

(** When [ocr_full_screen] gets to the OCR engine, it has just taken a new
    full-screen frame, stored it, and the table is the engine's answer on
    the image of that frame. *)
Lemma ocr_full_screen_scan_inv (E : Env) (lang : string) (use_cache : bool)
    (psm : Z) (w w1 : World) (a : nat) (d : OCRTable) :
  ocr_full_screen_scan E lang use_cache psm w = (inr (inr (a, d)), w1) ->
  exists w0,
    (w0 = w \/ w0 = tick w) /\
    a = fst (take_frame E None w0) /\
    w1 = snd (take_frame E None w0) /\
    image_to_data E (image (new_capture E None w0)) lang (Some psm) = inr d.
Proof.
  assert (K : forall w0,
    (w0 = w \/ w0 = tick w) ->
    (p <- ocr_full_screen_run E lang psm ;; ret (inr p)) w0
    = (inr (inr (a, d)) : Exc + (list MatchDict + nat * OCRTable), w1) ->
    exists w0,
      (w0 = w \/ w0 = tick w) /\
      a = fst (take_frame E None w0) /\
      w1 = snd (take_frame E None w0) /\
      image_to_data E (image (new_capture E None w0)) lang (Some psm) = inr d).
  { intros w0 Hw0. unfold ocr_full_screen_run. unfold bind at 1. unfold bind at 1.
    destruct (configure_pure E) as [r Hr]. rewrite Hr.
    destruct r as [e|cmd]; [discriminate|].
    unfold bind at 1. rewrite FrameCacheFacts.capture_forced.
    unfold bind at 1. unfold frame_image.
    rewrite FrameCacheFacts.take_frame_new.
    unfold bind, lift.
    destruct (image_to_data E (image (new_capture E None w0)) lang (Some psm))
      as [e|d'] eqn:O; [discriminate|].
    unfold ret. intros H. injection H as <- <- <-.
    exists w0. auto. }
  unfold ocr_full_screen_scan. unfold bind at 1.
  destruct use_cache.
  - rewrite FrameCacheFacts.get_cached_ocr_eq.
    destruct (stored_frame w) as [[b f]|].
    + destruct (if PyFloat.gt (frame_age E w f) default_max_age_ms
                then None else ocr_data f) as [c|].
      * unfold bind, lift.
        destruct (_ocr_data_to_matches E c default_min_confidence);
          discriminate.
      * apply K. auto.
    + apply K. auto.
  - apply K. auto.
Qed.

(** [cache_ocr_data]: the table goes to the frame that is in the slot at
    that time; with an empty slot nothing changes. *)
Lemma cache_ocr_data_eq (d : OCRTable) (w : World) :
  cache_ocr_data d w =
  (inr tt,
   match stored_frame w with
   | Some (b, f) =>
       {| heap := <[b := set_ocr_data d f]> (heap w); slot := slot w;
          time_calls := time_calls w; shot_calls := shot_calls w |}
   | None => w
   end).
Proof.
  unfold cache_ocr_data, bind. rewrite FrameCacheFacts.current_frame_eq.
  destruct (stored_frame w) as [[b f]|] eqn:S; [|reflexivity].
  unfold store_ocr_data. f_equal. f_equal.
  unfold stored_frame in S. destruct (slot w) as [c|]; [|discriminate].
  destruct (heap w !! c) as [g|] eqn:Hc; [|discriminate].
  injection S as <- <-.
  apply map_eq. intros i. destruct (decide (i = c)) as [->|Hne].
  - rewrite lookup_alter_eq, lookup_insert_eq, Hc. reflexivity.
  - rewrite lookup_alter_ne, lookup_insert_ne by auto. reflexivity.
Qed.

(** C2 as stated fails: thread A runs [ocr_full_screen] on an empty cache
    and gets the table [d] for its frame [a]; before A attaches it, thread B
    calls [capture(force=True)]; A's [cache_ocr_data] then attaches [d] to
    B's frame [b], which is another object with another image, for which
    the engine gives another table. *)
Lemma ocr_payload_on_replaced_frame_counterexample :
  exists (a b : nat) (d : OCRTable) (f : CachedFrame) (w1 w2 w3 : World),
    ocr_full_screen_scan Demo.env "eng" true 3 empty_world
    = (inr (inr (a, d)), w1) /\
    run_ops Demo.env [OpCapture None true] w1 = (inr tt, w2) /\
    snd (ocr_full_screen_publish Demo.env d w2) = w3 /\
    snd (ocr_full_screen_among Demo.env [OpCapture None true] "eng" true 3
           empty_world) = w3 /\
    stored_frame w2 = Some (b, new_capture Demo.env None w1) /\
    stored_frame w3 = Some (b, f) /\
    b <> a /\
    ocr_data f = Some d /\
    image_to_data Demo.env (image f) "eng" (Some 3) <> inr d.
Proof.
  eexists _, _, _, _, _, _, _.
  split; [vm_compute; reflexivity|].
  split; [vm_compute; reflexivity|].
  split; [reflexivity|].
  split; [vm_compute; reflexivity|].
  split; [vm_compute; reflexivity|].
  split; [vm_compute; reflexivity|].
  split; [intros H; discriminate H|].
  split; [reflexivity|].
  vm_compute. intros H. discriminate H.
Qed.

(** C2, as the code has it. On the full-screen OCR path, [cache_ocr_data]
    attaches the table to whatever frame is in the slot when it takes the
    lock, without comparing it with the frame the OCR ran on: if the slot
    was cleared in between, the table is dropped; if the frame was replaced,
    the table is attached to the replacing frame; if other threads did
    nothing but quiet operations, the frame in the slot is still the one
    that was scanned and the table is attached to it. Slot and counters are
    not changed by the attachment and the matches are returned in all
    cases. *)
Theorem ocr_payload_goes_to_current_frame (E : Env) (lang : string)
    (use_cache : bool) (psm : Z) (others : list CacheOp)
    (w w1 w2 : World) (a : nat) (d : OCRTable) :
  ocr_full_screen_scan E lang use_cache psm w = (inr (inr (a, d)), w1) ->
  run_ops E others w1 = (inr tt, w2) ->
  (exists f1, stored_frame w1 = Some (a, f1) /\ ocr_data f1 = None /\
              image_to_data E (image f1) lang (Some psm) = inr d) /\
  ocr_full_screen_among E others lang use_cache psm w =
    ocr_full_screen_publish E d w2 /\
  fst (ocr_full_screen_publish E d w2)
  = _ocr_data_to_matches E d default_min_confidence /\
  snd (ocr_full_screen_publish E d w2) =
    match stored_frame w2 with
    | Some (b, f) =>
        {| heap := <[b := set_ocr_data d f]> (heap w2); slot := slot w2;
           time_calls := time_calls w2; shot_calls := shot_calls w2 |}
    | None => w2
    end /\
  (forallb quiet others = true ->
   exists f2, stored_frame w2 = Some (a, f2) /\
              stored_frame (snd (ocr_full_screen_publish E d w2))
              = Some (a, set_ocr_data d f2)).
Proof.
  intros Scan Run.
  destruct (ocr_full_screen_scan_inv _ _ _ _ _ _ _ _ Scan)
    as (w0 & Hw0 & -> & -> & Ocr).
  assert (S1 : stored_frame (snd (take_frame E None w0))
               = Some (fst (take_frame E None w0), new_capture E None w0))
    by apply FrameCacheFacts.stored_take_frame.
  assert (P : ocr_full_screen_publish E d w2 =
              (_ocr_data_to_matches E d default_min_confidence,
               match stored_frame w2 with
               | Some (b, f) =>
                   {| heap := <[b := set_ocr_data d f]> (heap w2);
                      slot := slot w2;
                      time_calls := time_calls w2;
                      shot_calls := shot_calls w2 |}
               | None => w2
               end)).
  { unfold ocr_full_screen_publish, bind. rewrite cache_ocr_data_eq.
    unfold lift. reflexivity. }
  split; [exists (new_capture E None w0); auto|].
  split.
  { unfold ocr_full_screen_among, bind. rewrite Scan, Run. reflexivity. }
  rewrite P. simpl. split; [reflexivity|]. split; [reflexivity|].
  intros Q.
  destruct (FrameCacheFacts.run_ops_quiet E others _ _ _ Q S1)
    as (f2 & w2' & Run' & S2 & _).
  rewrite Run in Run'. injection Run' as <-.
  exists f2. split; [exact S2|]. rewrite S2.
  unfold stored_frame in *. simpl.
  destruct (slot w2) as [c|]; [|discriminate].
  destruct (heap w2 !! c); [|discriminate].
  injection S2 as -> <-. rewrite lookup_insert_eq. reflexivity.
Qed.

Lemma ocr_payload_goes_to_current_frame_witness :
  exists d w1 w2,
    ocr_full_screen_scan Demo.env "eng" true 3 empty_world
    = (inr (inr (0%nat, d)), w1) /\
    run_ops Demo.env [OpInvalidate] w1 = (inr tt, w2) /\
    stored_frame w2 = None /\
    snd (ocr_full_screen_publish Demo.env d w2) = w2.
Proof.
  eexists _, _, _.
  assert (Scan : ocr_full_screen_scan Demo.env "eng" true 3 empty_world
                 = (inr (inr (0%nat,
                      match image_to_data Demo.env
                              (screenshot_at Demo.env 0 None) "eng" (Some 3) with
                      | inr d => d
                      | inl _ => Demo.table
                      end)),
                    snd (take_frame Demo.env None empty_world)))
    by (vm_compute; reflexivity).
  assert (Run : run_ops Demo.env [OpInvalidate]
                  (snd (take_frame Demo.env None empty_world))
                = (inr tt, snd (invalidate (snd (take_frame Demo.env None empty_world)))))
    by reflexivity.
  split; [exact Scan|]. split; [exact Run|]. split; [reflexivity|].
  destruct (ocr_payload_goes_to_current_frame Demo.env _ _ _ _ _ _ _ _ _ Scan Run)
    as (_ & _ & _ & P & _).
  rewrite P. reflexivity.
Defined.

(** ** Loops over the OCR table *)

Module TableFacts.

Lemma strip_truthy s : PyStr.truthy (PyStr.strip s) = negb (PyStr.all_space s).
Proof.
  unfold PyStr.strip. induction s as [|c s IH]; simpl; [reflexivity|].
  destruct (PyStr.is_space c) eqn:Sp; simpl; [exact IH|].
  rewrite Sp. destruct (PyStr.rstrip s); reflexivity.
Qed.

(** The test of line 433: [not word or not word.strip()]. *)
Lemma blank_test s :
  negb (PyStr.truthy s) || negb (PyStr.truthy (PyStr.strip s))
  = PyStr.all_space s.
Proof.
  rewrite strip_truthy, negb_involutive.
  destruct s as [|c s]; simpl; [reflexivity|]. reflexivity.
Qed.

Section Loops.

Context {A : Type} (body : nat -> Exc + option A).

Lemma for_range_appended r l :
  for_range body r = inr l -> l = appended body r.
Proof.
  revert l. induction r as [|i r IH]; simpl; intros l H.
  - injection H as <-. reflexivity.
  - unfold ebind in H. destruct (body i) as [e|o]; [discriminate|].
    destruct (for_range body r) as [e|l']; [discriminate|].
    injection H as <-. rewrite (IH l' eq_refl). destruct o; reflexivity.
Qed.

Lemma for_range_total r :
  (forall i, In i r -> exists o, body i = inr o) ->
  for_range body r = inr (appended body r).
Proof.
  induction r as [|i r IH]; simpl; intros H; [reflexivity|].
  destruct (H i) as [o Ho]; [auto|]. unfold ebind. rewrite Ho.
  rewrite IH by (intros j Hj; apply H; auto). destruct o; reflexivity.
Qed.

Lemma in_appended r x :
  In x (appended body r) <-> exists i, In i r /\ body i = inr (Some x).
Proof.
  unfold appended. rewrite in_flat_map. split.
  - intros (i & Hi & Hx). exists i. split; [exact Hi|].
    destruct (body i) as [e|[y|]]; simpl in Hx; try contradiction.
    destruct Hx as [->|[]]. reflexivity.
  - intros (i & Hi & Hb). exists i. split; [exact Hi|]. rewrite Hb. simpl. auto.
Qed.

End Loops.

Lemma in_range n i : In i (range n) <-> (i < n)%nat.
Proof. unfold range. rewrite in_seq. lia. Qed.

Lemma index_some {A} (l : list A) i x : index l i = inr x <-> l !! i = Some x.
Proof.
  unfold index. destruct (l !! i); split; intros H; try discriminate;
    injection H as ->; reflexivity.
Qed.

Lemma index_lt {A} (l : list A) i :
  (i < length l)%nat -> exists x, l !! i = Some x /\ index l i = inr x.
Proof.
  intros H. destruct (lookup_lt_is_Some_2 l i H) as [x Hx].
  exists x. split; [exact Hx|]. apply index_some. exact Hx.
Qed.

Section Conversion.

Variable E : Env.

(** The confidence of a token, from its cell of the [conf] column. *)
Lemma try_conf_cell caught d i c :
  col_conf d !! i = Some c ->
  try_conf E caught d i =
  match py_float E c with
  | inr f => inr (PrimFloat.div f PyFloat.hundred)
  | inl e => if caught e then inr PyFloat.zero else inl e
  end.
Proof.
  intros H. unfold try_conf, ebind, index. rewrite H.
  destruct (py_float E c); reflexivity.
Qed.

Lemma try_conf_convertible caught d i c :
  col_conf d !! i = Some c -> convertible E caught c ->
  exists conf, try_conf E caught d i = inr conf.
Proof.
  intros H C. rewrite (try_conf_cell caught d i c H). unfold convertible in C.
  destruct (py_float E c) as [e|f]; [rewrite C|]; eauto.
Qed.

(** An iteration of the text loops that appends a match. *)
Lemma text_match_at_some caught d q ox oy minc i m :
  text_match_at E caught d q ox oy minc i = inr (Some m) ->
  exists word conf l t w h,
    col_text d !! i = Some word /\
    PyStr.truthy word = true /\
    PyStr.contains q (PyStr.lower word) = true /\
    try_conf E caught d i = inr conf /\
    PyFloat.ge conf minc = true /\
    col_left d !! i = Some l /\ col_top d !! i = Some t /\
    col_width d !! i = Some w /\ col_height d !! i = Some h /\
    m = {| bbox := {| bb_x := ox + l; bb_y := oy + t;
                      bb_width := w; bb_height := h |};
           confidence := conf; text := Some word |}.
Proof.
  unfold text_match_at, ebind.
  destruct (index (col_text d) i) as [e|word] eqn:W; [discriminate|].
  destruct (PyStr.truthy word) eqn:T; simpl; [|discriminate].
  destruct (PyStr.contains q (PyStr.lower word)) eqn:C; [|discriminate].
  destruct (try_conf E caught d i) as [e|conf] eqn:TC; [discriminate|].
  destruct (PyFloat.ge conf minc) eqn:G; [|discriminate].
  destruct (index (col_left d) i) as [e|l] eqn:L; [discriminate|].
  destruct (index (col_top d) i) as [e|t] eqn:Tp; [discriminate|].
  destruct (index (col_width d) i) as [e|w] eqn:Wd; [discriminate|].
  destruct (index (col_height d) i) as [e|h] eqn:Ht; [discriminate|].
  intros H. injection H as <-.
  apply index_some in W, L, Tp, Wd, Ht.
  exists word, conf, l, t, w, h. repeat split; auto.
Qed.

(** On a table whose columns are aligned and whose scores convert, no
    iteration of the text loops raises. *)
Lemma text_match_at_total caught d q ox oy minc i :
  well_formed d -> Forall (convertible E caught) (col_conf d) ->
  (i < length (col_text d))%nat ->
  exists o, text_match_at E caught d q ox oy minc i = inr o.
Proof.
  intros (Lc & Ll & Lt & Lw & Lh) Conv Hi.
  unfold text_match_at, ebind.
  destruct (index_lt (col_text d) i Hi) as (word & _ & ->).
  destruct (PyStr.truthy word); simpl; [|eauto].
  destruct (PyStr.contains q (PyStr.lower word)); [|eauto].
  destruct (index_lt (col_conf d) i) as (c & Hc & _); [lia|].
  destruct (try_conf_convertible caught d i c Hc) as [conf ->].
  { rewrite List.Forall_forall in Conv. apply Conv.
    apply list_elem_of_In. apply list_elem_of_lookup. eauto. }
  destruct (PyFloat.ge conf minc); [|eauto].
  destruct (index_lt (col_left d) i) as (l & _ & ->); [lia|].
  destruct (index_lt (col_top d) i) as (t & _ & ->); [lia|].
  destruct (index_lt (col_width d) i) as (w & _ & ->); [lia|].
  destruct (index_lt (col_height d) i) as (h & _ & ->); [lia|].
  eauto.
Qed.

(** An iteration of [_ocr_data_to_matches]: what is appended, and when. *)
Lemma match_dict_at_some d minc i m :
  match_dict_at E d minc i = inr (Some m) <->
  exists word conf x y w h,
    col_text d !! i = Some word /\
    PyStr.all_space word = false /\
    try_conf E except_ValueError_TypeError d i = inr conf /\
    PyFloat.lt conf minc = false /\
    col_left d !! i = Some x /\ col_top d !! i = Some y /\
    col_width d !! i = Some w /\ col_height d !! i = Some h /\
    m = {| md_text := word; md_confidence := conf;
           md_bbox := {| d_x := x; d_y := y; d_width := w; d_height := h;
                         d_center_x := x + w / 2; d_center_y := y + h / 2 |} |}.
Proof.
  unfold match_dict_at, ebind. split.
  - destruct (index (col_text d) i) as [e|word] eqn:W; [discriminate|].
    rewrite blank_test.
    destruct (PyStr.all_space word) eqn:B; [discriminate|].
    destruct (try_conf E except_ValueError_TypeError d i) as [e|conf] eqn:TC;
      [discriminate|].
    destruct (PyFloat.lt conf minc) eqn:G; [discriminate|].
    destruct (index (col_left d) i) as [e|x] eqn:L; [discriminate|].
    destruct (index (col_top d) i) as [e|y] eqn:Tp; [discriminate|].
    destruct (index (col_width d) i) as [e|w] eqn:Wd; [discriminate|].
    destruct (index (col_height d) i) as [e|h] eqn:Ht; [discriminate|].
    intros H. injection H as <-.
    apply index_some in W, L, Tp, Wd, Ht.
    exists word, conf, x, y, w, h. repeat split; auto.
  - intros (word & conf & x & y & w & h & W & B & TC & G & L & Tp & Wd & Ht & ->).
    apply index_some in W, L, Tp, Wd, Ht.
    rewrite W, blank_test, B, TC, G, L, Tp, Wd, Ht. reflexivity.
Qed.

Lemma match_dict_at_blank d minc i word :
  col_text d !! i = Some word -> PyStr.all_space word = true ->
  match_dict_at E d minc i = inr None.
Proof.
  intros W B. apply index_some in W.
  unfold match_dict_at, ebind. rewrite W, blank_test, B. reflexivity.
Qed.

Lemma match_dict_at_total d minc i :
  well_formed d ->
  Forall (convertible E except_ValueError_TypeError) (col_conf d) ->
  (i < length (col_text d))%nat ->
  exists o, match_dict_at E d minc i = inr o.
Proof.
  intros (Lc & Ll & Lt & Lw & Lh) Conv Hi.
  unfold match_dict_at, ebind.
  destruct (index_lt (col_text d) i Hi) as (word & _ & ->).
  destruct (negb (PyStr.truthy word) || negb (PyStr.truthy (PyStr.strip word)));
    [eauto|].
  destruct (index_lt (col_conf d) i) as (c & Hc & _); [lia|].
  destruct (try_conf_convertible except_ValueError_TypeError d i c Hc)
    as [conf ->].
  { rewrite List.Forall_forall in Conv. apply Conv.
    apply list_elem_of_In. apply list_elem_of_lookup. eauto. }
  destruct (PyFloat.lt conf minc); [eauto|].
  destruct (index_lt (col_left d) i) as (x & _ & ->); [lia|].
  destruct (index_lt (col_top d) i) as (y & _ & ->); [lia|].
  destruct (index_lt (col_width d) i) as (w & _ & ->); [lia|].
  destruct (index_lt (col_height d) i) as (h & _ & ->); [lia|].
  eauto.
Qed.

End Conversion.

End TableFacts.

(** ** Ranking *)

Lemma text_matches_emitted (E : Env) caught d query ox oy minc matches :
  text_matches E caught d query ox oy minc = inr matches ->
  matches = emitted E caught d query ox oy minc.
Proof. apply TableFacts.for_range_appended. Qed.

Lemma emitted_floor (E : Env) caught d query ox oy minc :
  Forall (fun m => PyFloat.ge (confidence m) minc = true)
         (emitted E caught d query ox oy minc).
Proof.
  apply List.Forall_forall. intros m Hm.
  apply TableFacts.in_appended in Hm. destruct Hm as (i & _ & Hi).
  apply TableFacts.text_match_at_some in Hi.
  destruct Hi as (word & conf & l & t & w & h & _ & _ & _ & _ & G & _ & _ & _ & _ & ->).
  exact G.
Qed.

Lemma emitted_no_nan (E : Env) caught d query ox oy minc :
  no_nan confidence (emitted E caught d query ox oy minc).
Proof.
  unfold no_nan.
  pose proof (emitted_floor E caught d query ox oy minc) as F.
  rewrite List.Forall_forall in F |- *. intros m Hm.
  apply (FloatOrder.leb_not_nan _ _ (F m Hm)).
Qed.

Lemma sorted_emitted_ranked (E : Env) caught d query ox oy minc :
  ranked (emitted E caught d query ox oy minc)
         (sorted_reverse confidence (emitted E caught d query ox oy minc)).
Proof.
  apply SortedReverse.sorted_reverse_correct. apply emitted_no_nan.
Qed.

(** ** The conversion of [ocr_full_screen] *)

(** Whatever [ocr_full_screen] returns is the conversion, with the floor
    0.0, of a table: the cached one or the one the engine has just given. *)
Lemma ocr_full_screen_result (E : Env) (lang : string) (use_cache : bool)
    (psm : Z) (w w' : World) (l : list MatchDict) :
  ocr_full_screen E lang use_cache psm w = (inr l, w') ->
  exists d, _ocr_data_to_matches E d default_min_confidence = inr l.
Proof.
  unfold ocr_full_screen. unfold bind at 1.
  destruct (ocr_full_screen_scan E lang use_cache psm w)
    as [[e|[res|[a d]]] w1] eqn:S; [discriminate| |].
  - intros H. injection H as <- _.
    unfold ocr_full_screen_scan in S. unfold bind at 1 in S.
    assert (K : forall w0,
      (p <- ocr_full_screen_run E lang psm ;; ret (inr p)) w0
      <> (inr (inl res) : Exc + (list MatchDict + nat * OCRTable), w1)).
    { intros w0. unfold bind.
      destruct (ocr_full_screen_run E lang psm w0) as [[e|p] w2];
        intros H; discriminate H. }
    destruct use_cache.
    + rewrite FrameCacheFacts.get_cached_ocr_eq in S.
      destruct (stored_frame w) as [[b f]|]; [|exfalso; exact (K _ S)].
      destruct (if PyFloat.gt (frame_age E w f) default_max_age_ms
                then None else ocr_data f) as [c|]; [|exfalso; exact (K _ S)].
      exists c. unfold bind, lift in S.
      destruct (_ocr_data_to_matches E c default_min_confidence) as [e|r];
        [discriminate|].
      injection S as -> _. reflexivity.
    + exfalso. exact (K _ S).
  - unfold ocr_full_screen_publish, bind. rewrite cache_ocr_data_eq.
    unfold lift. intros H. exists d. injection H as -> _. reflexivity.
Qed.

(** C7 as stated fails: the token "subtle" of [Demo.table] is not blank
    and its engine score is -1; the conversion drops it, in
    [_ocr_data_to_matches] and so in [ocr_full_screen]. *)
Lemma scan_drops_negative_score_counterexample :
  col_text Demo.table !! 3%nat = Some "subtle"%string /\
  PyStr.all_space "subtle" = false /\
  col_conf Demo.table !! 3%nat = Some (PyInt (-1)) /\
  (exists l,
      _ocr_data_to_matches Demo.env Demo.table default_min_confidence = inr l /\
      map md_text l = ["Submit"; "sub"; "Subway"]%string) /\
  (exists l,
      fst (ocr_full_screen Demo.env "eng" true 3 empty_world) = inr l /\
      map md_text l = ["Submit"; "sub"; "Subway"; "frame"]%string).
Proof.
  split; [reflexivity|]. split; [reflexivity|]. split; [reflexivity|].
  split; eexists; (split; [vm_compute; reflexivity|reflexivity]).
Qed.

(** ** Confidence *)

(** C5 as stated fails on negative scores. The token "subtle" of
    [Demo.table] has the engine score -1: its confidence is -1/100, which
    is negative, not 0.0. With the floor -1, [find_text_on_screen] returns a
    match for it that carries this negative confidence; with the floor 0.0
    it is left out while the token "Subway", whose score is not a number
    and counts for 0.0, is returned. *)
Lemma negative_score_not_clamped_counterexample :
  col_text Demo.table !! 3%nat = Some "subtle"%string /\
  col_conf Demo.table !! 3%nat = Some (PyInt (-1)) /\
  try_conf Demo.env except_ValueError Demo.table 3
  = inr (PrimFloat.div (-1)%float 100%float) /\
  PyFloat.lt (PrimFloat.div (-1)%float 100%float) PyFloat.zero = true /\
  (exists res m,
      fst (find_text_on_screen Demo.env "sub" "eng" None (-1)%float empty_world)
      = inr res /\
      In m res /\ text m = Some "subtle"%string /\
      PyFloat.lt (confidence m) PyFloat.zero = true) /\
  (exists res,
      fst (find_text_on_screen Demo.env "sub" "eng" None 0%float empty_world)
      = inr res /\
      map text res = [Some "Submit"; Some "sub"; Some "Subway"]%string).
Proof.
  split; [reflexivity|]. split; [reflexivity|].
  split; [vm_compute; reflexivity|]. split; [vm_compute; reflexivity|].
  split.
  - eexists _, {| bbox := {| bb_x := 40; bb_y := 60; bb_width := 44; bb_height := 12 |};
                  confidence := PrimFloat.div (-1)%float 100%float;
                  text := Some "subtle"%string |}.
    split; [vm_compute; reflexivity|].
    split; [do 3 right; left; vm_compute; reflexivity|].
    split; [reflexivity|vm_compute; reflexivity].
  - eexists. split; [vm_compute; reflexivity|reflexivity].
Qed.

(** ** The scenarios of the specification *)

(** Scenario A: on the rows ("Submit", 92, 10, 10, 50, 20) and
    ("sub", 20, 200, 200, 30, 15) of [Demo.table], the query "sub" with the
    floor 0.3 returns "Submit" only, with confidence 0.92 and the centre
    (35, 20). *)
Example scenario_find_text :
  exists res,
    fst (find_text_on_screen Demo.env "sub" "eng" None
           (PrimFloat.div 3%float 10%float) empty_world) = inr res /\
    map (fun m => (text m, confidence m, center (bbox m))) res
    = [(Some "Submit"%string, PrimFloat.div 92%float 100%float, (35, 20))].
Proof. eexists. split; vm_compute; reflexivity. Qed.

(** Scenario B: a capture on an empty cache takes a screenshot; a second
    one 125 ms later returns the same frame; after more than 500 ms a
    capture takes a new screenshot, with a newer timestamp. *)
Example scenario_capture :
  let w1 := snd (capture Demo.env None false empty_world) in
  let w2 := snd (capture Demo.env None false w1) in
  let w3 := snd (run_ops Demo.env [OpGetCached default_max_age_ms;
                                   OpGetCached default_max_age_ms;
                                   OpGetCached default_max_age_ms] w2) in
  let w4 := snd (capture Demo.env None false w3) in
  fst (capture Demo.env None false empty_world) = inr 0%nat /\
  shot_calls w1 = 1%nat /\
  fst (capture Demo.env None false w1) = inr 0%nat /\
  shot_calls w2 = 1%nat /\
  fst (capture Demo.env None false w3) = inr 1%nat /\
  shot_calls w4 = 2%nat /\
  (timestamp <$> heap w4 !! 0%nat) = Some 0%float /\
  (timestamp <$> heap w4 !! 1%nat) = Some 0.75%float.
Proof. vm_compute. repeat split; reflexivity. Qed.

(** * More of the frame cache *)

Module FloatMore.

(** No number is greater than infinity; NaN is not either. *)
Lemma not_gt_infinity x : PyFloat.gt x PyFloat.inf = false.
Proof.
  unfold PyFloat.gt, PyFloat.inf. rewrite FloatAxioms.ltb_spec.
  replace (Prim2SF infinity) with (S754_infinity false)
    by (vm_compute; reflexivity).
  unfold SFltb. destruct (Prim2SF x) as [s|s| |s m e]; try reflexivity;
    destruct s; reflexivity.
Qed.

Lemma leb_refl x : PyFloat.is_nan x = false -> PrimFloat.leb x x = true.
Proof.
  intros N. destruct (FloatOrder.compare_cases x x N N); assumption.
Qed.

Lemma ltb_leb x y : PrimFloat.ltb x y = true -> PrimFloat.leb x y = true.
Proof.
  intros H. destruct (FloatOrder.ltb_not_nan _ _ H) as [Nx Ny].
  destruct (FloatOrder.compare_cases x y Nx Ny) as [? ? ? ? ? ? ?|L|L];
    [assumption|rewrite L in H; discriminate|rewrite L in H; discriminate].
Qed.

End FloatMore.

(** After [invalidate()] nothing is served from the cache: [get_cached],
    [get_cached_ocr], [get_frame_cache_age_ms] and [find_text_in_ocr_cache]
    answer "absent" without reading the clock, the frame objects stay in
    the heap untouched, and the next [capture()] takes a new screenshot. *)
Theorem invalidate_clears (E : Env) (w : World) :
  exists w',
    invalidate w = (inr tt, w') /\
    heap w' = heap w /\ slot w' = None /\
    time_calls w' = time_calls w /\ shot_calls w' = shot_calls w /\
    (forall max_age_ms, get_cached E max_age_ms w' = (inr None, w')) /\
    get_cached_ocr E w' = (inr None, w') /\
    get_frame_cache_age_ms E w' = (inr None, w') /\
    (forall query min_confidence,
        find_text_in_ocr_cache E query min_confidence w' = (inr [], w')) /\
    capture E None false w' =
      (inr (fst (take_frame E None w')), snd (take_frame E None w')).
Proof.
  eexists. split; [reflexivity|]. simpl.
  repeat split; intros; try reflexivity.
  rewrite FrameCacheFacts.capture_eq. reflexivity.
Qed.

(** The age reported by [get_frame_cache_age_ms] has no bound: while a
    frame is stored the answer is never absent, however old the frame is,
    and it is the age at the second reading of the clock, the first one
    being spent on the staleness test against infinity. The cache is not
    changed. *)
Theorem cache_age_unbounded (E : Env) (w : World) (a : nat) (f : CachedFrame) :
  stored_frame w = Some (a, f) ->
  get_frame_cache_age_ms E w
  = (inr (Some (frame_age E (tick w) f)), tick (tick w)).
Proof.
  intros S. unfold get_frame_cache_age_ms. unfold bind at 1.
  rewrite FrameCacheFacts.get_cached_eq, S.
  rewrite FloatMore.not_gt_infinity.
  assert (H : heap (tick w) !! a = Some f).
  { unfold stored_frame in S. simpl. destruct (slot w) as [b|]; [|discriminate].
    destruct (heap w !! b) eqn:Hb; [|discriminate]. injection S as <- <-.
    exact Hb. }
  rewrite H. reflexivity.
Qed.

Lemma cache_age_unbounded_witness :
  stored_frame Demo.world_at_threshold = Some (0%nat, Demo.frame0) /\
  get_frame_cache_age_ms Demo.env Demo.world_at_threshold
  = (inr (Some 625%float), tick (tick Demo.world_at_threshold)).
Proof.
  assert (S : stored_frame Demo.world_at_threshold = Some (0%nat, Demo.frame0))
    by (vm_compute; reflexivity).
  split; [exact S|].
  rewrite (cache_age_unbounded Demo.env _ _ _ S). vm_compute. reflexivity.
Defined.

(** A forced capture throws the OCR payload away with the frame it
    replaces: the new stored frame has no payload, so right after
    [capture(force=True)] [get_cached_ocr] is absent and
    [find_text_in_ocr_cache] finds nothing, whatever was cached before. *)
Theorem forced_capture_discards_payload (E : Env) (w : World) :
  exists a w',
    capture E None true w = (inr a, w') /\
    stored_frame w' = Some (a, new_capture E None w) /\
    ocr_data (new_capture E None w) = None /\
    fst (get_cached_ocr E w') = inr None /\
    forall query min_confidence,
      fst (find_text_in_ocr_cache E query min_confidence w') = inr [].
Proof.
  eexists _, _. split; [apply FrameCacheFacts.capture_forced|].
  pose proof (FrameCacheFacts.stored_take_frame E w) as S.
  split; [exact S|]. split; [reflexivity|].
  assert (G : fst (get_cached_ocr E (snd (take_frame E None w))) = inr None).
  { rewrite FrameCacheFacts.get_cached_ocr_eq, S. simpl.
    destruct (PyFloat.gt _ _); reflexivity. }
  split; [exact G|]. intros query min_confidence.
  unfold find_text_in_ocr_cache, bind.
  destruct (get_cached_ocr E (snd (take_frame E None w))) as [[e|[d|]] w1];
    simpl in G; try discriminate. reflexivity.
Qed.

(** [find_text_in_ocr_cache] never captures and never runs the engine: the
    heap, the slot and the number of screenshots are unchanged, at most the
    clock is read once. It answers the empty list, not an error, when no
    frame is stored, when the stored frame is stale, and when the frame has
    no OCR payload. *)
Theorem cached_text_query_only_reads (E : Env) (query : string)
    (min_confidence : float) (w : World) :
  heap (snd (find_text_in_ocr_cache E query min_confidence w)) = heap w /\
  slot (snd (find_text_in_ocr_cache E query min_confidence w)) = slot w /\
  shot_calls (snd (find_text_in_ocr_cache E query min_confidence w))
  = shot_calls w /\
  snd (find_text_in_ocr_cache E query min_confidence w)
  = match stored_frame w with Some _ => tick w | None => w end /\
  match stored_frame w with
  | None => fst (find_text_in_ocr_cache E query min_confidence w) = inr []
  | Some (a, f) =>
      if PyFloat.gt (frame_age E w f) default_max_age_ms
      then fst (find_text_in_ocr_cache E query min_confidence w) = inr []
      else match ocr_data f with
           | None => fst (find_text_in_ocr_cache E query min_confidence w) = inr []
           | Some d =>
               fst (find_text_in_ocr_cache E query min_confidence w) =
               match text_matches E except_ValueError_TypeError d query 0 0
                                  min_confidence with
               | inr matches => inr (sorted_reverse confidence matches)
               | inl e => inl e
               end
           end
  end.
Proof.
  unfold find_text_in_ocr_cache, bind.
  rewrite FrameCacheFacts.get_cached_ocr_eq.
  destruct (stored_frame w) as [[a f]|]; [|repeat split; reflexivity].
  destruct (PyFloat.gt (frame_age E w f) default_max_age_ms);
    [repeat split; reflexivity|].
  destruct (ocr_data f) as [d|]; [|repeat split; reflexivity].
  unfold lift.
  destruct (text_matches E except_ValueError_TypeError d query 0 0 min_confidence);
    repeat split; reflexivity.
Qed.

(** ** One OCR pass, many queries *)

(** [ocr_full_screen(use_cache=False)] always takes a new screenshot, also
    when a fresh payload is cached; when it returns, the frame in the slot
    is the new one, it carries the table the engine gave for its image, and
    the matches returned are the conversion of that table. *)
Theorem ocr_scan_populates_cache (E : Env) (lang : string) (psm : Z)
    (w w' : World) (l : list MatchDict) :
  ocr_full_screen E lang false psm w = (inr l, w') ->
  exists d,
    image_to_data E (screenshot_at E (shot_calls w) None) lang (Some psm) = inr d /\
    _ocr_data_to_matches E d default_min_confidence = inr l /\
    stored_frame w'
    = Some (fst (take_frame E None w), set_ocr_data d (new_capture E None w)) /\
    (fst (take_frame E None w) ∉ dom (heap w)) /\
    shot_calls w' = S (shot_calls w).
Proof.
  unfold ocr_full_screen, ocr_full_screen_scan, ocr_full_screen_run.
  unfold bind at 1. unfold bind at 1. unfold ret at 1.
  unfold bind at 1. unfold bind at 1.
  destruct (configure_pure E) as [r Hr]. rewrite Hr.
  destruct r as [e|cmd]; [discriminate|].
  unfold bind at 1. rewrite FrameCacheFacts.capture_forced.
  unfold bind at 1. unfold frame_image.
  rewrite FrameCacheFacts.take_frame_new.
  unfold bind at 1. unfold lift at 1.
  change (image (new_capture E None w))
    with (screenshot_at E (shot_calls w) None).
  destruct (image_to_data E (screenshot_at E (shot_calls w) None) lang (Some psm))
    as [e|d]; [discriminate|].
  unfold ret. unfold ocr_full_screen_publish, bind.
  rewrite cache_ocr_data_eq, FrameCacheFacts.stored_take_frame. unfold lift.
  intros H. injection H as H1 <-. exists d.
  split; [reflexivity|]. split; [exact H1|].
  split.
  { unfold stored_frame. simpl. rewrite lookup_insert_eq. reflexivity. }
  split; [apply FrameCacheFacts.take_frame_fresh|reflexivity].
Qed.

Lemma ocr_scan_populates_cache_witness :
  exists l,
    ocr_full_screen Demo.env "eng" false 3 Demo.world_ocr = (inr l, snd (ocr_full_screen Demo.env "eng" false 3 Demo.world_ocr)) /\
    shot_calls (snd (ocr_full_screen Demo.env "eng" false 3 Demo.world_ocr)) = 2%nat.
Proof.
  assert (H : ocr_full_screen Demo.env "eng" false 3 Demo.world_ocr
              = (inr match fst (ocr_full_screen Demo.env "eng" false 3 Demo.world_ocr) with
                     | inr l => l
                     | inl _ => []
                     end,
                 snd (ocr_full_screen Demo.env "eng" false 3 Demo.world_ocr)))
    by (vm_compute; reflexivity).
  eexists. split; [exact H|].
  destruct (ocr_scan_populates_cache _ _ _ _ _ _ H) as (d & _ & _ & _ & _ & Sh).
  rewrite Sh. reflexivity.
Defined.

(** While the stored frame is not stale and carries a payload,
    [ocr_full_screen(use_cache=True)] answers from the payload alone: no
    screenshot, no engine call, not even the search for the tesseract
    binary, and the language and the segmentation mode asked for play no
    part. Only the clock is read. *)
Theorem ocr_scan_reuses_payload (E : Env) (lang : string) (psm : Z) (w : World)
    (a : nat) (f : CachedFrame) (d : OCRTable) :
  stored_frame w = Some (a, f) ->
  ocr_data f = Some d ->
  PyFloat.gt (frame_age E w f) default_max_age_ms = false ->
  ocr_full_screen E lang true psm w
  = (_ocr_data_to_matches E d default_min_confidence, tick w).
Proof.
  intros S D Fresh.
  unfold ocr_full_screen, ocr_full_screen_scan. unfold bind at 1. unfold bind at 1.
  rewrite FrameCacheFacts.get_cached_ocr_eq, S, Fresh, D.
  unfold bind, lift, ret.
  destruct (_ocr_data_to_matches E d default_min_confidence); reflexivity.
Qed.

Lemma ocr_scan_reuses_payload_witness :
  exists f d,
    stored_frame Demo.world_ocr = Some (0%nat, f) /\
    ocr_data f = Some d /\
    ocr_full_screen Demo.env "deu" true 6 Demo.world_ocr
    = (_ocr_data_to_matches Demo.env d default_min_confidence,
       tick Demo.world_ocr).
Proof.
  assert (S : stored_frame Demo.world_ocr
              = Some (0%nat,
                      match stored_frame Demo.world_ocr with
                      | Some (_, f) => f
                      | None => Demo.frame0
                      end)) by (vm_compute; reflexivity).
  assert (D : ocr_data match stored_frame Demo.world_ocr with
                       | Some (_, f) => f
                       | None => Demo.frame0
                       end
              = Some match image_to_data Demo.env (screenshot_at Demo.env 0 None)
                             "eng" (Some 3) with
                     | inr d => d
                     | inl _ => Demo.table
                     end) by (vm_compute; reflexivity).
  eexists _, _. split; [exact S|]. split; [exact D|].
  apply (ocr_scan_reuses_payload Demo.env "deu" 6 _ _ _ _ S D).
  vm_compute. reflexivity.
Defined.

(** ** The best match *)

Lemma find_text_on_screen_sorted (E : Env) query lang region minc w w' res :
  find_text_on_screen E query lang region minc w = (inr res, w') ->
  exists d ox oy,
    res = sorted_reverse confidence (emitted E except_ValueError d query ox oy minc).
Proof.
  intros H. unfold find_text_on_screen, bind in H.
  destruct (configure_pure E) as [r Hr]. rewrite Hr in H.
  destruct r as [e|cmd]; [discriminate|].
  unfold screenshot, lift in H.
  set (shot := screenshot_at E (shot_calls w) region) in H.
  set (off := match region with
              | Some r => (rg_x r, rg_y r)
              | None => (0, 0)
              end) in H.
  destruct off as [ox oy].
  destruct (image_to_data E shot lang None) as [e|d]; [discriminate|].
  destruct (text_matches E except_ValueError d query ox oy minc)
    as [e|matches] eqn:T; [discriminate|].
  injection H as <- _.
  rewrite (text_matches_emitted _ _ _ _ _ _ _ _ T). eauto.
Qed.

(** [find_best_text_match] answers [None] exactly when the text query finds
    nothing; otherwise its answer is one of the matches of the query and no
    match of the query has a greater confidence. *)
Theorem best_text_match_is_maximal (E : Env) (query lang : string)
    (region : option Region) (min_confidence : float) (w w' : World)
    (best : option ElementMatch) :
  find_best_text_match E query lang region min_confidence w = (inr best, w') ->
  exists res,
    find_text_on_screen E query lang region min_confidence w = (inr res, w') /\
    match best with
    | None => res = []
    | Some m =>
        In m res /\
        Forall (fun m' => PrimFloat.leb (confidence m') (confidence m) = true) res
    end.
Proof.
  unfold find_best_text_match, bind.
  destruct (find_text_on_screen E query lang region min_confidence w)
    as [[e|res] w1] eqn:F; [discriminate|].
  intros H. injection H as <- <-. exists res. split; [reflexivity|].
  destruct (find_text_on_screen_sorted _ _ _ _ _ _ _ _ F) as (d & ox & oy & R).
  pose proof (sorted_emitted_ranked E except_ValueError d query ox oy min_confidence)
    as (P & D & _).
  pose proof (emitted_no_nan E except_ValueError d query ox oy min_confidence) as N.
  rewrite <- R in P, D.
  destruct res as [|m res]; simpl; [reflexivity|].
  split; [auto|]. constructor.
  - apply FloatMore.leb_refl. unfold no_nan in N.
    rewrite List.Forall_forall in N. apply N.
    apply (Permutation_in _ (Permutation_sym P)). simpl. auto.
  - unfold descending in D. apply StronglySorted_inv in D. apply D.
Qed.

Lemma best_text_match_is_maximal_witness :
  exists m w',
    find_best_text_match Demo.env_ties "tab" "eng" None 0.25%float empty_world
    = (inr (Some m), w') /\
    text m = Some "tab two"%string.
Proof.
  assert (H : find_best_text_match Demo.env_ties "tab" "eng" None 0.25%float
                empty_world
              = (inr (Some {| bbox := {| bb_x := 2; bb_y := 2; bb_width := 10;
                                         bb_height := 10 |};
                              confidence := PrimFloat.div 80%float 100%float;
                              text := Some "tab two"%string |}),
                 after_shot empty_world))
    by (vm_compute; reflexivity).
  eexists _, _. split; [exact H|].
  destruct (best_text_match_is_maximal _ _ _ _ _ _ _ _ H) as (res & _ & _).
  reflexivity.
Defined.

(** ** Finding tesseract *)

(** [TESSERACT_CMD] wins when it names an existing file; any command that
    [_resolve_tesseract_cmd] returns is a non-empty string that comes from
    [TESSERACT_CMD], from the search of "tesseract" on the PATH, or from one
    of the two fixed locations, which then exists. [_configure_tesseract]
    raises [ImportError] when pytesseract is missing, [FileNotFoundError]
    when no command is found, returns the command otherwise, and never
    touches the world. *)
Theorem tesseract_resolution (E : Env) :
  (forall c, environ_TESSERACT_CMD E = Some c -> PyStr.truthy c = true ->
             path_exists E c = true -> _resolve_tesseract_cmd E = Some c) /\
  (forall cmd,
      _resolve_tesseract_cmd E = Some cmd ->
      PyStr.truthy cmd = true /\
      ((environ_TESSERACT_CMD E = Some cmd /\ path_exists E cmd = true) \/
       which E "tesseract" = Some cmd \/
       (cmd = "/usr/bin/tesseract"%string /\ path_exists E cmd = true) \/
       (cmd = "/usr/local/bin/tesseract"%string /\ path_exists E cmd = true))) /\
  (forall w,
      _configure_tesseract E w =
      (if pytesseract_installed E then
         match _resolve_tesseract_cmd E with
         | Some cmd => inr cmd
         | None => inl FileNotFoundError
         end
       else inl ImportError, w)).
Proof.
  assert (Fallback : forall cmd,
    first_candidate E ["tesseract"; "/usr/bin/tesseract";
                       "/usr/local/bin/tesseract"]%string = Some cmd ->
    PyStr.truthy cmd = true /\
    (which E "tesseract" = Some cmd \/
     (cmd = "/usr/bin/tesseract"%string /\ path_exists E cmd = true) \/
     (cmd = "/usr/local/bin/tesseract"%string /\ path_exists E cmd = true))).
  { intros cmd. simpl.
    change (is_abs "tesseract") with false.
    change (is_abs "/usr/bin/tesseract") with true.
    change (is_abs "/usr/local/bin/tesseract") with true.
    cbv iota.
    assert (Abs : (if path_exists E "/usr/bin/tesseract"
                   then Some "/usr/bin/tesseract"%string
                   else if path_exists E "/usr/local/bin/tesseract"
                        then Some "/usr/local/bin/tesseract"%string
                        else None) = Some cmd ->
                  PyStr.truthy cmd = true /\
                  ((cmd = "/usr/bin/tesseract"%string /\ path_exists E cmd = true) \/
                   (cmd = "/usr/local/bin/tesseract"%string /\ path_exists E cmd = true))).
    { destruct (path_exists E "/usr/bin/tesseract") eqn:P1.
      - intros H. injection H as <-. auto.
      - destruct (path_exists E "/usr/local/bin/tesseract") eqn:P2;
          [|discriminate].
        intros H. injection H as <-. auto. }
    destruct (which E "tesseract") as [resolved|] eqn:Wh.
    - destruct (PyStr.truthy resolved) eqn:T.
      + intros H. injection H as <-. auto.
      + intros H. destruct (Abs H) as [? [?|?]]; auto.
    - intros H. destruct (Abs H) as [? [?|?]]; auto. }
  split; [|split].
  - intros c Hc T P. unfold _resolve_tesseract_cmd. rewrite Hc, T, P. reflexivity.
  - intros cmd. unfold _resolve_tesseract_cmd.
    destruct (environ_TESSERACT_CMD E) as [env_cmd|].
    + destruct (PyStr.truthy env_cmd) eqn:T; simpl.
      * destruct (path_exists E env_cmd) eqn:P.
        -- intros H. injection H as <-. auto.
        -- intros H. destruct (Fallback _ H) as [? [?|[?|?]]]; auto.
      * intros H. destruct (Fallback _ H) as [? [?|[?|?]]]; auto.
    + intros H. destruct (Fallback _ H) as [? [?|[?|?]]]; auto.
  - intros w. unfold _configure_tesseract.
    destruct (pytesseract_installed E); [|reflexivity].
    destruct (_resolve_tesseract_cmd E) as [cmd|] eqn:R; [|reflexivity].
    assert (T : PyStr.truthy cmd = true).
    { revert R. unfold _resolve_tesseract_cmd.
      destruct (environ_TESSERACT_CMD E) as [env_cmd|].
      - destruct (PyStr.truthy env_cmd) eqn:T; simpl.
        + destruct (path_exists E env_cmd).
          * intros H. injection H as <-. exact T.
          * intros H. apply (Fallback _ H).
        + intros H. apply (Fallback _ H).
      - intros H. apply (Fallback _ H). }
    rewrite T. reflexivity.
Qed.

Lemma tesseract_resolution_witness :
  environ_TESSERACT_CMD Demo.env_ties = Some "/opt/tesseract"%string /\
  _resolve_tesseract_cmd Demo.env_ties = Some "/opt/tesseract"%string /\
  _resolve_tesseract_cmd Demo.env = Some "/usr/bin/tesseract"%string.
Proof.
  destruct (tesseract_resolution Demo.env_ties) as (Env & _ & _).
  split; [reflexivity|]. split; [|reflexivity].
  apply Env; reflexivity.
Defined.

(** ** What every cache operation keeps *)

Lemma evolves_refl w : evolves w w.
Proof.
  split; [|split; lia]. intros a f H. exists f. repeat split; auto.
Qed.

Lemma evolves_trans w1 w2 w3 : evolves w1 w2 -> evolves w2 w3 -> evolves w1 w3.
Proof.
  intros (H1 & S1 & T1) (H2 & S2 & T2). split; [|split; lia].
  intros a f Hf. destruct (H1 a f Hf) as (f' & Hf' & C1 & C2 & C3 & C4).
  destruct (H2 a f' Hf') as (f'' & Hf'' & D1 & D2 & D3 & D4).
  exists f''. repeat split; congruence.
Qed.

Lemma evolves_tick w : evolves w (tick w).
Proof.
  split; [|split; simpl; lia]. intros a f H. exists f. repeat split; auto.
Qed.

Lemma evolves_take_frame E region w : evolves w (snd (take_frame E region w)).
Proof.
  split; [|split; simpl; lia]. intros a f H. exists f.
  split; [apply FrameCacheFacts.take_frame_lookup; exact H|repeat split].
Qed.

(** Every way [capture] can go. *)
Lemma capture_cases E region force w :
  exists a w',
    capture E region force w = (inr a, w') /\
    ((w' = tick w /\ stored_frame w = Some (a, match stored_frame w with
                                                  | Some (_, f) => f
                                                  | None => new_capture E region w
                                                  end)) \/
     (exists w0, (w0 = w \/ w0 = tick w) /\
                 a = fst (take_frame E region w0) /\
                 w' = snd (take_frame E region w0))).
Proof.
  destruct force.
  - rewrite FrameCacheFacts.capture_forced. eexists _, _. split; [reflexivity|].
    right. exists w. auto.
  - rewrite FrameCacheFacts.capture_eq.
    destruct (stored_frame w) as [[a f]|].
    + destruct (PyFloat.gt _ _).
      * eexists _, _. split; [reflexivity|]. right. exists (tick w). auto.
      * destruct region as [r|].
        -- eexists _, _. split; [reflexivity|]. right. exists (tick w). auto.
        -- exists a, (tick w). split; [reflexivity|]. left. auto.
    + eexists _, _. split; [reflexivity|]. right. exists w. auto.
Qed.

(** One operation on the frame cache, when it has returned. *)
Lemma run_op_keeps E op w w1 :
  sound w -> run_op E op w = (inr tt, w1) -> sound w1 /\ evolves w w1.
Proof.
  intros Snd R.
  assert (Step : exists w2, run_op E op w = (inr tt, w2) /\ sound w2 /\ evolves w w2).
  { destruct op as [region force|max_age| |d|]; simpl.
    - destruct (capture_cases E region force w) as (a & w2 & C & [[-> _]|(w0 & Hw0 & _ & ->)]).
      + exists (tick w). unfold bind. rewrite C.
        split; [reflexivity|]. split; [exact Snd|apply evolves_tick].
      + eexists. unfold bind. rewrite C. split; [reflexivity|].
        destruct Hw0 as [E0|E0]; rewrite E0; split;
          try (apply FrameCacheFacts.sound_take_frame; exact Snd);
          try apply evolves_take_frame.
        eapply evolves_trans; [apply evolves_tick|apply evolves_take_frame].
    - unfold bind. rewrite FrameCacheFacts.get_cached_eq.
      destruct (stored_frame w) as [[a f]|]; eexists; (split; [reflexivity|]);
        (split; [exact Snd|]); [apply evolves_tick|apply evolves_refl].
    - eexists. split; [reflexivity|]. split; [exact I|].
      split; [|split; simpl; lia]. intros a f H. exists f. repeat split; auto.
    - rewrite cache_ocr_data_eq. eexists. split; [reflexivity|].
      destruct (stored_frame w) as [[b g]|] eqn:S;
        [|split; [exact Snd|apply evolves_refl]].
      assert (Hb : slot w = Some b /\ heap w !! b = Some g).
      { unfold stored_frame in S. destruct (slot w) as [c|]; [|discriminate].
        destruct (heap w !! c) eqn:Hc; [|discriminate].
        injection S as <- <-. auto. }
      destruct Hb as [Hs Hb]. split.
      + unfold sound. simpl. rewrite Hs, lookup_insert_eq. eauto.
      + split; [|split; simpl; lia]. intros a f H. simpl.
        destruct (decide (a = b)) as [->|Ne].
        * rewrite lookup_insert_eq. rewrite Hb in H. injection H as <-.
          eexists. split; [reflexivity|repeat split].
        * rewrite lookup_insert_ne by auto. exists f. repeat split; auto.
    - unfold bind. rewrite FrameCacheFacts.get_cached_ocr_eq.
      destruct (stored_frame w) as [[a f]|]; eexists; (split; [reflexivity|]);
        (split; [exact Snd|]); [apply evolves_tick|apply evolves_refl]. }
  destruct Step as (w2 & R2 & S2 & E2). rewrite R2 in R.
  injection R as <-. auto.
Qed.

(** Whatever the tools do to the frame cache, in any order: when the
    operations have returned, the slot still refers to an object of the
    heap, no frame object has disappeared, and no frame object has changed
    but for its OCR payload: image, timestamp and size are those of its
    capture. *)
Theorem cache_operations_keep_frames (E : Env) (ops : list CacheOp)
    (w w' : World) :
  sound w ->
  run_ops E ops w = (inr tt, w') ->
  sound w' /\ evolves w w'.
Proof.
  revert w. induction ops as [|op ops IH]; intros w Snd R; simpl in R.
  - injection R as <-. split; [exact Snd|apply evolves_refl].
  - unfold bind in R.
    destruct (run_op E op w) as [[e|[]] w1] eqn:R1; [discriminate R|].
    destruct (run_op_keeps E op w w1 Snd R1) as [S1 E1].
    destruct (IH w1 S1 R) as [S2 E2].
    split; [exact S2|]. eapply evolves_trans; eassumption.
Qed.

Lemma cache_operations_keep_frames_witness :
  sound Demo.world_ocr /\
  exists w',
    run_ops Demo.env [OpCapture None true; OpCacheOcrData Demo.ties;
                      OpInvalidate; OpCapture (Some Demo.region1) false]
            Demo.world_ocr = (inr tt, w') /\
    sound w' /\ evolves Demo.world_ocr w'.
Proof.
  assert (S : sound Demo.world_ocr) by (vm_compute; eauto).
  split; [exact S|].
  assert (R : run_ops Demo.env [OpCapture None true; OpCacheOcrData Demo.ties;
                                OpInvalidate; OpCapture (Some Demo.region1) false]
                      Demo.world_ocr
              = (inr tt,
                 snd (run_ops Demo.env
                        [OpCapture None true; OpCacheOcrData Demo.ties;
                         OpInvalidate; OpCapture (Some Demo.region1) false]
                        Demo.world_ocr)))
    by (vm_compute; reflexivity).
  eexists. split; [exact R|].
  exact (cache_operations_keep_frames Demo.env _ _ _ S R).
Defined.

(** ** Screenshots for the tools *)

(** [capture_screenshot] with a region takes the screenshot of the region
    straight from the screen and leaves the frame cache alone, whatever
    [use_cache] says. Without a region and without [use_cache] it stores a
    new frame. Without a region and with [use_cache] it encodes the stored
    frame when it is not stale, taking no screenshot. *)
Theorem capture_screenshot_cache_use (E : Env) (quality : Z) (fmt : Format)
    (w : World) :
  (forall r use_cache,
      capture_screenshot E quality fmt (Some r) use_cache w =
      (inr (save E (screenshot_at E (shot_calls w) (Some r)) fmt quality, fmt),
       after_shot w)) /\
  capture_screenshot E quality fmt None false w =
    (inr (save E (screenshot_at E (shot_calls w) None) fmt quality, fmt),
     snd (take_frame E None w)) /\
  (forall a f,
      stored_frame w = Some (a, f) ->
      PyFloat.gt (frame_age E w f) default_max_age_ms = false ->
      capture_screenshot E quality fmt None true w =
      (inr (save E (image f) fmt quality, fmt), tick w)).
Proof.
  split; [|split].
  - intros r use_cache. unfold capture_screenshot, bind.
    destruct use_cache; reflexivity.
  - unfold capture_screenshot. unfold bind at 1. unfold bind at 1.
    rewrite FrameCacheFacts.capture_forced. unfold frame_image.
    rewrite FrameCacheFacts.take_frame_new. reflexivity.
  - intros a f S Fresh. unfold capture_screenshot.
    unfold bind at 1. unfold bind at 1.
    rewrite FrameCacheFacts.capture_eq, S, Fresh. unfold frame_image.
    assert (H : heap (tick w) !! a = Some f).
    { unfold stored_frame in S. simpl. destruct (slot w) as [b|]; [|discriminate].
      destruct (heap w !! b) eqn:Hb; [|discriminate]. injection S as <- <-.
      exact Hb. }
    rewrite H. reflexivity.
Qed.

Lemma capture_screenshot_cache_use_witness :
  stored_frame Demo.world1 = Some (0%nat, Demo.frame0) /\
  capture_screenshot Demo.env 60 Png None true Demo.world1
  = (inr ([0], Png), tick Demo.world1).
Proof.
  assert (S : stored_frame Demo.world1 = Some (0%nat, Demo.frame0))
    by (vm_compute; reflexivity).
  split; [exact S|].
  destruct (capture_screenshot_cache_use Demo.env 60 Png Demo.world1) as (_ & _ & R).
  rewrite (R _ _ S); [reflexivity|vm_compute; reflexivity].
Defined.

(** ** The region of [get_screen] *)

(** A region dict that is not empty and lacks one of the keys "x", "y",
    "width", "height" makes [get_screen] raise [ValueError] before anything
    is captured; an empty dict is taken as no region at all. *)
Theorem get_screen_region_errors (E : Env) (quality : Z) (w : World)
    (d : gmap string Z) :
  d <> ∅ ->
  d !! "x"%string = None \/ d !! "y"%string = None \/
  d !! "width"%string = None \/ d !! "height"%string = None ->
  get_screen E (Some d) quality w = (inl ValueError, w) /\
  get_screen E (Some ∅) quality w = get_screen E None quality w.
Proof.
  intros Ne Missing. split.
  - unfold get_screen, bind, lift, region_tuple_of.
    destruct (decide (d = ∅)) as [Heq|_]; [contradiction|].
    destruct Missing as [H|[H|[H|H]]]; rewrite H;
      repeat match goal with
             | |- context [match ?x with Some _ => _ | None => _ end] =>
                 destruct x
             end; reflexivity.
  - unfold get_screen, bind, lift, region_tuple_of.
    destruct (decide (∅ = ∅)) as [_|Hne]; [reflexivity|].
    exfalso. apply Hne. reflexivity.
Qed.

Lemma get_screen_region_errors_witness :
  get_screen Demo.env (Some (<["x"%string := 5]> (<["y"%string := 6]> ∅))) 50
             Demo.world1
  = (inl ValueError, Demo.world1).
Proof.
  apply (get_screen_region_errors Demo.env 50 Demo.world1).
  - intros H. apply (f_equal (fun m => m !! "x"%string)) in H.
    rewrite lookup_insert_eq, lookup_empty in H. discriminate H.
  - right. right. left. reflexivity.
Defined.

(** * The [analyze_screen] tool *)

Module AnalyzeFacts.

Section Facts.

Variable E : Env.

Lemma cache_age_eq w :
  get_frame_cache_age_ms E w =
  match stored_frame w with
  | Some (a, f) => (inr (Some (frame_age E (tick w) f)), tick (tick w))
  | None => (inr None, w)
  end.
Proof.
  unfold get_frame_cache_age_ms. unfold bind at 1.
  rewrite FrameCacheFacts.get_cached_eq.
  destruct (stored_frame w) as [[a f]|] eqn:S; [|reflexivity].
  rewrite FloatMore.not_gt_infinity.
  assert (H : heap (tick w) !! a = Some f).
  { unfold stored_frame in S. simpl. destruct (slot w) as [b|]; [|discriminate].
    destruct (heap w !! b) eqn:Hb; [|discriminate]. injection S as <- <-.
    exact Hb. }
  rewrite H. reflexivity.
Qed.

(** The prelude only reads the clock. *)
Lemma prelude_eq w :
  exists age,
    get_frame_cache_age_ms E w = (inr age, snd (get_frame_cache_age_ms E w)) /\
    (is_Some age <-> is_Some (stored_frame w)) /\
    heap (after_prelude E w) = heap w /\
    slot (after_prelude E w) = slot w /\
    shot_calls (after_prelude E w) = shot_calls w /\
    stored_frame (after_prelude E w) = stored_frame w /\
    after_prelude E w =
      match stored_frame w with
      | Some _ => tick (tick (tick w))
      | None => tick w
      end.
Proof.
  unfold after_prelude. rewrite cache_age_eq.
  destruct (stored_frame w) as [[a f]|] eqn:S; eexists; simpl;
    (split; [reflexivity|]); (split; [split; intros [x Hx]; eauto; discriminate|]);
    repeat split; try reflexivity; exact S.
Qed.


Lemma analyze_unfold screen find_text find_image confidence use_cache w :
  analyze_screen E screen find_text find_image confidence use_cache w =
  let age := match fst (get_frame_cache_age_ms E w) with
             | inr a => a
             | inl _ => None
             end in
  let now := time_at E (time_calls (snd (get_frame_cache_age_ms E w))) in
  let result elements total from_cache :=
    {| an_screen := screen; an_mouse := mouse_position E;
       an_elements := elements; an_cache_age_ms := age;
       an_timestamp := now; an_total_detected := total;
       an_from_cache := from_cache |} in
  (if given find_image then
     matches <- find_template_on_screen E (default "" find_image)
                  (confidence_or_default confidence) true ;;
     ret (result (map image_element matches) None None)
   else if given find_text then
     cached_matches <- (if use_cache
                        then find_text_in_ocr_cache E (default "" find_text)
                                                    confidence
                        else ret []) ;;
     match cached_matches with
     | _ :: _ =>
         ret (result (map text_element cached_matches) None (Some true))
     | [] =>
         matches <- find_text_on_screen E (default "" find_text) "eng" None
                      confidence ;;
         ret (result (map text_element matches) None (Some false))
     end
   else
     (if use_cache then ret tt else invalidate_frame_cache) ;;;
     all_text <- ocr_full_screen E "eng" use_cache 3 ;;
     ret (result (top_elements all_text confidence)
                 (Some (length all_text))
                 (Some (use_cache && bool_decide (is_Some age)))))
    (after_prelude E w).
Proof.
  unfold analyze_screen, after_prelude. unfold bind at 1.
  destruct (prelude_eq w) as (age & Hage & _). rewrite Hage. simpl.
  unfold bind at 1. reflexivity.
Qed.

End Facts.

End AnalyzeFacts.


Module AnalyzePaths.

Lemma bind_inr {A B} (m : M A) (k : A -> M B) w x w1 :
  m w = (inr x, w1) -> bind m k w = k x w1.
Proof. intros H. unfold bind. rewrite H. reflexivity. Qed.

Lemma bind_inl {A B} (m : M A) (k : A -> M B) w e w1 :
  m w = (inl e, w1) -> bind m k w = (inl e, w1).
Proof. intros H. unfold bind. rewrite H. reflexivity. Qed.

Section Paths.

Variable E : Env.

Lemma cached_query_inv query minc w res w' :
  find_text_in_ocr_cache E query minc w = (inr res, w') ->
  heap w' = heap w /\ slot w' = slot w /\ shot_calls w' = shot_calls w /\
  (res = [] \/
   (is_Some (stored_frame w) /\
    exists d, res = sorted_reverse confidence
                      (emitted E except_ValueError_TypeError d query 0 0 minc))).
Proof.
  unfold find_text_in_ocr_cache, bind.
  rewrite FrameCacheFacts.get_cached_ocr_eq.
  destruct (stored_frame w) as [[a f]|].
  - destruct (PyFloat.gt (frame_age E w f) default_max_age_ms).
    + intros H. injection H as <- <-. repeat split; auto.
    + destruct (ocr_data f) as [d|].
      * unfold lift.
        destruct (text_matches E except_ValueError_TypeError d query 0 0 minc)
          as [e|matches] eqn:T; [discriminate|].
        intros H. injection H as <- <-. repeat split; try reflexivity.
        right. split; [eauto|]. exists d.
        rewrite (text_matches_emitted _ _ _ _ _ _ _ _ T). reflexivity.
      * intros H. injection H as <- <-. repeat split; auto.
  - intros H. injection H as <- <-. repeat split; auto.
Qed.

Lemma cached_query_world query minc w :
  heap (snd (find_text_in_ocr_cache E query minc w)) = heap w /\
  slot (snd (find_text_in_ocr_cache E query minc w)) = slot w /\
  shot_calls (snd (find_text_in_ocr_cache E query minc w)) = shot_calls w.
Proof.
  unfold find_text_in_ocr_cache, bind.
  rewrite FrameCacheFacts.get_cached_ocr_eq.
  destruct (stored_frame w) as [[a f]|]; [|repeat split; reflexivity].
  destruct (PyFloat.gt (frame_age E w f) default_max_age_ms);
    [repeat split; reflexivity|].
  destruct (ocr_data f) as [d|]; [|repeat split; reflexivity].
  unfold lift.
  destruct (text_matches E except_ValueError_TypeError d query 0 0 minc);
    repeat split; reflexivity.
Qed.

Lemma fresh_query_cases query lang region minc w :
  (exists d ox oy,
      find_text_on_screen E query lang region minc w
      = (inr (sorted_reverse confidence
                (emitted E except_ValueError d query ox oy minc)),
         after_shot w)) \/
  (exists e, find_text_on_screen E query lang region minc w = (inl e, w)) \/
  (exists e, find_text_on_screen E query lang region minc w
             = (inl e, after_shot w)).
Proof.
  unfold find_text_on_screen, bind.
  destruct (configure_pure E) as [r Hr]. rewrite Hr.
  destruct r as [e|cmd]; [right; left; eauto|].
  unfold screenshot, lift.
  set (shot := screenshot_at E (shot_calls w) region).
  set (off := match region with
              | Some r => (rg_x r, rg_y r)
              | None => (0, 0)
              end).
  destruct off as [ox oy].
  destruct (image_to_data E shot lang None) as [e|d];
    [right; right; exists e; reflexivity|].
  destruct (text_matches E except_ValueError d query ox oy minc)
    as [e|matches] eqn:T; [right; right; exists e; reflexivity|].
  left. exists d, ox, oy.
  rewrite (text_matches_emitted _ _ _ _ _ _ _ _ T). reflexivity.
Qed.

Lemma sorted_map {A B} (R : B -> B -> Prop) (g : A -> B) l :
  StronglySorted (fun a b => R (g a) (g b)) l -> StronglySorted R (map g l).
Proof.
  induction 1 as [|a l S IH F]; simpl; constructor; [exact IH|].
  rewrite List.Forall_forall in F |- *. intros b Hb.
  apply in_map_iff in Hb. destruct Hb as (x & <- & Hx). apply F. exact Hx.
Qed.

Lemma sorted_filter {A} (R : A -> A -> Prop) (p : A -> bool) l :
  StronglySorted R l -> StronglySorted R (List.filter p l).
Proof.
  induction 1 as [|a l S IH F]; simpl; [constructor|].
  destruct (p a); [|exact IH]. constructor; [exact IH|].
  rewrite List.Forall_forall in F |- *. intros b Hb.
  apply filter_In in Hb. apply F. apply Hb.
Qed.

Lemma in_firstn {A} (x : A) n l : In x (firstn n l) -> In x l.
Proof.
  revert l. induction n as [|n IH]; intros [|a l]; simpl; try tauto.
  intros [->|H]; [left; reflexivity|right; apply IH; exact H].
Qed.

Lemma sorted_firstn {A} (R : A -> A -> Prop) n l :
  StronglySorted R l -> StronglySorted R (firstn n l).
Proof.
  intros S. revert n. induction S as [|a l S IH F]; intros [|n]; simpl;
    try constructor; [apply IH|].
  rewrite List.Forall_forall in F |- *. intros b Hb.
  apply F. apply (in_firstn _ n). exact Hb.
Qed.

(** The elements built from the answer of a text query. *)
Lemma text_elements_ranked caught d query ox oy minc :
  descending el_confidence
    (map text_element
       (sorted_reverse confidence (emitted E caught d query ox oy minc))) /\
  Forall (fun e => el_type e = TypeText /\
                   PyFloat.ge (el_confidence e) minc = true)
    (map text_element
       (sorted_reverse confidence (emitted E caught d query ox oy minc))).
Proof.
  destruct (sorted_emitted_ranked E caught d query ox oy minc) as (P & D & _).
  split.
  - apply sorted_map. exact D.
  - pose proof (emitted_floor E caught d query ox oy minc) as F.
    rewrite List.Forall_forall in F |- *. intros e He.
    apply in_map_iff in He. destruct He as (m & <- & Hm).
    split; [reflexivity|]. simpl. apply F.
    apply (Permutation_in _ (Permutation_sym P)). exact Hm.
Qed.

End Paths.

End AnalyzePaths.

(** A text search with [analyze_screen] never stores anything in the frame
    cache: the frame objects, their OCR payloads and the slot are the same
    after the call, on every path, error or not. When it returns, the
    elements are text elements in descending order of confidence, each at
    least the threshold, and ["total_detected"] is not set. ["from_cache"]
    is true only with [use_cache], a stored frame, at least one element
    and no screenshot; it is false after exactly one screenshot, taken
    straight from the screen. *)
Theorem analyze_text_keeps_cache (E : Env) (screen : Z * Z) (query : string)
    (find_image : option string) (min_confidence : float) (use_cache : bool)
    (w : World) :
  given find_image = false ->
  PyStr.truthy query = true ->
  heap (snd (analyze_screen E screen (Some query) find_image min_confidence
                            use_cache w)) = heap w /\
  slot (snd (analyze_screen E screen (Some query) find_image min_confidence
                            use_cache w)) = slot w /\
  forall r,
    fst (analyze_screen E screen (Some query) find_image min_confidence
                        use_cache w) = inr r ->
    an_total_detected r = None /\
    descending el_confidence (an_elements r) /\
    Forall (fun e => el_type e = TypeText /\
                     PyFloat.ge (el_confidence e) min_confidence = true)
           (an_elements r) /\
    ((an_from_cache r = Some true /\ use_cache = true /\
      an_elements r <> [] /\ is_Some (stored_frame w) /\
      shot_calls (snd (analyze_screen E screen (Some query) find_image
                                      min_confidence use_cache w))
      = shot_calls w) \/
     (an_from_cache r = Some false /\
      shot_calls (snd (analyze_screen E screen (Some query) find_image
                                      min_confidence use_cache w))
      = S (shot_calls w))).
Proof.
  intros Fi T. rewrite AnalyzeFacts.analyze_unfold. cbv zeta.
  rewrite Fi. change (given (Some query)) with (PyStr.truthy query).
  rewrite T. change (default "" (Some query)) with query.
  destruct (AnalyzeFacts.prelude_eq E w) as (_ & _ & _ & Hh & Hs & Hc & Hst & _).
  set (w0 := after_prelude E w) in *.
  assert (Fresh : forall w1 : World,
    heap w1 = heap w -> slot w1 = slot w -> shot_calls w1 = shot_calls w ->
    forall out,
    out = (matches <- find_text_on_screen E query "eng" None min_confidence ;;
           ret {| an_screen := screen; an_mouse := mouse_position E;
                  an_elements := map text_element matches;
                  an_cache_age_ms :=
                    match fst (get_frame_cache_age_ms E w) with
                    | inr a => a
                    | inl _ => None
                    end;
                  an_timestamp :=
                    time_at E (time_calls (snd (get_frame_cache_age_ms E w)));
                  an_total_detected := None;
                  an_from_cache := Some false |}) w1 ->
    heap (snd out) = heap w /\ slot (snd out) = slot w /\
    forall r, fst out = inr r ->
      an_total_detected r = None /\
      descending el_confidence (an_elements r) /\
      Forall (fun e => el_type e = TypeText /\
                       PyFloat.ge (el_confidence e) min_confidence = true)
             (an_elements r) /\
      ((an_from_cache r = Some true /\ use_cache = true /\
        an_elements r <> [] /\ is_Some (stored_frame w) /\
        shot_calls (snd out) = shot_calls w) \/
       (an_from_cache r = Some false /\
        shot_calls (snd out) = S (shot_calls w)))).
  { intros w1 H1 H2 H3 out ->. unfold bind.
    destruct (AnalyzePaths.fresh_query_cases E query "eng" None min_confidence w1)
      as [(d & ox & oy & Q)|[(e & Q)|(e & Q)]]; rewrite Q; simpl.
    - split; [exact H1|]. split; [exact H2|]. intros r R. injection R as <-. simpl.
      destruct (AnalyzePaths.text_elements_ranked E except_ValueError d query
                  ox oy min_confidence) as [D F].
      split; [reflexivity|]. split; [exact D|]. split; [exact F|].
      right. split; [reflexivity|]. rewrite H3. reflexivity.
    - split; [exact H1|]. split; [exact H2|]. intros r R. discriminate R.
    - split; [exact H1|]. split; [exact H2|]. intros r R. discriminate R. }
  destruct use_cache.
  - destruct (find_text_in_ocr_cache E query min_confidence w0)
      as [[e|res] w1] eqn:Q.
    + pose proof (AnalyzePaths.cached_query_world E query min_confidence w0) as K.
      rewrite Q in K. destruct K as (K1 & K2 & _).
      change (heap w1 = heap w0) in K1. change (slot w1 = slot w0) in K2.
      rewrite (AnalyzePaths.bind_inl _ _ _ _ _ Q). simpl.
      split; [rewrite K1; exact Hh|]. split; [rewrite K2; exact Hs|].
      intros r R. discriminate R.
    + destruct (AnalyzePaths.cached_query_inv E _ _ _ _ _ Q)
        as (K1 & K2 & K3 & K4).
      rewrite (AnalyzePaths.bind_inr _ _ _ _ _ Q).
      destruct res as [|m res].
      * apply (Fresh w1);
          [rewrite K1; exact Hh|rewrite K2; exact Hs|rewrite K3; exact Hc
          |reflexivity].
      * simpl. split; [rewrite K1; exact Hh|]. split; [rewrite K2; exact Hs|].
        intros r R. injection R as <-. simpl.
        destruct K4 as [K4|(St & d & K4)]; [discriminate K4|].
        destruct (AnalyzePaths.text_elements_ranked E except_ValueError_TypeError
                    d query 0 0 min_confidence) as [D F].
        rewrite <- K4 in D, F. simpl in D, F.
        split; [reflexivity|]. split; [exact D|]. split; [exact F|].
        left. split; [reflexivity|]. split; [reflexivity|].
        split; [discriminate|].
        split; [rewrite <- Hst; exact St|rewrite K3; exact Hc].
  - rewrite (AnalyzePaths.bind_inr (ret []) _ w0 [] w0 eq_refl).
    apply (Fresh w0); [exact Hh|exact Hs|exact Hc|reflexivity].
Qed.

Lemma analyze_text_keeps_cache_witness :
  given None = false /\
  PyStr.truthy "sub" = true /\
  slot (snd (analyze_screen Demo.env (1920, 1080) (Some "sub"%string) None
                            0.25%float true Demo.world_ocr))
  = slot Demo.world_ocr.
Proof.
  split; [reflexivity|]. split; [reflexivity|].
  destruct (analyze_text_keeps_cache Demo.env (1920, 1080) "sub" None
              0.25%float true Demo.world_ocr eq_refl eq_refl) as (_ & H & _).
  exact H.
Defined.



Module ScanFacts.

Lemma bind_ret_snd {A B} (m : M A) (f : A -> B) w :
  snd (bind m (fun x => ret (f x)) w) = snd (m w).
Proof. unfold bind, ret. destruct (m w) as [[e|x] w1]; reflexivity. Qed.

Lemma bind_ret_fst {A B} (m : M A) (f : A -> B) w :
  fst (bind m (fun x => ret (f x)) w)
  = match fst (m w) with
    | inl e => inl e
    | inr x => inr (f x)
    end.
Proof. unfold bind, ret. destruct (m w) as [[e|x] w1]; reflexivity. Qed.

Section Scan.

Variable E : Env.

(** [ocr_full_screen(use_cache=False)], step by step. *)
Lemma fresh_scan_eq lang psm w :
  ocr_full_screen E lang false psm w =
  match fst (_configure_tesseract E w) with
  | inl e => (inl e, w)
  | inr _ =>
      match image_to_data E (image (new_capture E None w)) lang (Some psm) with
      | inl e => (inl e, snd (take_frame E None w))
      | inr d =>
          (_ocr_data_to_matches E d default_min_confidence,
           {| heap := <[fst (take_frame E None w) :=
                          set_ocr_data d (new_capture E None w)]>
                        (heap (snd (take_frame E None w)));
              slot := slot (snd (take_frame E None w));
              time_calls := time_calls (snd (take_frame E None w));
              shot_calls := shot_calls (snd (take_frame E None w)) |})
      end
  end.
Proof.
  unfold ocr_full_screen, ocr_full_screen_scan, ocr_full_screen_run.
  unfold bind at 1. unfold bind at 1. unfold ret at 1.
  unfold bind at 1. unfold bind at 1.
  destruct (configure_pure E) as [r Hr]. rewrite Hr. cbn [fst].
  destruct r as [e|cmd]; [reflexivity|].
  unfold bind at 1. rewrite FrameCacheFacts.capture_forced.
  unfold bind at 1. unfold frame_image.
  rewrite FrameCacheFacts.take_frame_new.
  unfold bind at 1. unfold lift at 1.
  destruct (image_to_data E (image (new_capture E None w)) lang (Some psm))
    as [e|d]; [reflexivity|].
  unfold ret. unfold ocr_full_screen_publish, bind.
  rewrite cache_ocr_data_eq, FrameCacheFacts.stored_take_frame. unfold lift.
  reflexivity.
Qed.

End Scan.

End ScanFacts.

(** A full scan with [use_cache=False] empties the cache before it scans.
    When tesseract cannot be configured the call raises that error after
    the slot has been emptied: the frame stored before is no longer served
    though nothing has replaced it, and no screenshot was taken. When
    tesseract is configured, whatever happens next (the engine or the
    conversion may still raise), exactly one screenshot has been taken and
    the slot holds the new frame, an object that did not exist before. *)
Theorem analyze_fresh_scan_empties_cache (E : Env) (screen : Z * Z)
    (find_text find_image : option string) (min_confidence : float)
    (w : World) :
  given find_image = false ->
  given find_text = false ->
  match fst (_configure_tesseract E w) with
  | inl e =>
      fst (analyze_screen E screen find_text find_image min_confidence false w)
      = inl e /\
      slot (snd (analyze_screen E screen find_text find_image min_confidence
                                false w)) = None /\
      heap (snd (analyze_screen E screen find_text find_image min_confidence
                                false w)) = heap w /\
      shot_calls (snd (analyze_screen E screen find_text find_image
                                      min_confidence false w)) = shot_calls w
  | inr _ =>
      slot (snd (analyze_screen E screen find_text find_image min_confidence
                                false w)) = Some (fresh (dom (heap w))) /\
      (fresh (dom (heap w)) ∉ dom (heap w)) /\
      shot_calls (snd (analyze_screen E screen find_text find_image
                                      min_confidence false w))
      = S (shot_calls w)
  end.
Proof.
  intros Fi Ft. rewrite AnalyzeFacts.analyze_unfold. cbv zeta.
  rewrite Fi, Ft.
  destruct (AnalyzeFacts.prelude_eq E w) as (age & Hage & _ & Hh & Hs & Hc & _).
  rewrite Hage. cbn [fst].
  set (w0 := after_prelude E w) in *.
  set (w1 := {| heap := heap w0; slot := None; time_calls := time_calls w0;
                shot_calls := shot_calls w0 |}).
  rewrite (AnalyzePaths.bind_inr invalidate_frame_cache _ w0 tt w1 eq_refl).
  rewrite ScanFacts.bind_ret_snd, ScanFacts.bind_ret_fst.
  rewrite ScanFacts.fresh_scan_eq.
  destruct (configure_pure E) as [c Hc0]. rewrite !Hc0. cbn [fst].
  destruct c as [e|cmd].
  - cbn [fst snd]. unfold w1. cbn [slot heap shot_calls].
    repeat split; assumption.
  - assert (Fr : fresh (dom (heap w1)) = fresh (dom (heap w))).
    { unfold w1. cbn [heap]. rewrite Hh. reflexivity. }
    assert (Sh : shot_calls w1 = shot_calls w) by exact Hc.
    destruct (image_to_data E (image (new_capture E None w1)) "eng" (Some 3))
      as [e|d]; unfold take_frame; cbn [fst snd slot shot_calls];
      rewrite Fr, Sh; (split; [reflexivity|]);
      (split; [apply is_fresh|reflexivity]).
Qed.

Lemma analyze_fresh_scan_empties_cache_witness :
  given None = false /\
  slot Demo.world_ocr = Some 0%nat /\
  slot (snd (analyze_screen Demo.env (1920, 1080) None None 0.25%float false
                            Demo.world_ocr)) = Some 1%nat.
Proof.
  split; [reflexivity|]. split; [reflexivity|].
  pose proof (analyze_fresh_scan_empties_cache Demo.env (1920, 1080) None None
                0.25%float Demo.world_ocr eq_refl eq_refl) as H.
  assert (C : fst (_configure_tesseract Demo.env Demo.world_ocr)
              = inr "/usr/bin/tesseract"%string) by (vm_compute; reflexivity).
  rewrite C in H. destruct H as (H & _). rewrite H. vm_compute. reflexivity.
Defined.

Module RescanFacts.

Section Rescan.

Variable E : Env.

(** With [use_cache] set and nothing to reuse, [ocr_full_screen] does what
    it does without [use_cache], one reading of the clock later. *)
Lemma rescan_eq lang psm w a f :
  stored_frame w = Some (a, f) ->
  PyFloat.gt (frame_age E w f) default_max_age_ms = true \/ ocr_data f = None ->
  ocr_full_screen E lang true psm w = ocr_full_screen E lang false psm (tick w).
Proof.
  intros S H. unfold ocr_full_screen, ocr_full_screen_scan.
  unfold bind at 1. unfold bind at 1.
  rewrite FrameCacheFacts.get_cached_ocr_eq, S.
  destruct H as [H|H]; rewrite H; [|destruct (PyFloat.gt _ _)]; reflexivity.
Qed.

End Rescan.

End RescanFacts.

(** ["from_cache"] of a full scan does not tell that the answer came from
    the cache. With [use_cache] set and a frame stored that is stale when
    the scan looks at it, or that has no OCR payload, [analyze_screen]
    takes a new screenshot, stores it as a new frame and runs the engine on
    it, and still answers ["from_cache": True]. *)
Theorem analyze_from_cache_after_rescan (E : Env) (screen : Z * Z)
    (find_text find_image : option string) (min_confidence : float)
    (w w' : World) (a : nat) (f : CachedFrame) (r : Analysis) :
  given find_image = false ->
  given find_text = false ->
  stored_frame w = Some (a, f) ->
  PyFloat.gt (frame_age E (after_prelude E w) f) default_max_age_ms = true \/
  ocr_data f = None ->
  analyze_screen E screen find_text find_image min_confidence true w
  = (inr r, w') ->
  an_from_cache r = Some true /\
  shot_calls w' = S (shot_calls w) /\
  slot w' = Some (fresh (dom (heap w))) /\
  (fresh (dom (heap w)) ∉ dom (heap w)) /\
  exists d,
    image_to_data E (screenshot_at E (shot_calls w) None) "eng" (Some 3) = inr d /\
    heap w' !! fresh (dom (heap w))
    = Some (set_ocr_data d (new_capture E None (tick (after_prelude E w)))).
Proof.
  intros Fi Ft S Hs. rewrite AnalyzeFacts.analyze_unfold. cbv zeta.
  rewrite Fi, Ft.
  destruct (AnalyzeFacts.prelude_eq E w)
    as (age & Hage & Hsome & Hh & Hsl & Hc & Hst & _).
  rewrite Hage. cbn [fst].
  set (w0 := after_prelude E w) in *.
  rewrite (AnalyzePaths.bind_inr (ret tt) _ w0 tt w0 eq_refl).
  assert (S0 : stored_frame w0 = Some (a, f)) by (rewrite Hst; exact S).
  intros H.
  assert (H1 := f_equal fst H). assert (H2 := f_equal snd H).
  cbn [fst snd] in H1, H2.
  rewrite ScanFacts.bind_ret_fst in H1. rewrite ScanFacts.bind_ret_snd in H2.
  rewrite (RescanFacts.rescan_eq E _ _ _ _ _ S0 Hs) in H1, H2.
  rewrite ScanFacts.fresh_scan_eq in H1, H2.
  destruct (configure_pure E) as [c Hc0]. rewrite Hc0 in H1, H2. cbn [fst] in H1, H2.
  destruct c as [e|cmd]; [discriminate H1|].
  assert (Sh : shot_calls (tick w0) = shot_calls w) by exact Hc.
  assert (Fr : fresh (dom (heap (tick w0))) = fresh (dom (heap w))).
  { cbn [tick heap]. rewrite Hh. reflexivity. }
  change (image (new_capture E None (tick w0)))
    with (screenshot_at E (shot_calls (tick w0)) None) in H1, H2.
  rewrite Sh in H1, H2.
  destruct (image_to_data E (screenshot_at E (shot_calls w) None) "eng" (Some 3))
    as [e|d]; [discriminate H1|].
  cbn [fst snd] in H1, H2.
  destruct (_ocr_data_to_matches E d default_min_confidence) as [e|l];
    [discriminate H1|].
  injection H1 as <-. subst w'. cbn [an_from_cache].
  split.
  { f_equal. simpl. apply bool_decide_eq_true. apply Hsome. rewrite S. eauto. }
  unfold take_frame. cbn [fst snd slot shot_calls heap].
  rewrite Fr, Sh.
  split; [reflexivity|]. split; [reflexivity|]. split; [apply is_fresh|].
  exists d. split; [reflexivity|]. apply lookup_insert_eq.
Qed.

Lemma analyze_from_cache_after_rescan_witness :
  exists r,
    stored_frame Demo.world_at_threshold = Some (0%nat, Demo.frame0) /\
    PyFloat.gt (frame_age Demo.env (after_prelude Demo.env Demo.world_at_threshold)
                          Demo.frame0) default_max_age_ms = true /\
    analyze_screen Demo.env (1920, 1080) None None 0.25%float true
                   Demo.world_at_threshold
    = (inr r, snd (analyze_screen Demo.env (1920, 1080) None None 0.25%float
                                  true Demo.world_at_threshold)) /\
    an_from_cache r = Some true /\
    shot_calls (snd (analyze_screen Demo.env (1920, 1080) None None 0.25%float
                                    true Demo.world_at_threshold)) = 2%nat.
Proof.
  assert (H : exists r,
    analyze_screen Demo.env (1920, 1080) None None 0.25%float true
                   Demo.world_at_threshold
    = (inr r, snd (analyze_screen Demo.env (1920, 1080) None None 0.25%float
                                  true Demo.world_at_threshold)))
    by (vm_compute; eexists; reflexivity).
  destruct H as [r H]. exists r.
  assert (S : stored_frame Demo.world_at_threshold = Some (0%nat, Demo.frame0))
    by (vm_compute; reflexivity).
  assert (G : PyFloat.gt (frame_age Demo.env
                            (after_prelude Demo.env Demo.world_at_threshold)
                            Demo.frame0) default_max_age_ms = true)
    by (vm_compute; reflexivity).
  split; [exact S|]. split; [exact G|]. split; [exact H|].
  destruct (analyze_from_cache_after_rescan Demo.env _ None None _ _ _ _ _ _
              eq_refl eq_refl S (or_introl G) H) as (C & Sh & _).
  split; [exact C|]. rewrite Sh. reflexivity.
Defined.

(** * Boxes and elements *)

(** The point that [BoundingBox.center] gives for a box of non-negative
    width and height lies in the box, at most half a pixel from the middle,
    and strictly inside as soon as the box is not empty; [to_dict] reports
    that same point. *)
Theorem center_within_box (b : BoundingBox) :
  0 <= bb_width b ->
  0 <= bb_height b ->
  bb_x b <= fst (center b) <= bb_x b + bb_width b /\
  bb_y b <= snd (center b) <= bb_y b + bb_height b /\
  (0 < bb_width b -> fst (center b) < bb_x b + bb_width b) /\
  (0 < bb_height b -> snd (center b) < bb_y b + bb_height b) /\
  0 <= bb_width b - 2 * (fst (center b) - bb_x b) <= 1 /\
  0 <= bb_height b - 2 * (snd (center b) - bb_y b) <= 1 /\
  d_center_x (bbox_to_dict b) = fst (center b) /\
  d_center_y (bbox_to_dict b) = snd (center b).
Proof.
  intros W H. unfold center, bbox_to_dict. simpl.
  pose proof (Z.div_mod (bb_width b) 2 ltac:(lia)) as Dw.
  pose proof (Z.mod_pos_bound (bb_width b) 2 ltac:(lia)) as Mw.
  pose proof (Z.div_mod (bb_height b) 2 ltac:(lia)) as Dh.
  pose proof (Z.mod_pos_bound (bb_height b) 2 ltac:(lia)) as Mh.
  repeat split; try reflexivity; lia.
Qed.

Lemma center_within_box_witness :
  0 <= 7 /\ 0 <= 8 /\
  center {| bb_x := 5; bb_y := 6; bb_width := 7; bb_height := 8 |} = (8, 10) /\
  5 <= fst (center {| bb_x := 5; bb_y := 6; bb_width := 7; bb_height := 8 |})
  <= 5 + 7.
Proof.
  split; [lia|]. split; [lia|]. split; [reflexivity|].
  destruct (center_within_box
              {| bb_x := 5; bb_y := 6; bb_width := 7; bb_height := 8 |}
              ltac:(simpl; lia) ltac:(simpl; lia)) as (H & _).
  exact H.
Defined.

(** One row of an OCR table is described in the same way by the full scan
    and by a text query over the cached table: when [_ocr_data_to_matches]
    keeps the row and [find_text_in_ocr_cache] matches it, the element
    that [analyze_screen] builds from the dict of the scan and the one it
    builds from the match of the query are equal: same text, same
    confidence, same box and same point to click. *)
Theorem scan_and_query_agree (E : Env) (d : OCRTable) (query : string)
    (floor min_confidence : float) (i : nat) (md : MatchDict)
    (em : ElementMatch) :
  match_dict_at E d floor i = inr (Some md) ->
  text_match_at E except_ValueError_TypeError d (PyStr.lower query) 0 0
                min_confidence i = inr (Some em) ->
  scan_element md = text_element em /\
  md_bbox md = bbox_to_dict (bbox em) /\
  emd_text (element_to_dict em) = Some (md_text md) /\
  emd_confidence (element_to_dict em) = md_confidence md.
Proof.
  intros Hm Ht.
  apply TableFacts.match_dict_at_some in Hm.
  destruct Hm as (word & conf & x & y & w & h & W & _ & TC & _ & L & Tp & Wd & Ht' & ->).
  apply TableFacts.text_match_at_some in Ht.
  destruct Ht as (word' & conf' & l' & t' & w' & h' & W' & _ & _ & TC' & _ &
                  L' & Tp' & Wd' & Hh' & ->).
  rewrite W in W'. injection W' as <-.
  rewrite TC in TC'. injection TC' as <-.
  rewrite L in L'. injection L' as <-.
  rewrite Tp in Tp'. injection Tp' as <-.
  rewrite Wd in Wd'. injection Wd' as <-.
  rewrite Ht' in Hh'. injection Hh' as <-.
  unfold scan_element, text_element, element_to_dict, bbox_to_dict, center.
  simpl. repeat split; reflexivity.
Qed.

Lemma scan_and_query_agree_witness :
  exists md em,
    match_dict_at Demo.env Demo.table default_min_confidence 0 = inr (Some md) /\
    text_match_at Demo.env except_ValueError_TypeError Demo.table
                  (PyStr.lower "SUB") 0 0 0.25%float 0 = inr (Some em) /\
    scan_element md = text_element em /\
    el_x (scan_element md) = 35.
Proof.
  assert (Hm : match_dict_at Demo.env Demo.table default_min_confidence 0
               = inr (Some {| md_text := "Submit";
                              md_confidence := PrimFloat.div 92%float 100%float;
                              md_bbox := {| d_x := 10; d_y := 10; d_width := 50;
                                            d_height := 20; d_center_x := 35;
                                            d_center_y := 20 |} |}))
    by (vm_compute; reflexivity).
  assert (Ht : text_match_at Demo.env except_ValueError_TypeError Demo.table
                 (PyStr.lower "SUB") 0 0 0.25%float 0
               = inr (Some {| bbox := {| bb_x := 10; bb_y := 10; bb_width := 50;
                                         bb_height := 20 |};
                              confidence := PrimFloat.div 92%float 100%float;
                              text := Some "Submit"%string |}))
    by (vm_compute; reflexivity).
  eexists _, _. split; [exact Hm|]. split; [exact Ht|].
  destruct (scan_and_query_agree _ _ _ _ _ _ _ _ Hm Ht) as (H & _).
  split; [exact H|reflexivity].
Defined.


(** * The input tools *)

Module InputFacts.

(** Runs a tool by cases on the answers of the desktop. *)
Ltac unfold_input :=
  unfold use_mouse, use_keyboard, mouse_move, instant_move, mouse_click,
    mouse_drag, mouse_scroll, keyboard_type, keyboard_press, keyboard_hotkey,
    get_mouse_position, fast_click, position, tbind, tret, traise, in_cache,
    time_time, gui.

Ltac desktop_cases :=
  repeat match goal with
         | |- context [gui_raises ?G ?h ?c] =>
             destruct (gui_raises G h c); cbn
         end.

Lemma app_skipn {A} (l l' : list A) : skipn (length l) (l ++ l') = l'.
Proof. induction l as [|a l IH]; [reflexivity|exact IH]. Qed.

End InputFacts.

(** [use_mouse] and [use_keyboard] never touch the frame cache: whatever
    the arguments and whatever the desktop does, the frame objects, their
    OCR payloads, the slot and the count of screenshots are the same after
    the call, so that a frame and an OCR table cached before a click are
    still served after it. The clock is read exactly once and the pause
    between actions is not changed. *)
Theorem input_tools_keep_frame_cache (E : Env) (G : Gui) (d : Desk) :
  (forall action x y button clicks end_x end_y amount duration,
      same_cache (cache d)
        (cache (snd (use_mouse E G action x y button clicks end_x end_y
                               amount duration d))) /\
      stored_frame (cache (snd (use_mouse E G action x y button clicks end_x
                                          end_y amount duration d)))
      = stored_frame (cache d) /\
      time_calls (cache (snd (use_mouse E G action x y button clicks end_x
                                        end_y amount duration d)))
      = S (time_calls (cache d)) /\
      PAUSE (snd (use_mouse E G action x y button clicks end_x end_y amount
                            duration d)) = PAUSE d) /\
  (forall action text key keys presses interval,
      same_cache (cache d)
        (cache (snd (use_keyboard E G action text key keys presses interval d))) /\
      stored_frame (cache (snd (use_keyboard E G action text key keys presses
                                             interval d)))
      = stored_frame (cache d) /\
      time_calls (cache (snd (use_keyboard E G action text key keys presses
                                           interval d)))
      = S (time_calls (cache d)) /\
      PAUSE (snd (use_keyboard E G action text key keys presses interval d))
      = PAUSE d).
Proof.
  split.
  - intros action x y button clicks end_x end_y amount duration.
    InputFacts.unfold_input.
    destruct (PyFloat.gt duration PyFloat.zero);
      (destruct (String.eqb action "click");
       [|destruct (String.eqb action "move");
         [|destruct (String.eqb action "drag");
           [|destruct (String.eqb action "scroll")]]]);
      destruct x, y, end_x, end_y, amount; cbn;
      InputFacts.desktop_cases; repeat split; reflexivity.
  - intros action text key keys presses interval.
    InputFacts.unfold_input.
    destruct (given text), (given key), (given_list keys);
      (destruct (String.eqb action "type");
       [|destruct (String.eqb action "press");
         [|destruct (String.eqb action "hotkey")]]);
      cbn; InputFacts.desktop_cases; repeat split; reflexivity.
Qed.

(** [use_mouse] raises [ValueError] exactly when the request is
    incomplete or unknown: a move without both coordinates, a drag without
    both its start and its end, a scroll without an amount, or an action
    that is none of the four; a click is never rejected. When it does,
    nothing has been asked of the desktop: no call of pyautogui is made,
    the pointer is not even read, and only the clock has been read. *)
Theorem use_mouse_rejects_before_acting (E : Env) (G : Gui) (action : string)
    (x y : option Z) (button : string) (clicks : Z)
    (end_x end_y amount : option Z) (duration : float) (d : Desk) :
  (((action = "move"%string /\ (x = None \/ y = None)) \/
    (action = "drag"%string /\
     (x = None \/ y = None \/ end_x = None \/ end_y = None)) \/
    (action = "scroll"%string /\ amount = None) \/
    (action <> "click"%string /\ action <> "move"%string /\
     action <> "drag"%string /\ action <> "scroll"%string))
   <-> exists message,
         fst (use_mouse E G action x y button clicks end_x end_y amount
                        duration d) = inl (ToolValueError message)) /\
  (forall message,
      fst (use_mouse E G action x y button clicks end_x end_y amount
                     duration d) = inl (ToolValueError message) ->
      gui_calls (snd (use_mouse E G action x y button clicks end_x end_y
                                amount duration d)) = gui_calls d /\
      cache (snd (use_mouse E G action x y button clicks end_x end_y amount
                            duration d)) = tick (cache d)).
Proof.
  InputFacts.unfold_input.
  destruct (PyFloat.gt duration PyFloat.zero);
    (destruct (String.eqb_spec action "click") as [->|N1];
     [|destruct (String.eqb_spec action "move") as [->|N2];
       [|destruct (String.eqb_spec action "drag") as [->|N3];
         [|destruct (String.eqb_spec action "scroll") as [->|N4]]]]);
    destruct x, y, end_x, end_y, amount; cbn; InputFacts.desktop_cases;
    (split;
     [split;
      [intros H; first [eexists; reflexivity|exfalso; intuition congruence]
      |intros [m H]; first [discriminate H|intuition congruence]]
     |intros m H; first [discriminate H|split; reflexivity]]).
Qed.

Lemma use_mouse_rejects_before_acting_witness :
  exists message,
    fst (use_mouse Demo.env DemoInput.gui "drag" (Some 10) (Some 20) "left" 1
                   (Some 30) None None PyFloat.zero DemoInput.desk)
    = inl (ToolValueError message) /\
    gui_calls (snd (use_mouse Demo.env DemoInput.gui "drag" (Some 10) (Some 20)
                              "left" 1 (Some 30) None None PyFloat.zero
                              DemoInput.desk)) = [].
Proof.
  destruct (use_mouse_rejects_before_acting Demo.env DemoInput.gui "drag"
              (Some 10) (Some 20) "left" 1 (Some 30) None None PyFloat.zero
              DemoInput.desk) as [[V _] K].
  destruct V as [message H].
  { right. left. split; [reflexivity|]. right. right. right. reflexivity. }
  exists message. split; [exact H|]. apply (K message H).
Defined.

(** [use_keyboard] raises [ValueError] exactly when the argument of the
    action is missing or empty (no text to type, no key to press, no keys
    for a hotkey) or the action is none of the three, and then no call of
    pyautogui has been made. Otherwise it makes exactly one call, whether
    that call raises or not: the text with the interval asked for, the key
    with its count of presses, or the keys of the hotkey; when it returns,
    ["characters"] is the length of the text typed and ["combo"] the keys
    joined by ["+"]. *)
Theorem use_keyboard_one_call (E : Env) (G : Gui) (action : string)
    (text key : option string) (keys : option (list string)) (presses : Z)
    (interval : float) (d : Desk) :
  (((action = "type"%string /\ given text = false) \/
    (action = "press"%string /\ given key = false) \/
    (action = "hotkey"%string /\ given_list keys = false) \/
    (action <> "type"%string /\ action <> "press"%string /\
     action <> "hotkey"%string))
   <-> exists message,
         fst (use_keyboard E G action text key keys presses interval d)
         = inl (ToolValueError message)) /\
  (forall message,
      fst (use_keyboard E G action text key keys presses interval d)
      = inl (ToolValueError message) ->
      gui_calls (snd (use_keyboard E G action text key keys presses interval d))
      = gui_calls d) /\
  ((forall message,
       fst (use_keyboard E G action text key keys presses interval d)
       <> inl (ToolValueError message)) ->
   exists c,
     gui_calls (snd (use_keyboard E G action text key keys presses interval d))
     = gui_calls d ++ [c] /\
     ((action = "type"%string /\
       c = Typewrite (default "" text) interval /\
       forall r,
         fst (use_keyboard E G action text key keys presses interval d) = inr r ->
         kr_text r = text /\
         kr_characters r = Some (String.length (default "" text))) \/
      (action = "press"%string /\
       c = Press (default "" key) presses interval /\
       forall r,
         fst (use_keyboard E G action text key keys presses interval d) = inr r ->
         kr_key r = key /\ kr_presses r = Some presses) \/
      (action = "hotkey"%string /\
       c = Hotkey (default [] keys) /\
       forall r,
         fst (use_keyboard E G action text key keys presses interval d) = inr r ->
         kr_keys r = keys /\
         kr_combo r = Some (String.concat "+" (default [] keys))))).
Proof.
  InputFacts.unfold_input.
  destruct (given text) eqn:Gt, (given key) eqn:Gk, (given_list keys) eqn:Gl;
    (destruct (String.eqb_spec action "type") as [->|N1];
     [|destruct (String.eqb_spec action "press") as [->|N2];
       [|destruct (String.eqb_spec action "hotkey") as [->|N3]]]);
    cbn; InputFacts.desktop_cases;
    (split;
     [split;
      [intros H; first [eexists; reflexivity|exfalso; intuition congruence]
      |intros [m H]; first [discriminate H|intuition congruence]]
     |split;
      [intros m H; first [discriminate H|reflexivity]
      |intros H;
       first
         [exfalso; eapply H; reflexivity
         |eexists; split; [reflexivity|];
          first
            [left; split; [reflexivity|]; split; [reflexivity|];
             intros r R; first [discriminate R|injection R as <-; split; reflexivity]
            |right; left; split; [reflexivity|]; split; [reflexivity|];
             intros r R; first [discriminate R|injection R as <-; split; reflexivity]
            |right; right; split; [reflexivity|]; split; [reflexivity|];
             intros r R; first [discriminate R|injection R as <-; split; reflexivity]]]]]).
Qed.

Lemma use_keyboard_one_call_witness :
  exists message,
    fst (use_keyboard Demo.env DemoInput.gui "type" (Some ""%string) None None
                      1 lit_0_05 DemoInput.desk)
    = inl (ToolValueError message) /\
    gui_calls (snd (use_keyboard Demo.env DemoInput.gui "type" (Some ""%string)
                                 None None 1 lit_0_05 DemoInput.desk)) = [].
Proof.
  destruct (use_keyboard_one_call Demo.env DemoInput.gui "type"
              (Some ""%string) None None 1 lit_0_05 DemoInput.desk)
    as [[V _] [K _]].
  destruct V as [message H].
  { left. split; reflexivity. }
  exists message. split; [exact H|]. apply (K message H).
Defined.

Module CalmFacts.

Ltac calm_cases C :=
  repeat match goal with
         | |- context [gui_raises ?G ?h ?c] => rewrite (C h c); cbn
         end.

Ltac new_calls_eq :=
  unfold new_calls; cbn [gui_calls snd];
  rewrite <- ?app_assoc; rewrite InputFacts.app_skipn; reflexivity.

End CalmFacts.

(** A click of [use_mouse] on a desktop where no call raises. With both
    coordinates the pointer is first moved there and the click is then
    made without coordinates, at the pointer: instantly and with 0.02 s
    between clicks when [duration] is not positive, over [duration] and
    with 0.1 s between clicks otherwise; the answer reports the
    coordinates asked for. With a coordinate missing the call is not
    rejected and the other coordinate is ignored: the click is made where
    the pointer is, and the answer reports the position read before the
    click. ["mouse"] is the position read last. *)
Theorem use_mouse_click_calls (E : Env) (G : Gui) (x y : option Z)
    (button : string) (clicks : Z) (end_x end_y amount : option Z)
    (duration : float) (d : Desk) :
  calm G ->
  exists r,
    use_mouse E G "click" x y button clicks end_x end_y amount duration d
    = (inr r, snd (use_mouse E G "click" x y button clicks end_x end_y amount
                             duration d)) /\
    mr_button r = Some button /\ mr_clicks r = Some clicks /\
    mr_mouse r
    = Some (position_at G
              (gui_calls (snd (use_mouse E G "click" x y button clicks end_x
                                         end_y amount duration d)))) /\
    match x, y with
    | Some vx, Some vy =>
        mr_x r = Some vx /\ mr_y r = Some vy /\
        new_calls d (snd (use_mouse E G "click" x y button clicks end_x end_y
                                    amount duration d))
        = if PyFloat.gt duration PyFloat.zero
          then [MoveTo vx vy duration true; Position; Position;
                Click None clicks lit_0_1 button; Position]
          else [MoveTo vx vy PyFloat.zero false;
                Click None clicks lit_0_02 button; Position]
    | _, _ =>
        mr_x r = Some (fst (position_at G (gui_calls d ++ [Position]))) /\
        mr_y r = Some (snd (position_at G (gui_calls d ++ [Position]))) /\
        new_calls d (snd (use_mouse E G "click" x y button clicks end_x end_y
                                    amount duration d))
        = [Position; Click None clicks lit_0_1 button; Position]
    end.
Proof.
  intros C. InputFacts.unfold_input.
  destruct (PyFloat.gt duration PyFloat.zero); destruct x, y; cbn;
    CalmFacts.calm_cases C;
    (eexists; split; [reflexivity|]); cbn;
    repeat (split; [reflexivity|]); CalmFacts.new_calls_eq.
Qed.

Lemma use_mouse_click_calls_witness :
  calm DemoInput.gui /\
  exists r,
    fst (use_mouse Demo.env DemoInput.gui "click" (Some 35) None "left" 2
                   None None None PyFloat.zero DemoInput.desk) = inr r /\
    mr_x r = Some 0 /\ mr_clicks r = Some 2.
Proof.
  assert (C : calm DemoInput.gui) by (intros h c; reflexivity).
  split; [exact C|].
  destruct (use_mouse_click_calls Demo.env DemoInput.gui (Some 35) None "left" 2
              None None None PyFloat.zero DemoInput.desk C)
    as (r & H & _ & Hc & _ & Hx & _).
  exists r. split; [rewrite H; reflexivity|]. split; [exact Hx|exact Hc].
Defined.

(** Moves, drags and scrolls of [use_mouse] on a desktop where no call
    raises. A drag moves the pointer to the start and then drags by the
    difference between the end and the start, so that the drag ends at
    the end asked for when it starts at the start; a [duration] of zero
    is replaced by 0.3 s, any other is passed as it is. A move is one call
    that moves to the point, instantly when [duration] is not positive. A
    scroll passes its coordinates only when both are given. Every one of
    them ends by reading the pointer for ["mouse"]. *)
Theorem use_mouse_motion_calls (E : Env) (G : Gui) (vx vy : Z)
    (button : string) (clicks : Z) (d : Desk) :
  calm G ->
  (forall ex ey amount duration,
      exists r,
        use_mouse E G "drag" (Some vx) (Some vy) button clicks (Some ex)
                  (Some ey) amount duration d
        = (inr r, snd (use_mouse E G "drag" (Some vx) (Some vy) button clicks
                                 (Some ex) (Some ey) amount duration d)) /\
        new_calls d (snd (use_mouse E G "drag" (Some vx) (Some vy) button
                                    clicks (Some ex) (Some ey) amount
                                    duration d))
        = [MoveTo vx vy PyFloat.zero true;
           Drag (ex - vx) (ey - vy) (duration_or_default duration) button;
           Position] /\
        (vx + (ex - vx), vy + (ey - vy)) = (ex, ey) /\
        duration_or_default PyFloat.zero = lit_0_3 /\
        mr_start r = Some (vx, vy) /\ mr_end r = Some (ex, ey) /\
        mr_button r = Some button /\ mr_x r = None /\ mr_clicks r = None) /\
  (forall end_x end_y amount duration,
      exists r,
        use_mouse E G "move" (Some vx) (Some vy) button clicks end_x end_y
                  amount duration d
        = (inr r, snd (use_mouse E G "move" (Some vx) (Some vy) button clicks
                                 end_x end_y amount duration d)) /\
        new_calls d (snd (use_mouse E G "move" (Some vx) (Some vy) button
                                    clicks end_x end_y amount duration d))
        = [if PyFloat.gt duration PyFloat.zero
           then MoveTo vx vy duration true
           else MoveTo vx vy PyFloat.zero false;
           Position; Position] /\
        mr_x r = Some vx /\ mr_y r = Some vy /\ mr_button r = None) /\
  (forall x y end_x end_y n duration,
      exists r,
        use_mouse E G "scroll" x y button clicks end_x end_y (Some n) duration d
        = (inr r, snd (use_mouse E G "scroll" x y button clicks end_x end_y
                                 (Some n) duration d)) /\
        new_calls d (snd (use_mouse E G "scroll" x y button clicks end_x end_y
                                    (Some n) duration d))
        = [Scroll n match x, y with
                    | Some sx, Some sy => Some (sx, sy)
                    | _, _ => None
                    end;
           Position; Position] /\
        mr_amount r = Some n).
Proof.
  intros C. split; [|split].
  - intros ex ey amount duration. InputFacts.unfold_input. cbn.
    CalmFacts.calm_cases C. eexists. split; [reflexivity|]. cbn.
    split; [CalmFacts.new_calls_eq|].
    split; [f_equal; lia|]. repeat split; reflexivity.
  - intros end_x end_y amount duration. InputFacts.unfold_input.
    destruct (PyFloat.gt duration PyFloat.zero); cbn;
      CalmFacts.calm_cases C; (eexists; split; [reflexivity|]); cbn;
      (split; [CalmFacts.new_calls_eq|]); repeat split; reflexivity.
  - intros x y end_x end_y n duration. InputFacts.unfold_input.
    destruct x, y; cbn; CalmFacts.calm_cases C;
      (eexists; split; [reflexivity|]); cbn;
      (split; [CalmFacts.new_calls_eq|]); reflexivity.
Qed.

Lemma use_mouse_motion_calls_witness :
  calm DemoInput.gui /\
  exists r,
    fst (use_mouse Demo.env DemoInput.gui "drag" (Some 100) (Some 100) "left" 1
                   (Some 300) (Some 250) None PyFloat.zero DemoInput.desk)
    = inr r /\
    mr_end r = Some (300, 250).
Proof.
  assert (C : calm DemoInput.gui) by (intros h c; reflexivity).
  split; [exact C|].
  destruct (use_mouse_motion_calls Demo.env DemoInput.gui 100 100 "left" 1
              DemoInput.desk C) as (D & _).
  destruct (D 300 250 None PyFloat.zero) as (r & H & _ & _ & _ & _ & He & _).
  exists r. split; [rewrite H; reflexivity|exact He].
Defined.

(** * The speed of the automation *)

Module SpeedFacts.

Lemma clamp_bounds v :
  PrimFloat.leb lit_0_01 (clamp_pause v) = true /\
  PrimFloat.leb (clamp_pause v) lit_0_5 = true.
Proof.
  unfold clamp_pause, py_max, py_min, PyFloat.gt, PyFloat.lt.
  destruct (PrimFloat.ltb v lit_0_5) eqn:A.
  - destruct (PrimFloat.ltb lit_0_01 v) eqn:B.
    + split; apply FloatMore.ltb_leb; assumption.
    + split; vm_compute; reflexivity.
  - destruct (PrimFloat.ltb lit_0_01 lit_0_5) eqn:B.
    + split; vm_compute; reflexivity.
    + vm_compute in B. discriminate B.
Qed.

Lemma documented n : 10 <= n <= 500 -> In n documented_pauses.
Proof.
  intros H. unfold documented_pauses. apply in_map_iff.
  exists (Z.to_nat (n - 10)). split; [lia|]. apply in_seq. lia.
Qed.

Lemma echo_all :
  forallb (fun n => match reported_pause_ms n with
                    | inr k => k =? n
                    | inl _ => false
                    end) documented_pauses = true.
Proof. vm_compute. reflexivity. Qed.

Lemma echo n : 10 <= n <= 500 -> reported_pause_ms n = inr n.
Proof.
  intros H. pose proof echo_all as A. rewrite forallb_forall in A.
  specialize (A n (documented n H)).
  destruct (reported_pause_ms n) as [e|k]; [discriminate A|].
  apply Z.eqb_eq in A. rewrite A. reflexivity.
Qed.

End SpeedFacts.

(** [set_speed] keeps the pause between 0.01 s and 0.5 s whatever it is
    asked: once [pause_ms] has been converted (it raises [OverflowError]
    before any change otherwise), [pyautogui.PAUSE] and [_DEFAULT_PAUSE]
    are both set to the clamped value, also when the report of the old
    pause then raises; no call of pyautogui is made and the frame cache is
    not touched. For the documented values, 10 to 500 ms, the answer
    reports as ["new_pause_ms"] the very value asked for. *)
Theorem set_speed_clamps (pause_ms : Z) (d : Desk) :
  match PyFloat.of_int pause_ms with
  | inl e =>
      set_speed pause_ms d = (inl (Raised e), d)
  | inr ms =>
      PAUSE (snd (set_speed pause_ms d))
      = clamp_pause (PrimFloat.div ms PyFloat.thousand) /\
      _DEFAULT_PAUSE (snd (set_speed pause_ms d))
      = PAUSE (snd (set_speed pause_ms d)) /\
      PrimFloat.leb lit_0_01 (PAUSE (snd (set_speed pause_ms d))) = true /\
      PrimFloat.leb (PAUSE (snd (set_speed pause_ms d))) lit_0_5 = true /\
      gui_calls (snd (set_speed pause_ms d)) = gui_calls d /\
      cache (snd (set_speed pause_ms d)) = cache d /\
      (10 <= pause_ms <= 500 ->
       forall r, fst (set_speed pause_ms d) = inr r ->
                 new_pause_ms r = pause_ms /\
                 py_int (PrimFloat.mul (PAUSE d) PyFloat.thousand)
                 = inr (old_pause_ms r))
  end.
Proof.
  unfold set_speed, tbind, get_action_pause, tlift, set_action_pause, tret.
  pose proof (SpeedFacts.echo pause_ms) as Echo. unfold reported_pause_ms in Echo.
  destruct (PyFloat.of_int pause_ms) as [e|ms]; [reflexivity|].
  pose proof (SpeedFacts.clamp_bounds (PrimFloat.div ms PyFloat.thousand))
    as [L U].
  destruct (py_int (PrimFloat.mul (PAUSE d) PyFloat.thousand)) as [e|o].
  { cbn. do 6 (split; [first [reflexivity|assumption]|]).
    intros _ r R. discriminate R. }
  destruct (py_int (PrimFloat.mul
                      (clamp_pause (PrimFloat.div ms PyFloat.thousand))
                      PyFloat.thousand)) as [e|n] eqn:N;
    cbn; do 6 (split; [first [reflexivity|assumption]|]);
    intros Range r R.
  - discriminate R.
  - injection R as <-. cbn. specialize (Echo Range). injection Echo as ->.
    split; reflexivity.
Qed.

Lemma set_speed_clamps_witness :
  10 <= 50 <= 500 /\
  exists r,
    fst (set_speed 50 DemoInput.desk) = inr r /\ new_pause_ms r = 50.
Proof.
  split; [lia|].
  pose proof (set_speed_clamps 50 DemoInput.desk) as H.
  assert (O : PyFloat.of_int 50 = inr 50%float) by (vm_compute; reflexivity).
  rewrite O in H. destruct H as (_ & _ & _ & _ & _ & _ & H).
  assert (R : exists r, fst (set_speed 50 DemoInput.desk) = inr r)
    by (vm_compute; eexists; reflexivity).
  destruct R as [r R]. exists r. split; [exact R|].
  apply (H ltac:(lia) r R).
Defined.

(** * When the desktop refuses *)

Module FaultFacts.

Ltac desktop_cases_eq :=
  repeat match goal with
         | |- context [gui_raises ?G ?h ?c] =>
             destruct (gui_raises G h c) eqn:?; cbn
         end.

Ltac last_call :=
  intros name H;
  first [discriminate H
        |injection H as <-; eexists _, _, _;
         split; [reflexivity|];
         split; [eassumption|];
         rewrite <- ?app_assoc; reflexivity].

End FaultFacts.

(** An exception of pyautogui stops [use_mouse] and [use_keyboard] at
    once: when a tool raises it, the call that raised is the last one
    made, so that nothing is asked of the desktop after a failure (a click
    is not made when the move before it has raised), and the calls made
    are those before the tool began followed by new ones. *)
Theorem device_fault_stops_tool (E : Env) (G : Gui) (d : Desk) :
  (forall action x y button clicks end_x end_y amount duration name,
      fst (use_mouse E G action x y button clicks end_x end_y amount
                     duration d) = inl (GuiException name) ->
      exists h c l,
        gui_calls (snd (use_mouse E G action x y button clicks end_x end_y
                                  amount duration d)) = h ++ [c] /\
        gui_raises G h c = Some name /\
        h ++ [c] = gui_calls d ++ l) /\
  (forall action text key keys presses interval name,
      fst (use_keyboard E G action text key keys presses interval d)
      = inl (GuiException name) ->
      exists h c l,
        gui_calls (snd (use_keyboard E G action text key keys presses
                                     interval d)) = h ++ [c] /\
        gui_raises G h c = Some name /\
        h ++ [c] = gui_calls d ++ l).
Proof.
  split.
  - intros action x y button clicks end_x end_y amount duration.
    InputFacts.unfold_input.
    destruct (PyFloat.gt duration PyFloat.zero);
      (destruct (String.eqb action "click");
       [|destruct (String.eqb action "move");
         [|destruct (String.eqb action "drag");
           [|destruct (String.eqb action "scroll")]]]);
      destruct x, y, end_x, end_y, amount; cbn;
      FaultFacts.desktop_cases_eq; FaultFacts.last_call.
  - intros action text key keys presses interval.
    InputFacts.unfold_input.
    destruct (given text), (given key), (given_list keys);
      (destruct (String.eqb action "type");
       [|destruct (String.eqb action "press");
         [|destruct (String.eqb action "hotkey")]]);
      cbn; FaultFacts.desktop_cases_eq; FaultFacts.last_call.
Qed.

Lemma device_fault_stops_tool_witness :
  fst (use_mouse Demo.env DemoInput.gui_failsafe "click" (Some 35) (Some 20)
                 "left" 1 None None None PyFloat.zero DemoInput.desk)
  = inl (GuiException "FailSafeException") /\
  exists h c,
    gui_calls (snd (use_mouse Demo.env DemoInput.gui_failsafe "click" (Some 35)
                              (Some 20) "left" 1 None None None PyFloat.zero
                              DemoInput.desk)) = h ++ [c] /\
    gui_raises DemoInput.gui_failsafe h c = Some "FailSafeException"%string.
Proof.
  assert (H : fst (use_mouse Demo.env DemoInput.gui_failsafe "click" (Some 35)
                             (Some 20) "left" 1 None None None PyFloat.zero
                             DemoInput.desk)
              = inl (GuiException "FailSafeException"))
    by (vm_compute; reflexivity).
  split; [exact H|].
  destruct (device_fault_stops_tool Demo.env DemoInput.gui_failsafe
              DemoInput.desk) as (M & _).
  destruct (M _ _ _ _ _ _ _ _ _ _ H) as (h & c & l & Hc & Hr & _).
  exists h, c. split; assumption.
Defined.

(** * The text queries and the scan, on the table they read *)

Module Tied.

Section Tied.

Variable E : Env.

(** What [find_text_on_screen] returns, on the table that the engine gives
    for the screenshot it takes. *)
Lemma text_query_inv query lang region minc w w' res :
  find_text_on_screen E query lang region minc w = (inr res, w') ->
  exists d,
    image_to_data E (screenshot_at E (shot_calls w) region) lang None = inr d /\
    text_matches E except_ValueError d query (fst (region_offset region))
                 (snd (region_offset region)) minc
    = inr (emitted E except_ValueError d query (fst (region_offset region))
                   (snd (region_offset region)) minc) /\
    res = sorted_reverse confidence
            (emitted E except_ValueError d query (fst (region_offset region))
                     (snd (region_offset region)) minc) /\
    w' = after_shot w.
Proof.
  intros H. unfold find_text_on_screen, bind in H.
  destruct (configure_pure E) as [r Hr]. rewrite Hr in H.
  destruct r as [e|cmd]; [discriminate|].
  unfold screenshot, lift in H.
  destruct (image_to_data E (screenshot_at E (shot_calls w) region) lang None)
    as [e|d]; [destruct region; discriminate|].
  exists d. split; [reflexivity|].
  assert (K : forall ox oy,
    (let (r0, w'0) :=
       match text_matches E except_ValueError d query ox oy minc with
       | inl e => (inl e, after_shot w)
       | inr a => (inr (sorted_reverse confidence a), after_shot w)
       end in (r0, w'0)) = (inr res, w') ->
    text_matches E except_ValueError d query ox oy minc
    = inr (emitted E except_ValueError d query ox oy minc) /\
    res = sorted_reverse confidence (emitted E except_ValueError d query ox oy minc) /\
    w' = after_shot w).
  { intros ox oy K.
    destruct (text_matches E except_ValueError d query ox oy minc)
      as [e|matches] eqn:T; [discriminate|].
    injection K as <- <-.
    rewrite <- (text_matches_emitted _ _ _ _ _ _ _ _ T). auto. }
  destruct region as [r|]; simpl in H |- *; apply K;
    destruct (text_matches E except_ValueError d query _ _ minc); exact H.
Qed.

(** What [find_text_in_ocr_cache] returns, on the payload served. *)
Lemma cached_query_tied query minc w w' res :
  find_text_in_ocr_cache E query minc w = (inr res, w') ->
  match served_payload E w with
  | Some d =>
      text_matches E except_ValueError_TypeError d query 0 0 minc
      = inr (emitted E except_ValueError_TypeError d query 0 0 minc) /\
      res = sorted_reverse confidence
              (emitted E except_ValueError_TypeError d query 0 0 minc)
  | None => res = []
  end.
Proof.
  unfold find_text_in_ocr_cache, bind, served_payload.
  rewrite FrameCacheFacts.get_cached_ocr_eq.
  destruct (stored_frame w) as [[a f]|];
    [|intros H; injection H as <- _; reflexivity].
  destruct (if PyFloat.gt (frame_age E w f) default_max_age_ms
            then None else ocr_data f) as [d|];
    [|intros H; injection H as <- _; reflexivity].
  unfold lift.
  destruct (text_matches E except_ValueError_TypeError d query 0 0 minc)
    as [e|matches] eqn:T; [discriminate|].
  intros H. injection H as <- _.
  rewrite <- (text_matches_emitted _ _ _ _ _ _ _ _ T). auto.
Qed.

(** What [ocr_full_screen] returns, on the table it converts. *)
Lemma scan_tied lang use_cache psm w w' l :
  ocr_full_screen E lang use_cache psm w = (inr l, w') ->
  exists d,
    scanned_table E lang use_cache psm w = Some d /\
    _ocr_data_to_matches E d default_min_confidence = inr l.
Proof.
  assert (Run : forall w0 : World,
    shot_calls w0 = shot_calls w ->
    (r <- (p <- ocr_full_screen_run E lang psm ;; ret (inr p)) ;;
     match r : list MatchDict + nat * OCRTable with
     | inl res => ret res
     | inr (_, data) => ocr_full_screen_publish E data
     end) w0 = (inr l, w') ->
    exists d,
      image_to_data E (screenshot_at E (shot_calls w) None) lang (Some psm)
      = inr d /\
      _ocr_data_to_matches E d default_min_confidence = inr l).
  { intros w0 Sh. unfold ocr_full_screen_run.
    unfold bind at 1. unfold bind at 1. unfold bind at 1.
    destruct (configure_pure E) as [r Hr]. rewrite Hr.
    destruct r as [e|cmd]; [discriminate|].
    unfold bind at 1. rewrite FrameCacheFacts.capture_forced.
    unfold bind at 1. unfold frame_image.
    rewrite FrameCacheFacts.take_frame_new.
    unfold bind at 1. unfold lift at 1.
    change (image (new_capture E None w0))
      with (screenshot_at E (shot_calls w0) None).
    rewrite Sh.
    destruct (image_to_data E (screenshot_at E (shot_calls w) None) lang
                            (Some psm)) as [e|d]; [discriminate|].
    unfold ret. unfold ocr_full_screen_publish, bind.
    rewrite cache_ocr_data_eq. unfold lift.
    intros H. exists d. split; [reflexivity|].
    injection H as -> _. reflexivity. }
  unfold ocr_full_screen, ocr_full_screen_scan, scanned_table, served_payload.
  destruct use_cache.
  - unfold bind at 1. unfold bind at 1.
    rewrite FrameCacheFacts.get_cached_ocr_eq.
    destruct (stored_frame w) as [[a f]|].
    + destruct (if PyFloat.gt (frame_age E w f) default_max_age_ms
                then None else ocr_data f) as [c|].
      * unfold bind, lift, ret.
        destruct (_ocr_data_to_matches E c default_min_confidence) as [e|r]
          eqn:C; [discriminate|].
        intros H. injection H as <- _. exists c. auto.
      * intros H. destruct (Run (tick w) eq_refl H) as (d & Hd & Hl).
        exists d. rewrite Hd. auto.
    + intros H. destruct (Run w eq_refl H) as (d & Hd & Hl).
      exists d. rewrite Hd. auto.
  - intros H. destruct (Run w eq_refl H) as (d & Hd & Hl).
    exists d. rewrite Hd. auto.
Qed.

(** The score behind a confidence that a loop has computed. *)
Lemma try_conf_inv caught d i conf :
  caught IndexError = false ->
  try_conf E caught d i = inr conf ->
  exists c,
    col_conf d !! i = Some c /\
    match py_float E c with
    | inr f => conf = PrimFloat.div f PyFloat.hundred
    | inl e => caught e = true /\ conf = PyFloat.zero
    end.
Proof.
  intros NI H.
  destruct (col_conf d !! i) as [c|] eqn:Hc.
  - exists c. split; [reflexivity|].
    rewrite (TableFacts.try_conf_cell E caught d i c Hc) in H.
    destruct (py_float E c) as [e|f].
    + destruct (caught e); [|discriminate]. injection H as <-. auto.
    + injection H as <-. reflexivity.
  - exfalso. unfold try_conf, index in H. rewrite Hc in H. simpl in H.
    rewrite NI in H. discriminate H.
Qed.

(** The row behind a match of a text query. *)
Lemma emitted_row caught d query ox oy minc m :
  caught IndexError = false ->
  In m (emitted E caught d query ox oy minc) ->
  exists i word c,
    col_text d !! i = Some word /\ text m = Some word /\
    col_conf d !! i = Some c /\
    match py_float E c with
    | inr f => confidence m = PrimFloat.div f PyFloat.hundred
    | inl e => caught e = true /\ confidence m = PyFloat.zero
    end /\
    PyFloat.ge (confidence m) minc = true.
Proof.
  intros NI Hm. apply TableFacts.in_appended in Hm.
  destruct Hm as (i & _ & Hi). apply TableFacts.text_match_at_some in Hi.
  destruct Hi as (word & conf & l & t & w & h & W & _ & _ & TC & G & _ & _ & _ & _ & ->).
  destruct (try_conf_inv _ _ _ _ NI TC) as (c & Hc & Hf).
  exists i, word, c. simpl. auto.
Qed.

(** The row behind a dict of the conversion. *)
Lemma converted_row d floor l m :
  _ocr_data_to_matches E d floor = inr l ->
  In m l ->
  exists i c,
    col_text d !! i = Some (md_text m) /\
    PyStr.all_space (md_text m) = false /\
    col_conf d !! i = Some c /\
    match py_float E c with
    | inr f => md_confidence m = PrimFloat.div f PyFloat.hundred
    | inl e => (e = ValueError \/ e = TypeError) /\
               md_confidence m = PyFloat.zero
    end /\
    PyFloat.lt (md_confidence m) floor = false.
Proof.
  intros T Hm. pose proof (TableFacts.for_range_appended _ _ _ T) as Ha.
  rewrite Ha in Hm. apply TableFacts.in_appended in Hm.
  destruct Hm as (i & _ & Hi). apply TableFacts.match_dict_at_some in Hi.
  destruct Hi as (word & conf & x & y & w & h & W & B & TC & G & _ & _ & _ & _ & ->).
  destruct (try_conf_inv _ _ _ _ eq_refl TC) as (c & Hc & Hf).
  exists i, c. simpl. repeat split; try assumption.
  destruct (py_float E c) as [e|f]; [|exact Hf].
  destruct Hf as [Ce ->]. split; [|reflexivity].
  destruct e; simpl in Ce; try discriminate; auto.
Qed.

(** A loop that has ended without an exception has run every iteration
    without one. *)
Lemma for_range_each {A} (body : nat -> Exc + option A) r l i :
  for_range body r = inr l -> In i r -> exists o, body i = inr o.
Proof.
  revert l. induction r as [|j r IH]; simpl; intros l H Hi; [contradiction|].
  destruct (body j) as [e|o] eqn:B; [discriminate|].
  destruct (for_range body r) as [e|l']; [destruct o; discriminate|].
  destruct Hi as [->|Hi]; [eauto|]. apply (IH l' eq_refl Hi).
Qed.

End Tied.

End Tied.

(** ** Ranking of the text queries *)

(** C6. Whenever [find_text_on_screen] returns a list, the engine has
    given a table for the screenshot just taken, and the list ranks the
    matches that the loop emits from the rows of that very table, in row
    order: the same matches, by descending confidence, two matches of
    equal confidence in the order of emission. Whenever
    [find_text_in_ocr_cache] returns a list, it ranks in the same way the
    matches emitted from the payload that the cache serves, and it is
    empty when the cache serves none. *)
Theorem text_results_ranked (E : Env) (query : string) (min_confidence : float)
    (w w' : World) (res : list ElementMatch) :
  (forall lang region,
      find_text_on_screen E query lang region min_confidence w = (inr res, w') ->
      exists d,
        image_to_data E (screenshot_at E (shot_calls w) region) lang None
        = inr d /\
        text_matches E except_ValueError d query (fst (region_offset region))
                     (snd (region_offset region)) min_confidence
        = inr (emitted E except_ValueError d query
                       (fst (region_offset region))
                       (snd (region_offset region)) min_confidence) /\
        res = sorted_reverse confidence
                (emitted E except_ValueError d query
                         (fst (region_offset region))
                         (snd (region_offset region)) min_confidence) /\
        ranked (emitted E except_ValueError d query
                        (fst (region_offset region))
                        (snd (region_offset region)) min_confidence) res) /\
  (find_text_in_ocr_cache E query min_confidence w = (inr res, w') ->
   match served_payload E w with
   | Some d =>
       text_matches E except_ValueError_TypeError d query 0 0 min_confidence
       = inr (emitted E except_ValueError_TypeError d query 0 0
                      min_confidence) /\
       res = sorted_reverse confidence
               (emitted E except_ValueError_TypeError d query 0 0
                        min_confidence) /\
       ranked (emitted E except_ValueError_TypeError d query 0 0
                       min_confidence) res
   | None => res = []
   end).
Proof.
  split.
  - intros lang region H.
    destruct (Tied.text_query_inv E _ _ _ _ _ _ _ H) as (d & Hd & T & R & _).
    exists d. split; [exact Hd|]. split; [exact T|]. split; [exact R|].
    rewrite R. apply sorted_emitted_ranked.
  - intros H. pose proof (Tied.cached_query_tied E _ _ _ _ _ H) as K.
    destruct (served_payload E w) as [d|]; [|exact K].
    destruct K as [T R]. split; [exact T|]. split; [exact R|].
    rewrite R. apply sorted_emitted_ranked.
Qed.

Lemma text_results_ranked_witness :
  exists res,
    find_text_on_screen Demo.env_ties "TAB" "eng" None 0.25%float empty_world
    = (inr res, after_shot empty_world) /\
    map text (emitted Demo.env_ties except_ValueError Demo.ties "TAB" 0 0
                      0.25%float)
    = [Some "tab one"; Some "tab two"; Some "tab three"; Some "tab four"]%string /\
    map text res
    = [Some "tab two"; Some "tab four"; Some "tab one"; Some "tab three"]%string /\
    ranked (emitted Demo.env_ties except_ValueError Demo.ties "TAB" 0 0
                    0.25%float) res.
Proof.
  eexists.
  assert (H : find_text_on_screen Demo.env_ties "TAB" "eng" None 0.25%float
                empty_world
              = (inr (sorted_reverse confidence
                        (emitted Demo.env_ties except_ValueError Demo.ties
                                 "TAB" 0 0 0.25%float)),
                 after_shot empty_world))
    by (vm_compute; reflexivity).
  split; [exact H|]. split; [vm_compute; reflexivity|].
  split; [vm_compute; reflexivity|].
  destruct (text_results_ranked Demo.env_ties "TAB" 0.25%float empty_world
              (after_shot empty_world)
              (sorted_reverse confidence
                 (emitted Demo.env_ties except_ValueError Demo.ties "TAB" 0 0
                          0.25%float))) as (F & _).
  destruct (F "eng"%string None H) as (d & Hd & _ & _ & R).
  change (inr Demo.ties = (inr d : Exc + OCRTable)) in Hd.
  injection Hd as <-. exact R.
Defined.

(** ** The conversion of the scan *)

(** C7, as the code has it. For every OCR table, when
    [_ocr_data_to_matches] with its default floor 0.0 returns, what it
    returns is the list, in row order, of the dicts of exactly the rows
    whose text is not blank and whose confidence is not below 0.0: a row
    whose text is empty or all white space is dropped, a row with a
    negative confidence is dropped, and every other row appears with its
    text and its confidence (0.0 for a score that is not a number). And
    whenever [ocr_full_screen] returns, it returns that conversion of the
    table it has read: the payload the cache serves when [use_cache] is
    set and there is one, the table of the engine for the new screenshot
    otherwise. *)
Theorem scan_keeps_nonblank_nonnegative (E : Env) :
  (forall (d : OCRTable) (l : list MatchDict),
      _ocr_data_to_matches E d default_min_confidence = inr l ->
      l = appended (match_dict_at E d default_min_confidence)
                   (range (length (col_text d))) /\
      (forall i word,
          col_text d !! i = Some word -> PyStr.all_space word = true ->
          match_dict_at E d default_min_confidence i = inr None) /\
      (forall i word conf,
          col_text d !! i = Some word -> PyStr.all_space word = false ->
          try_conf E except_ValueError_TypeError d i = inr conf ->
          PyFloat.lt conf PyFloat.zero = true ->
          match_dict_at E d default_min_confidence i = inr None) /\
      (forall i word conf,
          col_text d !! i = Some word -> PyStr.all_space word = false ->
          try_conf E except_ValueError_TypeError d i = inr conf ->
          PyFloat.lt conf PyFloat.zero = false ->
          exists m,
            match_dict_at E d default_min_confidence i = inr (Some m) /\
            In m l /\ md_text m = word /\ md_confidence m = conf) /\
      (forall m,
          In m l <->
          exists i word conf x y w h,
            col_text d !! i = Some word /\
            PyStr.all_space word = false /\
            try_conf E except_ValueError_TypeError d i = inr conf /\
            PyFloat.lt conf PyFloat.zero = false /\
            col_left d !! i = Some x /\ col_top d !! i = Some y /\
            col_width d !! i = Some w /\ col_height d !! i = Some h /\
            m = {| md_text := word; md_confidence := conf;
                   md_bbox := {| d_x := x; d_y := y; d_width := w;
                                 d_height := h;
                                 d_center_x := x + w / 2;
                                 d_center_y := y + h / 2 |} |})) /\
  (forall lang use_cache psm w w' l,
      ocr_full_screen E lang use_cache psm w = (inr l, w') ->
      exists d,
        scanned_table E lang use_cache psm w = Some d /\
        _ocr_data_to_matches E d default_min_confidence = inr l).
Proof.
  split; [|intros lang use_cache psm w w' l; apply Tied.scan_tied].
  intros d l Hd.
  pose proof (TableFacts.for_range_appended _ _ _ Hd) as Ha.
  split; [exact Ha|].
  split; [intros i word; apply TableFacts.match_dict_at_blank|].
  split.
  { intros i word conf W B TC G. apply TableFacts.index_some in W.
    unfold match_dict_at, ebind, default_min_confidence.
    rewrite W, TableFacts.blank_test, B, TC. cbv beta iota.
    rewrite G. reflexivity. }
  assert (Iff : forall m,
    In m l <->
    exists i word conf x y w h,
      col_text d !! i = Some word /\
      PyStr.all_space word = false /\
      try_conf E except_ValueError_TypeError d i = inr conf /\
      PyFloat.lt conf PyFloat.zero = false /\
      col_left d !! i = Some x /\ col_top d !! i = Some y /\
      col_width d !! i = Some w /\ col_height d !! i = Some h /\
      m = {| md_text := word; md_confidence := conf;
             md_bbox := {| d_x := x; d_y := y; d_width := w; d_height := h;
                           d_center_x := x + w / 2;
                           d_center_y := y + h / 2 |} |}).
  { intros m. rewrite Ha, TableFacts.in_appended. split.
    - intros (i & _ & Hi). exists i.
      apply TableFacts.match_dict_at_some in Hi. exact Hi.
    - intros (i & Hi). exists i.
      pose proof Hi as (word & _ & _ & _ & _ & _ & Hw & _).
      split.
      + apply TableFacts.in_range. apply (lookup_lt_Some _ _ _ Hw).
      + apply TableFacts.match_dict_at_some. exact Hi. }
  split; [|exact Iff].
  intros i word conf W B TC G.
  assert (Hi : In i (range (length (col_text d)))).
  { apply TableFacts.in_range. apply (lookup_lt_Some _ _ _ W). }
  destruct (Tied.for_range_each _ _ _ _ Hd Hi) as [o Ho].
  pose proof Ho as Ho'. apply TableFacts.index_some in W.
  unfold match_dict_at, ebind, default_min_confidence in Ho'.
  rewrite W, TableFacts.blank_test, B, TC in Ho'. cbv beta iota in Ho'.
  rewrite G in Ho'.
  destruct (index (col_left d) i) as [e|x]; [discriminate Ho'|].
  destruct (index (col_top d) i) as [e|y]; [discriminate Ho'|].
  destruct (index (col_width d) i) as [e|wd]; [discriminate Ho'|].
  destruct (index (col_height d) i) as [e|h]; [discriminate Ho'|].
  injection Ho' as <-.
  eexists. split; [exact Ho|]. split; [|split; reflexivity].
  rewrite Ha. apply TableFacts.in_appended. exists i. auto.
Qed.

Lemma scan_keeps_nonblank_nonnegative_witness :
  exists l,
    _ocr_data_to_matches Demo.env Demo.table default_min_confidence = inr l /\
    map md_text l = ["Submit"; "sub"; "Subway"]%string /\
    match_dict_at Demo.env Demo.table default_min_confidence 3 = inr None /\
    exists m, In m l /\ md_text m = "Subway"%string /\
              md_confidence m = PyFloat.zero.
Proof.
  assert (H : exists l,
    _ocr_data_to_matches Demo.env Demo.table default_min_confidence = inr l /\
    map md_text l = ["Submit"; "sub"; "Subway"]%string)
    by (eexists; split; vm_compute; reflexivity).
  destruct H as (l & H & Hl). exists l. split; [exact H|]. split; [exact Hl|].
  destruct (scan_keeps_nonblank_nonnegative Demo.env) as (C & _).
  destruct (C Demo.table l H) as (_ & _ & Neg & Keep & _).
  split.
  - apply (Neg 3%nat "subtle"%string (PrimFloat.div (-1)%float 100%float));
      vm_compute; reflexivity.
  - destruct (Keep 4%nat "Subway"%string PyFloat.zero) as (m & _ & Hin & Ht & Hc);
      try (vm_compute; reflexivity).
    exists m. auto.
Defined.

(** ** Confidence *)

(** C5, as the code has it. Every match that [find_text_on_screen] returns
    comes from a row of the table that the engine gave for the screenshot
    just taken; its confidence is [float(score) / 100.0] of that row's
    score with no clamping, so that a negative score gives a negative
    confidence, or 0.0 when [float] raised [ValueError], the only exception
    that this loop catches; and it is at least the floor. The same holds
    of every match that [find_text_in_ocr_cache] returns, on the payload
    that the cache serves, and of every dict that [_ocr_data_to_matches]
    returns, on its table; these two loops catch [TypeError] as well. So no
    match returned carries a negative confidence when the floor is not
    negative. On a table with aligned columns whose scores all convert or
    raise an exception that the loop catches, no token makes the call
    raise. *)
Theorem confidence_conversion (E : Env) (query : string)
    (min_confidence : float) :
  (forall lang region w w' res,
      find_text_on_screen E query lang region min_confidence w = (inr res, w') ->
      exists d,
        image_to_data E (screenshot_at E (shot_calls w) region) lang None
        = inr d /\
        Forall (fun m =>
                  exists i word c,
                    col_text d !! i = Some word /\ text m = Some word /\
                    col_conf d !! i = Some c /\
                    match py_float E c with
                    | inr f => confidence m = PrimFloat.div f PyFloat.hundred
                    | inl e => e = ValueError /\ confidence m = PyFloat.zero
                    end /\
                    PyFloat.ge (confidence m) min_confidence = true) res /\
        (PyFloat.ge min_confidence PyFloat.zero = true ->
         Forall (fun m => PyFloat.lt (confidence m) PyFloat.zero = false) res)) /\
  (forall w w' res,
      find_text_in_ocr_cache E query min_confidence w = (inr res, w') ->
      match served_payload E w with
      | Some d =>
          Forall (fun m =>
                    exists i word c,
                      col_text d !! i = Some word /\ text m = Some word /\
                      col_conf d !! i = Some c /\
                      match py_float E c with
                      | inr f => confidence m = PrimFloat.div f PyFloat.hundred
                      | inl e => (e = ValueError \/ e = TypeError) /\
                                 confidence m = PyFloat.zero
                      end /\
                      PyFloat.ge (confidence m) min_confidence = true) res
      | None => res = []
      end /\
      (PyFloat.ge min_confidence PyFloat.zero = true ->
       Forall (fun m => PyFloat.lt (confidence m) PyFloat.zero = false) res)) /\
  (forall d floor l,
      _ocr_data_to_matches E d floor = inr l ->
      Forall (fun m =>
                exists i c,
                  col_text d !! i = Some (md_text m) /\
                  col_conf d !! i = Some c /\
                  match py_float E c with
                  | inr f => md_confidence m = PrimFloat.div f PyFloat.hundred
                  | inl e => (e = ValueError \/ e = TypeError) /\
                             md_confidence m = PyFloat.zero
                  end /\
                  PyFloat.lt (md_confidence m) floor = false) l) /\
  (forall lang region w d,
      (exists cmd, fst (_configure_tesseract E w) = inr cmd) ->
      image_to_data E (screenshot_at E (shot_calls w) region) lang None = inr d ->
      well_formed d ->
      Forall (convertible E except_ValueError) (col_conf d) ->
      exists res,
        find_text_on_screen E query lang region min_confidence w
        = (inr res, after_shot w)) /\
  (forall w d,
      served_payload E w = Some d ->
      well_formed d ->
      Forall (convertible E except_ValueError_TypeError) (col_conf d) ->
      exists res,
        fst (find_text_in_ocr_cache E query min_confidence w) = inr res) /\
  (forall d floor,
      well_formed d ->
      Forall (convertible E except_ValueError_TypeError) (col_conf d) ->
      exists l, _ocr_data_to_matches E d floor = inr l).
Proof.
  assert (NonNeg : forall caught d ox oy,
    PyFloat.ge min_confidence PyFloat.zero = true ->
    Forall (fun m => PyFloat.lt (confidence m) PyFloat.zero = false)
           (sorted_reverse confidence
              (emitted E caught d query ox oy min_confidence))).
  { intros caught d ox oy Z0.
    pose proof (emitted_floor E caught d query ox oy min_confidence) as F.
    rewrite List.Forall_forall in F |- *. intros m Hm.
    apply (Permutation_in _ (Permutation_sym
             (SortedReverse.sorted_reverse_perm confidence _))) in Hm.
    unfold PyFloat.ge, PyFloat.lt in *.
    apply (FloatOrder.leb_leb_not_ltb _ _ _ Z0 (F m Hm)). }
  split.
  { intros lang region w w' res H.
    destruct (Tied.text_query_inv E _ _ _ _ _ _ _ H) as (d & Hd & _ & -> & _).
    exists d. split; [exact Hd|]. split; [|apply NonNeg].
    apply List.Forall_forall. intros m Hm.
    apply (Permutation_in _ (Permutation_sym
             (SortedReverse.sorted_reverse_perm confidence _))) in Hm.
    destruct (Tied.emitted_row E _ _ _ _ _ _ _ eq_refl Hm)
      as (i & word & c & W & Tx & C & F & G).
    exists i, word, c. repeat split; try assumption.
    destruct (py_float E c) as [e|f]; [|exact F].
    destruct F as [Ce ->]. split; [|reflexivity].
    destruct e; simpl in Ce; try discriminate; reflexivity. }
  split.
  { intros w w' res H. pose proof (Tied.cached_query_tied E _ _ _ _ _ H) as K.
    destruct (served_payload E w) as [d|].
    - destruct K as [_ ->]. split; [|apply NonNeg].
      apply List.Forall_forall. intros m Hm.
      apply (Permutation_in _ (Permutation_sym
               (SortedReverse.sorted_reverse_perm confidence _))) in Hm.
      destruct (Tied.emitted_row E _ _ _ _ _ _ _ eq_refl Hm)
        as (i & word & c & W & Tx & C & F & G).
      exists i, word, c. repeat split; try assumption.
      destruct (py_float E c) as [e|f]; [|exact F].
      destruct F as [Ce ->]. split; [|reflexivity].
      destruct e; simpl in Ce; try discriminate; auto.
    - subst res. split; [reflexivity|]. intros _. constructor. }
  split.
  { intros d floor l H. apply List.Forall_forall. intros m Hm.
    destruct (Tied.converted_row E _ _ _ _ H Hm) as (i & c & W & _ & C & F & G).
    exists i, c. auto. }
  split.
  { intros lang region w d [cmd Hc] Hd W C.
    unfold find_text_on_screen, bind.
    destruct (configure_pure E) as [r Hr]. rewrite Hr in Hc |- *.
    simpl in Hc. subst r.
    unfold screenshot, lift. rewrite Hd.
    assert (T : forall ox oy,
      text_matches E except_ValueError d query ox oy min_confidence
      = inr (emitted E except_ValueError d query ox oy min_confidence)).
    { intros ox oy. apply TableFacts.for_range_total.
      intros i Hi. apply TableFacts.in_range in Hi.
      apply TableFacts.text_match_at_total; assumption. }
    destruct region as [r|]; simpl; rewrite T; eexists; reflexivity. }
  split.
  { intros w d S W C. unfold find_text_in_ocr_cache, bind.
    rewrite FrameCacheFacts.get_cached_ocr_eq.
    unfold served_payload in S.
    destruct (stored_frame w) as [[a f]|]; [|discriminate S].
    rewrite S. unfold lift.
    assert (T : text_matches E except_ValueError_TypeError d query 0 0
                             min_confidence
                = inr (emitted E except_ValueError_TypeError d query 0 0
                               min_confidence)).
    { apply TableFacts.for_range_total.
      intros i Hi. apply TableFacts.in_range in Hi.
      apply TableFacts.text_match_at_total; assumption. }
    rewrite T. eexists. reflexivity. }
  intros d floor W C. eexists. apply TableFacts.for_range_total.
  intros i Hi. apply TableFacts.in_range in Hi.
  apply TableFacts.match_dict_at_total; assumption.
Qed.

Lemma confidence_conversion_witness :
  well_formed Demo.table /\
  Forall (convertible Demo.env except_ValueError_TypeError)
         (col_conf Demo.table) /\
  exists res,
    find_text_on_screen Demo.env "sub" "eng" None 0%float empty_world
    = (inr res, after_shot empty_world) /\
    map text res = [Some "Submit"; Some "sub"; Some "Subway"]%string /\
    Forall (fun m => PyFloat.lt (confidence m) PyFloat.zero = false) res.
Proof.
  assert (W : well_formed Demo.table) by (repeat split; reflexivity).
  assert (C : Forall (convertible Demo.env except_ValueError_TypeError)
                     (col_conf Demo.table))
    by (repeat constructor).
  split; [exact W|]. split; [exact C|].
  assert (H : exists res,
    find_text_on_screen Demo.env "sub" "eng" None 0%float empty_world
    = (inr res, after_shot empty_world) /\
    map text res = [Some "Submit"; Some "sub"; Some "Subway"]%string)
    by (eexists; split; vm_compute; reflexivity).
  destruct H as (res & H & Ht). exists res.
  split; [exact H|]. split; [exact Ht|].
  destruct (confidence_conversion Demo.env "sub" 0%float) as (F & _).
  destruct (F _ _ _ _ _ H) as (d & _ & _ & N).
  apply N. vm_compute. reflexivity.
Defined.



(** * The full scan of [analyze_screen], on the table it reads *)

(** The full scan of [analyze_screen] (neither [find_text] nor
    [find_image] given): when it returns, [ocr_full_screen] has returned
    the conversion of the table it read, ["total_detected"] counts the
    tokens of that conversion, the elements are at most 50, each is the
    element of one of those tokens and has a confidence that is at least
    the threshold; when no token of the conversion has a NaN confidence,
    the elements are the tokens that pass the threshold among the first 50
    by descending confidence, in that order. ["from_cache"] says whether
    [use_cache] was set and a frame was stored when the call began. *)
Theorem analyze_full_scan (E : Env) (screen : Z * Z)
    (find_text find_image : option string) (min_confidence : float)
    (use_cache : bool) (w w' : World) (r : Analysis) :
  given find_image = false ->
  given find_text = false ->
  analyze_screen E screen find_text find_image min_confidence use_cache w
  = (inr r, w') ->
  exists d all_text,
    scanned_table E "eng" use_cache 3 (scan_start E use_cache w) = Some d /\
    _ocr_data_to_matches E d default_min_confidence = inr all_text /\
    ocr_full_screen E "eng" use_cache 3 (scan_start E use_cache w)
    = (inr all_text, w') /\
    an_total_detected r = Some (length all_text) /\
    (length (an_elements r) <= 50)%nat /\
    (length (an_elements r) <= length all_text)%nat /\
    Forall (fun e => el_type e = TypeText /\
                     PyFloat.ge (el_confidence e) min_confidence = true /\
                     exists m, In m all_text /\ e = scan_element m)
           (an_elements r) /\
    (no_nan md_confidence all_text ->
     an_elements r = top_elements all_text min_confidence /\
     descending el_confidence (an_elements r)) /\
    an_from_cache r = Some (use_cache && bool_decide (is_Some (stored_frame w))).
Proof.
  intros Fi Ft. rewrite AnalyzeFacts.analyze_unfold. cbv zeta.
  rewrite Fi, Ft.
  destruct (AnalyzeFacts.prelude_eq E w) as (age & Hage & Hsome & _).
  rewrite Hage. cbn [fst].
  rewrite (AnalyzePaths.bind_inr _ _ (after_prelude E w) tt
             (scan_start E use_cache w))
    by (unfold scan_start; destruct use_cache; reflexivity).
  unfold bind at 1.
  destruct (ocr_full_screen E "eng" use_cache 3 (scan_start E use_cache w))
    as [[e|all_text] w2] eqn:O; [discriminate|].
  intros H. injection H as <- <-.
  cbn [an_total_detected an_elements an_from_cache].
  destruct (Tied.scan_tied E _ _ _ _ _ _ O) as (d & Hd & Hl).
  exists d, all_text. split; [exact Hd|]. split; [exact Hl|].
  split; [reflexivity|]. split; [reflexivity|].
  assert (L : (length (top_elements all_text min_confidence)
               <= length (firstn 50 (sorted_reverse md_confidence all_text)))%nat).
  { unfold top_elements. rewrite length_map. apply List.filter_length_le. }
  split; [rewrite length_firstn in L; lia|].
  split.
  { rewrite length_firstn in L.
    rewrite <- (Permutation_length
                  (SortedReverse.sorted_reverse_perm md_confidence all_text)) in L.
    lia. }
  split.
  { apply List.Forall_forall. intros e He. unfold top_elements in He.
    apply in_map_iff in He. destruct He as (m & <- & Hm).
    apply filter_In in Hm. destruct Hm as [Hm G].
    split; [reflexivity|]. split; [exact G|]. exists m. split; [|reflexivity].
    apply AnalyzePaths.in_firstn in Hm.
    apply (Permutation_in _ (Permutation_sym
             (SortedReverse.sorted_reverse_perm md_confidence all_text))).
    exact Hm. }
  split.
  { intros N. split; [reflexivity|].
    unfold top_elements. apply AnalyzePaths.sorted_map.
    apply AnalyzePaths.sorted_filter. apply AnalyzePaths.sorted_firstn.
    apply (SortedReverse.sorted_reverse_correct md_confidence all_text N). }
  f_equal. f_equal. apply bool_decide_ext. exact Hsome.
Qed.

Lemma analyze_full_scan_witness :
  exists r,
    given None = false /\
    analyze_screen Demo.env (1920, 1080) None None 0.25%float true Demo.world_ocr
    = (inr r, snd (analyze_screen Demo.env (1920, 1080) None None 0.25%float
                                  true Demo.world_ocr)) /\
    an_total_detected r = Some 4%nat /\
    (length (an_elements r) <= 50)%nat /\
    an_from_cache r = Some true.
Proof.
  assert (H : exists r,
    analyze_screen Demo.env (1920, 1080) None None 0.25%float true Demo.world_ocr
    = (inr r, snd (analyze_screen Demo.env (1920, 1080) None None 0.25%float
                                  true Demo.world_ocr)) /\
    an_total_detected r = Some 4%nat)
    by (vm_compute; eexists; split; reflexivity).
  destruct H as (r & H & T). exists r. split; [reflexivity|]. split; [exact H|].
  split; [exact T|].
  destruct (analyze_full_scan Demo.env _ None None _ _ _ _ _ eq_refl eq_refl H)
    as (d & l & _ & _ & _ & _ & L & _ & _ & _ & C).
  split; [exact L|]. rewrite C. vm_compute. reflexivity.
Defined.
